(** * Cost model engine: rates, policies, block costing, project rollup

    A shallow embedding of [engine/CostCalculationEngine.ts] and of the
    configuration types of [config/cost-model-config.ts].

    JavaScript numbers are IEEE-754 binary64 values.  The engine is written
    once, over an interface [JsNumber] of the arithmetic it uses, and read
    at two instances:
    - [R_JsNumber], exact real arithmetic, in which the algebraic
      properties are proved (no rounding, no non-finite values);
    - [Float_JsNumber], the kernel's binary64 floats, in which the code is
      run on concrete inputs where infinities and NaN matter.

    A quotient by zero and [Math.pow] at a non-positive base have no
    counterpart among the reals; a statement over the reals that would
    depend on one carries the hypothesis that excludes it.  A property
    access on [undefined] is a thrown [TypeError]: functions that can reach
    one return a [result]. *)

From Stdlib Require Import Reals Lra Lia ZArith List String Ascii Bool.
From Stdlib Require Import Decimal DecimalString.
From Stdlib Require PrimFloat Uint63.
Import ListNotations.

Set Implicit Arguments.

(* ================================================================== *)
(** ** JavaScript numbers *)
(* ================================================================== *)

Declare Scope js_scope.
Delimit Scope js_scope with js.

Class JsNumber (num : Type) : Type := {
  ofZ : Z -> num;                 (* an integer literal *)
  add : num -> num -> num;
  sub : num -> num -> num;
  mul : num -> num -> num;
  div : num -> num -> num;
  neg : num -> num;
  Math_abs : num -> num;
  ltb : num -> num -> bool;       (* a < b *)
  leb : num -> num -> bool;       (* a <= b *)
  eqb : num -> num -> bool;       (* a === b *)
  isNaN : num -> bool;
  isFinite : num -> bool
}.

Notation "a + b" := (add a b) : js_scope.
Notation "a - b" := (sub a b) : js_scope.
Notation "a * b" := (mul a b) : js_scope.
Notation "a / b" := (div a b) : js_scope.
Notation "- a" := (neg a) : js_scope.
Notation "a <? b" := (ltb a b) : js_scope.
Notation "a <=? b" := (leb a b) : js_scope.
Notation "a >? b" := (ltb b a) : js_scope.
Notation "a >=? b" := (leb b a) : js_scope.
Notation "a === b" := (eqb a b) (at level 70) : js_scope.

Section Numbers.
Context {num : Type} `{JsNumber num}.
Local Open Scope js_scope.

(** A decimal literal [n/d] with [d] a power of ten, such as [0.15]: the
    quotient of two exactly representable integers, which binary64
    division rounds as the literal is rounded. *)
Definition lit (n d : Z) : num := ofZ n / ofZ d.

(** ToBoolean on a number: false on [0], [-0] and [NaN]. *)
Definition truthy (x : num) : bool := negb (x === ofZ 0) && negb (isNaN x).

(** [x || d] where [x] is a number. *)
Definition num_or (x d : num) : num := if truthy x then x else d.

(** [x || d] where [x] may be [undefined]. *)
Definition opt_or (x : option num) (d : num) : num :=
  match x with
  | Some v => num_or v d
  | None => d
  end.
End Numbers.

(** *** Exact real arithmetic *)

Definition Rltb (x y : R) : bool := if Rlt_dec x y then true else false.
Definition Rleb (x y : R) : bool := if Rle_dec x y then true else false.
Definition Reqb (x y : R) : bool := if Req_dec_T x y then true else false.

#[export] Instance R_JsNumber : JsNumber R := {|
  ofZ := IZR;
  add := Rplus;
  sub := Rminus;
  mul := Rmult;
  div := Rdiv;
  neg := Ropp;
  Math_abs := Rabs;
  ltb := Rltb;
  leb := Rleb;
  eqb := Reqb;
  isNaN := fun _ => false;
  isFinite := fun _ => true
|}.

(** *** binary64 *)

Definition float_ofZ (z : Z) : PrimFloat.float :=
  match z with
  | Z0 => PrimFloat.of_uint63 (Uint63.of_Z 0)
  | Zpos _ => PrimFloat.of_uint63 (Uint63.of_Z z)
  | Zneg _ => PrimFloat.opp (PrimFloat.of_uint63 (Uint63.of_Z (Z.opp z)))
  end.

Definition float_isNaN (x : PrimFloat.float) : bool := negb (PrimFloat.eqb x x).

Definition float_isFinite (x : PrimFloat.float) : bool :=
  PrimFloat.ltb (PrimFloat.abs x) PrimFloat.infinity.

#[export] Instance Float_JsNumber : JsNumber PrimFloat.float := {|
  ofZ := float_ofZ;
  add := PrimFloat.add;
  sub := PrimFloat.sub;
  mul := PrimFloat.mul;
  div := PrimFloat.div;
  neg := PrimFloat.opp;
  Math_abs := PrimFloat.abs;
  ltb := PrimFloat.ltb;
  leb := PrimFloat.leb;
  eqb := PrimFloat.eqb;
  isNaN := float_isNaN;
  isFinite := float_isFinite
|}.

(* ================================================================== *)
(** ** Strings *)
(* ================================================================== *)

(** Strings are byte strings; the case and white-space functions below are
    those of JavaScript on ASCII text. *)

Definition lower_ascii (c : ascii) : ascii :=
  let n := nat_of_ascii c in
  if (Nat.leb 65 n && Nat.leb n 90)%bool then ascii_of_nat (n + 32) else c.

Fixpoint toLowerCase (s : string) : string :=
  match s with
  | EmptyString => EmptyString
  | String c s' => String (lower_ascii c) (toLowerCase s')
  end.

(** [s.includes(t)] *)
Fixpoint includes (t s : string) : bool :=
  if String.prefix t s then true
  else match s with
       | EmptyString => false
       | String _ s' => includes t s'
       end.

(** White space [\s] and line terminators, on ASCII. *)
Definition is_space (c : ascii) : bool :=
  let n := nat_of_ascii c in
  (Nat.eqb n 32 || (Nat.leb 9 n && Nat.leb n 13))%bool.

Definition is_line_terminator (c : ascii) : bool :=
  let n := nat_of_ascii c in (Nat.eqb n 10 || Nat.eqb n 13)%bool.

Fixpoint trimStart (s : string) : string :=
  match s with
  | String c s' => if is_space c then trimStart s' else s
  | EmptyString => EmptyString
  end.

Fixpoint rev_string (s acc : string) : string :=
  match s with
  | EmptyString => acc
  | String c s' => rev_string s' (String c acc)
  end.

Definition trim (s : string) : string :=
  rev_string (trimStart (rev_string (trimStart s) EmptyString)) EmptyString.

(* ================================================================== *)
(** ** Results of calls that may throw *)
(* ================================================================== *)

Inductive Exception : Type :=
| TypeError (msg : string).

Inductive result (A : Type) : Type :=
| Returns (a : A)
| Throws (e : Exception).

Arguments Returns {A} a.
Arguments Throws {A} e.

Definition bind {A B : Type} (r : result A) (k : A -> result B) : result B :=
  match r with
  | Returns a => k a
  | Throws e => Throws e
  end.

Notation "'let*' x ':=' r 'in' k" := (bind r (fun x => k))
  (at level 10, x name, r at level 100, k at level 200).

(** [xs.map(f)], and the loop [for (const x of xs) results.push(f(x))],
    where [f] may throw: the first exception ends the traversal. *)
Fixpoint mapM {A B : Type} (f : A -> result B) (xs : list A) : result (list B) :=
  match xs with
  | [] => Returns []
  | x :: xs' =>
      let* y := f x in
      let* ys := mapM f xs' in
      Returns (y :: ys)
  end.

(* ================================================================== *)
(** ** Configuration (cost-model-config.ts) *)
(* ================================================================== *)

(** Objects with a single field are flattened into their owner
    ([usefulLife.years] is [usefulLife_years], [marginRules.rules] is
    [marginRules]); a field name shared by two interfaces carries a
    prefix on all but one of them. *)

Record FXRateTable (num : Type) : Type := {
  CAD : num;
  EUR : num;
  AUD : num;
  GBP : num
}.

Record FXRates (num : Type) : Type := {
  effectiveDate : string;
  baseCurrency : string;
  rates : FXRateTable num;
  source : string;
  lockedUntil : option string
}.

Record PenetrationRate (num : Type) : Type := {
  metersPerHour : num;
  pr_rockType : string
}.

Record Availability (num : Type) : Type := {
  planned : num;
  mechanical : num;
  operational : num
}.

Record ProjectParameters (num : Type) : Type := {
  projectCode : string;
  siteName : string;
  specificGravity : num;
  lifeOfMine_years : Z;
  lifeOfMine_startYear : Z;
  penetrationRate : list (PenetrationRate num);
  availability : Availability num;
  precisionTolerance_mm : num;
  roboticCycleTime_seconds : num;
  autonomyLevel : string
}.

Record EquipmentSpecs (num : Type) : Type := {
  powerKW : option num;
  weightKG : option num;
  capacityUnit : option string;
  capacity : option num
}.

Record EquipmentItem (num : Type) : Type := {
  itemCode : string;
  name : string;
  category : string;
  baseCost : num;
  currency : string;
  costUnit : string;
  specs : EquipmentSpecs num;
  usefulLife_years : num;
  salvageValue : num;
  vendor : string;
  leadTimeWeeks : num;
  warrantyMonths : num
}.

Record EquipmentCatalog (num : Type) : Type := {
  items : list (EquipmentItem num);
  lastUpdated : string;
  approvedBy : string
}.

Record LaborRole (num : Type) : Type := {
  roleCode : string;
  title : string;
  role_category : string;
  annualRate : num;
  role_currency : string;
  rateType : string;
  utilizationFactor : num;
  burdenRate : num;
  certifications : list string;
  minimumExperience_years : num
}.

Record LaborCatalog (num : Type) : Type := {
  roles : list (LaborRole num);
  jurisdiction : string;
  collectiveAgreement : option string;
  labor_lastUpdated : string
}.

Record EquipmentRates (num : Type) : Type := {
  er_itemCode : string;
  costPerHour : num;
  costPerDay : num;
  costPerMonth : num;
  costPerYear : num;
  depreciationPerHour : num;
  maintenancePerHour : num;
  hoursPerDay : num;
  daysPerMonth : num;
  utilizationAssumption : num
}.

Record LaborRates (num : Type) : Type := {
  lr_roleCode : string;
  loadedHourlyRate : num;
  loadedDailyRate : num;
  loadedMonthlyRate : num;
  baseRate : num;
  benefits : num;
  lr_overhead : num;
  effectiveHourlyRate : num
}.

Record ConsumableRates (num : Type) : Type := {
  cr_itemCode : string;
  cr_name : string;
  cr_costPerMeter : num;
  cr_costPerTonne : num;
  cr_costPerCycle : num;
  wearCurve : list (num * num);
  rockTypeFactors : list (string * num)
}.

Record FuelScenario (num : Type) : Type := {
  fs_name : string;
  multiplier : num;
  probability : num
}.

Record FuelRates (num : Type) : Type := {
  fuelType : string;
  baseCostPerUnit : num;
  unit_ : string;
  scenarios : list (FuelScenario num);
  carbonCostPerUnit : option num
}.

Record MarginRule (num : Type) : Type := {
  costCategory : string;
  marginPercent : num;
  justification : string;
  mr_approvedBy : string;
  validFrom : string;
  validTo : option string
}.

Record RiskPremium (num : Type) : Type := {
  attribute : string;
  condition : string;
  premiumPercent : num;
  rationale : string
}.

Record VolumeDiscountTier (num : Type) : Type := {
  minQuantity : num;
  maxQuantity : num;
  discountPercent : num;
  tier_category : string
}.

Record AllocationRule : Type := {
  costType : string;
  allocationMethod : string;
  allocationBasis : string
}.

Record CalculatorSettings (num : Type) : Type := {
  contingencyPercent : num;
  roundingPrecision : num;
  projectCurrency : string
}.

Record AggregatorSettings (num : Type) : Type := {
  fiscalYearStartMonth : num;
  discountRate : num;
  taxRate : num
}.

Record CostModelConfig (num : Type) : Type := {
  version : string;
  modelName : string;
  lastModified : string;
  modifiedBy : string;
  fxRates : FXRates num;
  projectParameters : ProjectParameters num;
  equipmentCatalog : EquipmentCatalog num;
  laborCatalog : LaborCatalog num;
  equipmentRates : option (list (EquipmentRates num));
  consumableRates : option (list (ConsumableRates num));
  laborRates : option (list (LaborRates num));
  fuelRates : option (list (FuelRates num));
  marginRules : list (MarginRule num);
  riskPremiums : list (RiskPremium num);
  volumeDiscounts : list (VolumeDiscountTier num);
  allocationRules : list AllocationRule;
  calculatorSettings : CalculatorSettings num;
  aggregatorSettings : AggregatorSettings num
}.

(* ================================================================== *)
(** ** Blocks, cost results, cash flows, summaries *)
(* ================================================================== *)

Record BlockCharacteristics (num : Type) : Type := {
  blockId : string;
  depth : num;
  tonnage : num;
  volume : num;
  grade : num;
  gradeUnit : string;
  rockType : string;
  hardness : num;
  abrasivity : num;
  strikeLength : num;
  width : num;
  height : num
}.

Record BreakdownLine (num : Type) : Type := {
  bd_category : string;
  cost : num;
  percentOfTotal : num
}.

Record CapexComponent (num : Type) : Type := {
  equipmentDepreciation : num;
  infrastructureAllocation : num;
  capex_total : num
}.

Record OpexComponent (num : Type) : Type := {
  labor : num;
  consumables : num;
  energy : num;
  maintenance : num;
  overhead : num;
  opex_total : num
}.

(** [{ rule | risk | tier : string; amount : number }] *)
Record Applied (num : Type) : Type := {
  applied_key : string;
  amount : num
}.

Record BlockCostResult (num : Type) : Type := {
  result_blockId : string;
  calculatedAt : string;
  configVersion : string;
  costPerTonne : num;
  costPerMeter : num;
  breakdown : list (BreakdownLine num);
  capexComponent : CapexComponent num;
  opexComponent : OpexComponent num;
  appliedMargins : list (Applied num);
  appliedPremiums : list (Applied num);
  appliedDiscounts : list (Applied num);
  subtotal : num;
  contingency : num;
  grandTotal : num
}.

Record CashflowCapex (num : Type) : Type := {
  cf_equipment : num;
  cf_infrastructure : num;
  cf_development : num;
  cf_workingCapital : num;
  cf_capex_total : num
}.

Record CashflowOpex (num : Type) : Type := {
  cf_mining : num;
  cf_processing : num;
  cf_maintenance : num;
  cf_labor : num;
  cf_energy : num;
  cf_gAndA : num;
  cf_other : num;
  cf_opex_total : num
}.

(** The optional [revenue] and [variance] members are never written by the
    engine and are left out. *)
Record ProjectCashflow (num : Type) : Type := {
  period : string;
  year : Z;
  month : Z;
  capex : CashflowCapex num;
  opex : CashflowOpex num;
  netCashflow : num;
  cumulativeCashflow : num
}.

Record ProjectSummary (num : Type) : Type := {
  projectStart : string;
  projectEnd : string;
  totalMonths : nat;
  totalCAPEX : num;
  totalOPEX : num;
  totalCashflow : num;
  npv : num;
  irr : num;
  paybackMonths : nat;
  summary_costPerTonne : num;
  summary_costPerMeter : num;
  opexIntensity : num;
  fixedCosts : num;
  variableCosts : num;
  fixedCostRatio : num
}.

Record BlockSchedule : Type := {
  sched_blockId : string;
  sched_period : string;
  sequence : Z
}.

(* ================================================================== *)
(** ** Built-in functions of the JavaScript runtime *)
(* ================================================================== *)

(** A [Date] is its time value, milliseconds since the epoch; [None] is the
    Invalid Date, whose time value is [NaN]. *)
Definition Date : Type := option Z.

(** [a >= b] and [a <= b] on dates compare time values; a comparison with
    [NaN] is false. *)
Definition date_geb (a b : Date) : bool :=
  match a, b with
  | Some x, Some y => Z.leb y x
  | _, _ => false
  end.

Definition date_leb (a b : Date) : bool :=
  match a, b with
  | Some x, Some y => Z.leb x y
  | _, _ => false
  end.

(** The string conversions the engine calls.  A number that may be [NaN]
    is an [option]: [None] is [NaN]. *)
Class JsRuntime (num : Type) : Type := {
  Date_parse : string -> Date;          (* new Date(s) *)
  parseFloat : string -> option num;    (* parseFloat(s) *)
  ToNumber : string -> option num       (* the coercion of s in x < s *)
}.

Class JsMath (num : Type) : Type := {
  Math_pow : num -> num -> num
}.

(** [Rpower] is [Math.pow] for a positive base and any exponent, and for
    the exponent zero. *)
#[export] Instance R_JsMath : JsMath R := {| Math_pow := Rpower |}.

(** The wall clock as one engine call reads it: every [new Date()] of the
    call is taken to give the same instant [now], whose [toISOString()] is
    [nowISO]. *)
Record Clock : Type := {
  now : Date;
  nowISO : string
}.

(* ================================================================== *)
(** ** RatesCalculator *)
(* ================================================================== *)

Section RatesCalculator.
Context {num : Type} `{JsNumber num}.
Local Open Scope string_scope.
Local Open Scope js_scope.

Variable config : CostModelConfig num.

(** [rates[k]]: the own properties of the rate table; any other key is
    [undefined]. *)
Definition rates_get (r : FXRateTable num) (k : string) : option num :=
  if (k =? "CAD")%string then Some (CAD r)
  else if (k =? "EUR")%string then Some (EUR r)
  else if (k =? "AUD")%string then Some (AUD r)
  else if (k =? "GBP")%string then Some (GBP r)
  else None.

Definition getFXRate (from to : string) : num :=
  if (from =? to)%string then ofZ 1
  else
    let rates := rates (fxRates config) in
    (* All rates are stored as per 1 USD *)
    if (from =? "USD")%string then opt_or (rates_get rates to) (ofZ 1)
    else if (to =? "USD")%string then ofZ 1 / opt_or (rates_get rates from) (ofZ 1)
    else
      (* Cross rate via USD *)
      let fromToUSD := ofZ 1 / opt_or (rates_get rates from) (ofZ 1) in
      let usdToTarget := opt_or (rates_get rates to) (ofZ 1) in
      fromToUSD * usdToTarget.

Definition calculateEquipmentRates : list (EquipmentRates num) :=
  let targetCurrency := projectCurrency (calculatorSettings config) in
  map (fun item =>
    let fxRate := getFXRate (currency item) targetCurrency in
    let costInProjectCurrency := baseCost item * fxRate in
    let depreciableValue :=
      costInProjectCurrency * (ofZ 1 - salvageValue item / ofZ 100) in
    let annualDepreciation := depreciableValue / usefulLife_years item in
    let hoursPerDay := ofZ 20 in
    let daysPerMonth := ofZ 25 in
    let daysPerYear := ofZ 300 in
    let maintenancePercent := lit 5 100 in
    let insurancePercent := lit 2 100 in
    let annualMaintenance := costInProjectCurrency * maintenancePercent in
    let annualInsurance := costInProjectCurrency * insurancePercent in
    let totalAnnualCost := annualDepreciation + annualMaintenance + annualInsurance in
    {| er_itemCode := itemCode item;
       costPerYear := totalAnnualCost;
       costPerMonth := totalAnnualCost / ofZ 12;
       costPerDay := totalAnnualCost / daysPerYear;
       costPerHour := totalAnnualCost / (daysPerYear * hoursPerDay);
       depreciationPerHour := annualDepreciation / (daysPerYear * hoursPerDay);
       maintenancePerHour := annualMaintenance / (daysPerYear * hoursPerDay);
       hoursPerDay := hoursPerDay;
       daysPerMonth := daysPerMonth;
       utilizationAssumption := planned (availability (projectParameters config)) |})
    (items (equipmentCatalog config)).

Definition calculateLaborRates : list (LaborRates num) :=
  let targetCurrency := projectCurrency (calculatorSettings config) in
  let hoursPerYear := ofZ 2080 in
  map (fun role =>
    let fxRate := getFXRate (role_currency role) targetCurrency in
    let baseAnnual := annualRate role * fxRate in
    let loadedAnnual := baseAnnual * burdenRate role in
    let loadedHourly := loadedAnnual / hoursPerYear in
    let effectiveHourly := loadedHourly / utilizationFactor role in
    {| lr_roleCode := roleCode role;
       loadedHourlyRate := loadedHourly;
       loadedDailyRate := loadedHourly * ofZ 8;
       loadedMonthlyRate := loadedAnnual / ofZ 12;
       baseRate := baseAnnual / hoursPerYear;
       benefits := (baseAnnual * (burdenRate role - ofZ 1)) / hoursPerYear;
       lr_overhead := ofZ 0;
       effectiveHourlyRate := effectiveHourly |})
    (roles (laborCatalog config)).
End RatesCalculator.

(** *** Consumable and fuel rates *)

(** [ConsumableConfig]; the two optional members are [None] when absent. *)
Record ConsumableConfig (num : Type) : Type := {
  cc_code : string;
  cc_name : string;
  costPerUnit : num;
  metersPerUnit : num;
  tonnesPerUnit : num;
  cyclesPerUnit : num;
  cc_wearCurve : option (list (num * num));
  cc_rockTypeFactors : option (list (string * num))
}.

Section ConsumableAndFuelRates.
Context {num : Type} `{JsNumber num}.
Local Open Scope string_scope.
Local Open Scope js_scope.

(** The curve used when an item configures none: pairs of depth and wear
    multiplier. *)
Definition default_wearCurve : list (num * num) :=
  [ (ofZ 0, ofZ 1); (ofZ 200, lit 11 10); (ofZ 500, lit 125 100); (ofZ 1000, lit 15 10) ].

(** [item.wearCurve || [...]] and [item.rockTypeFactors || []]: an array,
    even an empty one, is truthy. *)
Definition calculateConsumableRates (consumables : list (ConsumableConfig num))
    : list (ConsumableRates num) :=
  map (fun item =>
    {| cr_itemCode := cc_code item;
       cr_name := cc_name item;
       cr_costPerMeter := costPerUnit item / metersPerUnit item;
       cr_costPerTonne := costPerUnit item / tonnesPerUnit item;
       cr_costPerCycle := costPerUnit item / cyclesPerUnit item;
       wearCurve :=
         match cc_wearCurve item with
         | Some curve => curve
         | None => default_wearCurve
         end;
       rockTypeFactors :=
         match cc_rockTypeFactors item with
         | Some factors => factors
         | None => []
         end |})
    consumables.

Definition scenario (name' : string) (multiplier' probability' : num) : FuelScenario num :=
  {| fs_name := name'; multiplier := multiplier'; probability := probability' |}.

Definition calculateFuelRates : list (FuelRates num) :=
  [ {| fuelType := "diesel";
       baseCostPerUnit := lit 135 100;
       unit_ := "liter";
       scenarios :=
         [ scenario "low" (lit 8 10) (lit 15 100);
           scenario "base" (ofZ 1) (lit 5 10);
           scenario "high" (lit 13 10) (lit 25 100);
           scenario "extreme" (lit 18 10) (lit 1 10) ];
       carbonCostPerUnit := Some (lit 12 100) |};
    {| fuelType := "electricity";
       baseCostPerUnit := lit 12 100;
       unit_ := "kWh";
       scenarios :=
         [ scenario "low" (lit 9 10) (lit 2 10);
           scenario "base" (ofZ 1) (lit 6 10);
           scenario "high" (lit 12 10) (lit 15 100);
           scenario "extreme" (lit 15 10) (lit 5 100) ];
       carbonCostPerUnit := None |} ].
End ConsumableAndFuelRates.


(* ================================================================== *)
(** ** PoliciesEngine *)
(* ================================================================== *)

(** *** The condition pattern [/([><=!]+)\s*(.+)/]

    A backtracking matcher for this one pattern: the operator run and the
    white space are greedy and give characters back when the value group
    would otherwise be empty. *)

Definition is_operator_char (c : ascii) : bool :=
  let n := nat_of_ascii c in
  (Nat.eqb n 62 || Nat.eqb n 60 || Nat.eqb n 61 || Nat.eqb n 33)%bool.

(** [(.+)]: the rest of the line, at least one character. *)
Fixpoint take_line (s : string) : string :=
  match s with
  | String c s' => if is_line_terminator c then EmptyString else String c (take_line s')
  | EmptyString => EmptyString
  end.

Definition dot_plus (s : string) : option string :=
  match take_line s with
  | EmptyString => None
  | v => Some v
  end.

(** [\s*(.+)] *)
Fixpoint spaces_then_value (s : string) : option string :=
  match s with
  | String c s' =>
      if is_space c then
        match spaces_then_value s' with
        | Some v => Some v
        | None => dot_plus s
        end
      else dot_plus s
  | EmptyString => None
  end.

(** [[><=!]*\s*(.+)] after the operator characters [op] already taken. *)
Fixpoint operators_then_value (op s : string) : option (string * string) :=
  match s with
  | String c s' =>
      if is_operator_char c then
        match operators_then_value (op ++ String c EmptyString) s' with
        | Some r => Some r
        | None => option_map (pair op) (spaces_then_value s)
        end
      else option_map (pair op) (spaces_then_value s)
  | EmptyString => None
  end.

Definition match_at (s : string) : option (string * string) :=
  match s with
  | String c s' =>
      if is_operator_char c then operators_then_value (String c EmptyString) s' else None
  | EmptyString => None
  end.

(** [condition.match(/([><=!]+)\s*(.+)/)]: the leftmost match, as the pair
    of its two groups. *)
Fixpoint match_condition (s : string) : option (string * string) :=
  match match_at s with
  | Some r => Some r
  | None =>
      match s with
      | String _ s' => match_condition s'
      | EmptyString => None
      end
  end.

(** [number | string] *)
Inductive NumOrStr (num : Type) : Type :=
| VNum (x : num)
| VStr (s : string).

Arguments VStr {num} s.

Section PoliciesEngine.
Context {num : Type} `{JsNumber num} `{JsRuntime num}.
Local Open Scope string_scope.
Local Open Scope js_scope.

Variable config : CostModelConfig num.

Definition getMargin (costCategory' : string) (date : Date) : num :=
  let rule :=
    find (fun r =>
      let validFrom' := Date_parse (validFrom r) in
      let validTo' :=
        match validTo r with
        | Some s => if (s =? "")%string then Date_parse "2099-12-31" else Date_parse s
        | None => Date_parse "2099-12-31"
        end in
      (costCategory r =? costCategory')%string
        && date_geb date validFrom' && date_leb date validTo')
      (marginRules config) in
  match rule with
  | Some r => num_or (marginPercent r) (ofZ 0)
  | None => ofZ 0
  end.

(** [x < t], [x <= t], ... with [t] a number or a string; a string is
    coerced to a number, and a comparison with [NaN] is false. *)
Definition compare_with (cmp : num -> num -> bool) (x : num) (t : NumOrStr num) : bool :=
  match t with
  | VNum y => cmp x y
  | VStr s => match ToNumber s with Some y => cmp x y | None => false end
  end.

(** [x === t] *)
Definition strict_equal (x : num) (t : NumOrStr num) : bool :=
  match t with
  | VNum y => x === y
  | VStr _ => false
  end.

Definition evaluateCondition (attribute' condition' : string)
    (block : BlockCharacteristics num) : bool :=
  match match_condition condition' with
  | None => false
  | Some (operator, valueStr) =>
      let threshold : NumOrStr num :=
        match parseFloat valueStr with
        | Some x => if truthy x then VNum x else VStr (trim valueStr)
        | None => VStr (trim valueStr)
        end in
      let blockValue : option num :=
        if (attribute' =? "depth")%string then Some (depth block)
        else if (attribute' =? "rock_hardness")%string then Some (hardness block)
        else if (attribute' =? "grade")%string then Some (grade block)
        else if (attribute' =? "abrasivity")%string then Some (abrasivity block)
        else None in
      match blockValue with
      | None => false
      | Some blockValue =>
          if (operator =? ">")%string then compare_with (fun a b => a >? b) blockValue threshold
          else if (operator =? ">=")%string then compare_with (fun a b => a >=? b) blockValue threshold
          else if (operator =? "<")%string then compare_with (fun a b => a <? b) blockValue threshold
          else if (operator =? "<=")%string then compare_with (fun a b => a <=? b) blockValue threshold
          else if ((operator =? "=") || (operator =? "=="))%string then strict_equal blockValue threshold
          else if (operator =? "!=")%string then negb (strict_equal blockValue threshold)
          else false
      end
  end.

(** The loop of [calculateRiskPremium]: the state is the pair of
    [totalPremium] and [appliedPremiums]. *)
Definition calculateRiskPremium (block : BlockCharacteristics num)
    : num * list (Applied num) :=
  fold_left (fun '(totalPremium, appliedPremiums) premium =>
    let applies := evaluateCondition (attribute premium) (condition premium) block in
    if applies then
      (totalPremium + premiumPercent premium,
       (appliedPremiums ++ [ {| applied_key := attribute premium;
                                amount := premiumPercent premium |} ])%list)
    else (totalPremium, appliedPremiums))
    (riskPremiums config) (ofZ 0, []).
End PoliciesEngine.

(** *** Volume discounts and allocation methods *)

Record AllocationMethod : Type := {
  method : string;
  basis : string
}.

Section DiscountsAndAllocations.
Context {num : Type} `{JsNumber num}.
Local Open Scope string_scope.
Local Open Scope js_scope.

Variable config : CostModelConfig num.

Definition getVolumeDiscount (category' : string) (quantity : num) : num :=
  let tier :=
    find (fun t =>
      (tier_category t =? category')%string
        && (quantity >=? minQuantity t) && (quantity <=? maxQuantity t))
      (volumeDiscounts config) in
  match tier with
  | Some t => num_or (discountPercent t) (ofZ 0)
  | None => ofZ 0
  end.

Definition getAllocationMethod (costType' : string) : AllocationMethod :=
  let rule := find (fun a => (costType a =? costType')%string) (allocationRules config) in
  match rule with
  | Some rule => {| method := allocationMethod rule; basis := allocationBasis rule |}
  | None => {| method := "tonnage"; basis := "Default allocation per tonne" |}
  end.
End DiscountsAndAllocations.


(* ================================================================== *)
(** ** BlockCostCalculator *)
(* ================================================================== *)

Section BlockCostCalculator.
Context {num : Type} `{JsNumber num} `{JsRuntime num}.
Local Open Scope string_scope.
Local Open Scope js_scope.

Variable config : CostModelConfig num.

(** The rates the constructor pre-calculates. *)
Definition this_equipmentRates : list (EquipmentRates num) :=
  calculateEquipmentRates config.
Definition this_laborRates : list (LaborRates num) :=
  calculateLaborRates config.

(** [penetrationRate.find(r => r.rockType.toLowerCase() ===
    block.rockType.toLowerCase()) || penetrationRate[1]], the expression
    shared by [calculateLaborCost] and [estimateMiningHours]; [None] is
    [undefined]. *)
Definition findPenRate (block : BlockCharacteristics num)
    : option (PenetrationRate num) :=
  let penetrationRate := penetrationRate (projectParameters config) in
  match find (fun r =>
          (toLowerCase (pr_rockType r) =? toLowerCase (rockType block))%string)
          penetrationRate with
  | Some r => Some r
  | None => nth_error penetrationRate 1
  end.

(** [penRate.metersPerHour]: reading a property of [undefined] throws. *)
Definition read_metersPerHour (penRate : option (PenetrationRate num)) : result num :=
  match penRate with
  | Some r => Returns (metersPerHour r)
  | None =>
      Throws (TypeError "Cannot read properties of undefined (reading 'metersPerHour')")
  end.

Definition calculateLaborCost (block : BlockCharacteristics num) : result num :=
  let projectParameters := projectParameters config in
  (* Find applicable penetration rate *)
  let penRate := findPenRate block in
  (* Hours to mine the block *)
  let metersToMine := strikeLength block * width block in
  let* penRate_metersPerHour := read_metersPerHour penRate in
  let miningHours := metersToMine / penRate_metersPerHour in
  (* Adjust for availability *)
  let effectiveHours :=
    miningHours / (planned (availability projectParameters)
                   * mechanical (availability projectParameters)
                   * operational (availability projectParameters)) in
  (* Apply labor rates *)
  Returns
    (fold_left (fun totalLabor rate =>
       let weight := if includes "direct" (lr_roleCode rate) then ofZ 1 else lit 3 10 in
       totalLabor + effectiveHourlyRate rate * effectiveHours * weight)
       this_laborRates (ofZ 0)).

Definition estimateMiningHours (block : BlockCharacteristics num) : result num :=
  let projectParameters := projectParameters config in
  let penRate := findPenRate block in
  let metersToMine := strikeLength block * width block in
  let* penRate_metersPerHour := read_metersPerHour penRate in
  let baseHours := metersToMine / penRate_metersPerHour in
  let oee :=
    planned (availability projectParameters)
    * mechanical (availability projectParameters)
    * operational (availability projectParameters) in
  Returns (baseHours / oee).

Definition calculateEquipmentCost (block : BlockCharacteristics num) : result num :=
  let* miningHours := estimateMiningHours block in
  Returns
    (fold_left (fun totalEquipment rate => totalEquipment + costPerHour rate * miningHours)
       this_equipmentRates (ofZ 0)).

Definition calculateConsumablesCost (block : BlockCharacteristics num) : num :=
  let baseRatePerTonne := lit 250 100 in
  (* Adjust for depth (wear curve) *)
  let depthMultiplier := ofZ 1 in
  let depthMultiplier := if depth block >? ofZ 500 then lit 125 100 else depthMultiplier in
  let depthMultiplier := if depth block >? ofZ 1000 then lit 15 10 else depthMultiplier in
  (* Adjust for rock hardness *)
  let hardnessMultiplier := ofZ 1 in
  let hardnessMultiplier := if hardness block >? ofZ 6 then lit 13 10 else hardnessMultiplier in
  let hardnessMultiplier := if hardness block >? ofZ 8 then lit 16 10 else hardnessMultiplier in
  baseRatePerTonne * tonnage block * depthMultiplier * hardnessMultiplier.

Definition calculateEnergyCost (block : BlockCharacteristics num) : result num :=
  let* miningHours := estimateMiningHours block in
  (* Sum power consumption from equipment *)
  let totalPowerKW :=
    fold_left (fun totalPowerKW item => totalPowerKW + opt_or (powerKW (specs item)) (ofZ 0))
      (items (equipmentCatalog config)) (ofZ 0) in
  let kWhConsumed := totalPowerKW * miningHours in
  let electricityRate := lit 12 100 in
  Returns (kWhConsumed * electricityRate).

Definition calculateMaintenanceCost (block : BlockCharacteristics num) : result num :=
  let* miningHours := estimateMiningHours block in
  Returns
    (fold_left (fun totalMaintenance rate =>
       totalMaintenance + maintenancePerHour rate * miningHours)
       this_equipmentRates (ofZ 0)).

Definition calculateOverhead (block : BlockCharacteristics num) : result num :=
  (* G&A as percentage of direct costs *)
  let* laborCost := calculateLaborCost block in
  let* equipmentCost := calculateEquipmentCost block in
  let directCosts := laborCost + equipmentCost in
  let overheadRate := lit 15 100 in
  Returns (directCosts * overheadRate).

Definition calculateCAPEXAllocation (block : BlockCharacteristics num)
    : CapexComponent num :=
  (* Total equipment capital *)
  let totalEquipmentCapital :=
    fold_left (fun sum item => sum + baseCost item)
      (items (equipmentCatalog config)) (ofZ 0) in
  (* Depreciation per tonne (simplified - assumes linear production) *)
  let totalProductionEstimate := tonnage block * ofZ 1000 in
  let depreciationPerTonne := totalEquipmentCapital / totalProductionEstimate in
  let equipmentDepreciation := depreciationPerTonne * tonnage block in
  (* Infrastructure allocation (placeholder) *)
  let infrastructureAllocation := tonnage block * ofZ 1 in
  {| equipmentDepreciation := equipmentDepreciation;
     infrastructureAllocation := infrastructureAllocation;
     capex_total := equipmentDepreciation + infrastructureAllocation |}.

(** The adjustments [calculateBlockCost] computes from the subtotal; they
    are local to the source function and named here for the statements
    about them. *)
Definition riskAdjustment_of (subtotal riskPremium : num) : num :=
  subtotal * (riskPremium / ofZ 100).

Definition marginAdjustment_of (subtotal : num) (appliedMargins : list (Applied num)) : num :=
  fold_left (fun sum m => sum + (amount m / ofZ 100) * subtotal) appliedMargins (ofZ 0).

Definition discountAdjustment_of (subtotal : num) (appliedDiscounts : list (Applied num)) : num :=
  fold_left (fun sum d => sum - (amount d / ofZ 100) * subtotal) appliedDiscounts (ofZ 0).

(** [if (m) appliedMargins.push({ rule, amount: m })] *)
Definition push_margin (rule : string) (m : num) (appliedMargins : list (Applied num))
    : list (Applied num) :=
  if truthy m then (appliedMargins ++ [ {| applied_key := rule; amount := m |} ])%list
  else appliedMargins.

Definition calculateBlockCost (clock : Clock) (block : BlockCharacteristics num)
    : result (BlockCostResult num) :=
  let configVersion := version config in
  let calculatedAt := nowISO clock in
  (* 1. Calculate base costs by category *)
  let* laborCost := calculateLaborCost block in
  let* equipmentCost := calculateEquipmentCost block in
  let consumablesCost := calculateConsumablesCost block in
  let* energyCost := calculateEnergyCost block in
  let* maintenanceCost := calculateMaintenanceCost block in
  let* overheadCost := calculateOverhead block in
  (* CAPEX allocation (per-block portion of capital costs) *)
  let capexAllocation := calculateCAPEXAllocation block in
  (* 2. Apply policies *)
  let '(riskPremium, appliedPremiums) := calculateRiskPremium config block in
  (* Margins by category *)
  let laborMargin := getMargin config "labor" (now clock) in
  let equipmentMargin := getMargin config "equipment" (now clock) in
  let appliedMargins := push_margin "labor" laborMargin [] in
  let appliedMargins := push_margin "equipment" equipmentMargin appliedMargins in
  (* Volume discounts (placeholder - would need order quantity context) *)
  let appliedDiscounts : list (Applied num) := [] in
  (* 3. Build cost breakdown *)
  let opexTotal :=
    laborCost + consumablesCost + energyCost + maintenanceCost + overheadCost in
  let capexTotal :=
    equipmentDepreciation capexAllocation + infrastructureAllocation capexAllocation in
  let subtotal := opexTotal + capexTotal in
  (* Apply risk premium *)
  let riskAdjustment := riskAdjustment_of subtotal riskPremium in
  (* Apply margins *)
  let marginAdjustment := marginAdjustment_of subtotal appliedMargins in
  (* Apply discounts *)
  let discountAdjustment := discountAdjustment_of subtotal appliedDiscounts in
  (* Contingency *)
  let contingencyRate := contingencyPercent (calculatorSettings config) / ofZ 100 in
  let contingency := subtotal * contingencyRate in
  let grandTotal :=
    subtotal + riskAdjustment + marginAdjustment + discountAdjustment + contingency in
  (* Unit costs *)
  let costPerTonne := grandTotal / tonnage block in
  let costPerMeter := grandTotal / num_or (strikeLength block) (ofZ 1) in
  (* Build breakdown *)
  let line (category : string) (cost : num) : BreakdownLine num :=
    {| bd_category := category; cost := cost;
       percentOfTotal := (cost / grandTotal) * ofZ 100 |} in
  let breakdown :=
    [ line "Labor" laborCost;
      line "Consumables" consumablesCost;
      line "Energy" energyCost;
      line "Maintenance" maintenanceCost;
      line "Overhead" overheadCost;
      line "Equipment CAPEX" (equipmentDepreciation capexAllocation);
      line "Infrastructure" (infrastructureAllocation capexAllocation) ] in
  Returns
    {| result_blockId := blockId block;
       calculatedAt := calculatedAt;
       configVersion := configVersion;
       costPerTonne := costPerTonne;
       costPerMeter := costPerMeter;
       breakdown := breakdown;
       capexComponent := capexAllocation;
       opexComponent :=
         {| labor := laborCost;
            consumables := consumablesCost;
            energy := energyCost;
            maintenance := maintenanceCost;
            overhead := overheadCost;
            opex_total := opexTotal |};
       appliedMargins := appliedMargins;
       appliedPremiums := appliedPremiums;
       appliedDiscounts := appliedDiscounts;
       subtotal := subtotal;
       contingency := contingency;
       grandTotal := grandTotal |}.
End BlockCostCalculator.

(* ================================================================== *)
(** ** ProjectAggregator *)
(* ================================================================== *)

(** A [Map<string, V>]: [set] overwrites the value of a key already
    present, [get] reads it. *)
Fixpoint Map_set {V : Type} (k : string) (v : V) (m : list (string * V))
    : list (string * V) :=
  match m with
  | [] => [(k, v)]
  | (k', v') :: m' =>
      if (k' =? k)%string then (k, v) :: m' else (k', v') :: Map_set k v m'
  end.

Fixpoint Map_get {V : Type} (k : string) (m : list (string * V)) : option V :=
  match m with
  | [] => None
  | (k', v') :: m' => if (k' =? k)%string then Some v' else Map_get k m'
  end.

(** [String(n)] on an integer. *)
Definition string_of_Z (n : Z) : string := NilZero.string_of_int (Z.to_int n).

(** [s.padStart(2, '0')] *)
Definition padStart2 (s : string) : string :=
  match s with
  | EmptyString => "00"
  | String c EmptyString => String "0" (String c EmptyString)
  | _ => s
  end.

(** [xs] with the index of each element, as [for (let i = 0; i < xs.length; i++)]
    visits them. *)
Definition indexed {A : Type} (xs : list A) : list (nat * A) :=
  combine (seq 0 (List.length xs)) xs.

(** [xs.findIndex(p)]; [None] is [-1]. *)
Fixpoint findIndex {A : Type} (p : A -> bool) (xs : list A) : option nat :=
  match xs with
  | [] => None
  | x :: xs' => if p x then Some 0%nat else option_map S (findIndex p xs')
  end.

Section ProjectAggregator.
Context {num : Type} `{JsNumber num} `{JsRuntime num} `{JsMath num}.
Local Open Scope string_scope.
Local Open Scope js_scope.

Variable config : CostModelConfig num.

(** The first loop of [generateCashflow]: [blockCosts.set(block.blockId,
    calculateBlockCost(block))] for each block. *)
Fixpoint calculateBlockCosts (clock : Clock) (blocks : list (BlockCharacteristics num))
    (blockCosts : list (string * BlockCostResult num))
    : result (list (string * BlockCostResult num)) :=
  match blocks with
  | [] => Returns blockCosts
  | block :: rest =>
      let* cost := calculateBlockCost config clock block in
      calculateBlockCosts clock rest (Map_set (blockId block) cost blockCosts)
  end.

Definition period_of (year month : Z) : string :=
  string_of_Z year ++ "-" ++ padStart2 (string_of_Z month).

(** The body of the month loop: the record pushed for one period. *)
Definition period_cashflow (blocks : list (BlockCharacteristics num))
    (schedule : list BlockSchedule)
    (blockCosts : list (string * BlockCostResult num))
    (year month : Z) : ProjectCashflow num :=
  let period := period_of year month in
  (* Find blocks scheduled for this period *)
  let scheduledBlocks := filter (fun s => (sched_period s =? period)%string) schedule in
  (* Sum costs *)
  let '(periodCapex, periodOpex, periodTonnage) :=
    fold_left (fun '(periodCapex, periodOpex, periodTonnage) scheduled =>
      let cost := Map_get (sched_blockId scheduled) blockCosts in
      let block :=
        find (fun b => (blockId b =? sched_blockId scheduled)%string) blocks in
      match cost, block with
      | Some cost, Some block =>
          (periodCapex + capex_total (capexComponent cost),
           periodOpex + opex_total (opexComponent cost),
           periodTonnage + tonnage block)
      | _, _ => (periodCapex, periodOpex, periodTonnage)
      end)
      scheduledBlocks (ofZ 0, ofZ 0, ofZ 0) in
  {| period := period;
     year := year;
     month := month;
     capex :=
       {| cf_equipment := periodCapex * lit 7 10;
          cf_infrastructure := periodCapex * lit 2 10;
          cf_development := periodCapex * lit 1 10;
          cf_workingCapital := ofZ 0;
          cf_capex_total := periodCapex |};
     opex :=
       {| cf_mining := periodOpex * lit 4 10;
          cf_processing := periodOpex * lit 2 10;
          cf_maintenance := periodOpex * lit 15 100;
          cf_labor := periodOpex * lit 15 100;
          cf_energy := periodOpex * lit 5 100;
          cf_gAndA := periodOpex * lit 5 100;
          cf_other := ofZ 0;
          cf_opex_total := periodOpex |};
     netCashflow := - (periodCapex + periodOpex);
     cumulativeCashflow := ofZ 0 |}.

(** [for (let year = startYear; year <= endYear; year++)] *)
Definition years_of (startYear endYear : Z) : list Z :=
  map (fun i => (startYear + Z.of_nat i)%Z)
      (seq 0 (Z.to_nat (endYear - startYear + 1))).

Definition months : list Z := [1; 2; 3; 4; 5; 6; 7; 8; 9; 10; 11; 12]%Z.

(** [cf.cumulativeCashflow = cumulative] *)
Definition set_cumulativeCashflow (cf : ProjectCashflow num) (cumulative : num)
    : ProjectCashflow num :=
  {| period := period cf; year := year cf; month := month cf;
     capex := capex cf; opex := opex cf;
     netCashflow := netCashflow cf;
     cumulativeCashflow := cumulative |}.

(** The second pass of [generateCashflow]: the running sum. *)
Fixpoint accumulate (cumulative : num) (cashflows : list (ProjectCashflow num))
    : list (ProjectCashflow num) :=
  match cashflows with
  | [] => []
  | cf :: rest =>
      let cumulative := cumulative + netCashflow cf in
      set_cumulativeCashflow cf cumulative :: accumulate cumulative rest
  end.

Definition generateCashflow (clock : Clock) (blocks : list (BlockCharacteristics num))
    (schedule : list BlockSchedule) : result (list (ProjectCashflow num)) :=
  let projectParameters := projectParameters config in
  (* Calculate block costs *)
  let* blockCosts := calculateBlockCosts clock blocks [] in
  (* Group by period *)
  let startYear := lifeOfMine_startYear projectParameters in
  let endYear := (startYear + lifeOfMine_years projectParameters)%Z in
  let cashflows :=
    flat_map (fun year =>
      map (fun month => period_cashflow blocks schedule blockCosts year month) months)
      (years_of startYear endYear) in
  (* Calculate cumulative *)
  Returns (accumulate (ofZ 0) cashflows).

(** One Newton-Raphson step of [calculateIRR]: the inner loop over [t]
    gives [npv] and [derivNPV] at [rate]. *)
Definition npv_and_derivative (cashflows : list num) (rate : num) : num * num :=
  fold_left (fun '(npv, derivNPV) '(t, cashflow) =>
    let factor := Math_pow (ofZ 1 + rate) (ofZ (Z.of_nat t) / ofZ 12) in
    (npv + cashflow / factor,
     derivNPV - (ofZ (Z.of_nat t) / ofZ 12) * cashflow / (factor * (ofZ 1 + rate))))
    (indexed cashflows) (ofZ 0, ofZ 0).

(** The outer loop, with [iterations] rounds left; [None] is [null]. *)
Fixpoint newton (iterations : nat) (cashflows : list num) (rate : num) : option num :=
  match iterations with
  | O => None (* Did not converge *)
  | S iterations' =>
      let tolerance := lit 1 10000 in
      let '(npv, derivNPV) := npv_and_derivative cashflows rate in
      if Math_abs derivNPV <? tolerance then None
      else
        let newRate := rate - npv / derivNPV in
        if Math_abs (newRate - rate) <? tolerance then Some newRate
        else newton iterations' cashflows newRate
  end.

Definition calculateIRR (cashflows : list num) (guess : num) : option num :=
  let maxIterations := 100%nat in
  newton maxIterations cashflows guess.

Definition generateSummary (cashflows : list (ProjectCashflow num)) : ProjectSummary num :=
  let aggregatorSettings := aggregatorSettings config in
  let projectParameters := projectParameters config in
  let totalCAPEX :=
    fold_left (fun sum cf => sum + cf_capex_total (capex cf)) cashflows (ofZ 0) in
  let totalOPEX :=
    fold_left (fun sum cf => sum + cf_opex_total (opex cf)) cashflows (ofZ 0) in
  let totalCashflow :=
    opt_or (option_map (@cumulativeCashflow num)
              (nth_error cashflows (List.length cashflows - 1))) (ofZ 0) in
  (* NPV calculation *)
  let discountRate := discountRate aggregatorSettings in
  let npv :=
    fold_left (fun npv '(i, cf) =>
      let period := ofZ (Z.of_nat i) / ofZ 12 in
      npv + netCashflow cf / Math_pow (ofZ 1 + discountRate) period)
      (indexed cashflows) (ofZ 0) in
  (* IRR calculation *)
  let irr := calculateIRR (map (@netCashflow num) cashflows) (lit 1 10) in
  (* Payback period *)
  let paybackIndex := findIndex (fun cf => cumulativeCashflow cf >=? ofZ 0) cashflows in
  let paybackMonths :=
    match paybackIndex with
    | Some i => i
    | None => List.length cashflows
    end in
  (* Cost metrics *)
  let totalTonnage := ofZ 1000000 in
  let totalMeters := ofZ 5000 in
  {| projectStart := string_of_Z (lifeOfMine_startYear projectParameters) ++ "-01";
     projectEnd :=
       string_of_Z (lifeOfMine_startYear projectParameters
                    + lifeOfMine_years projectParameters)%Z ++ "-12";
     totalMonths := List.length cashflows;
     totalCAPEX := totalCAPEX;
     totalOPEX := totalOPEX;
     totalCashflow := totalCashflow;
     npv := npv;
     irr := opt_or irr (ofZ 0);
     paybackMonths := paybackMonths;
     summary_costPerTonne := (totalCAPEX + totalOPEX) / totalTonnage;
     summary_costPerMeter := (totalCAPEX + totalOPEX) / totalMeters;
     opexIntensity := ofZ 0;
     fixedCosts := totalCAPEX;
     variableCosts := totalOPEX;
     fixedCostRatio := totalCAPEX / (totalCAPEX + totalOPEX) |}.
End ProjectAggregator.

(* ================================================================== *)
(** ** CostModelEngine *)
(* ================================================================== *)

Record Projection (num : Type) : Type := {
  blockCosts : list (BlockCostResult num);
  cashflows : list (ProjectCashflow num);
  summary : ProjectSummary num
}.

Record SensitivityResult (num : Type) : Type := {
  variation : num;
  sens_npv : num;
  sens_irr : num
}.

Section CostModelEngine.
Context {num : Type} `{JsNumber num} `{JsRuntime num} `{JsMath num}.
Local Open Scope string_scope.
Local Open Scope js_scope.

Definition calculateBlock (config : CostModelConfig num) (clock : Clock)
    (block : BlockCharacteristics num) : result (BlockCostResult num) :=
  calculateBlockCost config clock block.

Definition calculateBlocks (config : CostModelConfig num) (clock : Clock)
    (blocks : list (BlockCharacteristics num)) : result (list (BlockCostResult num)) :=
  mapM (fun block => calculateBlockCost config clock block) blocks.

Definition runFullProjection (config : CostModelConfig num) (clock : Clock)
    (blocks : list (BlockCharacteristics num)) (schedule : list BlockSchedule)
    : result (Projection num) :=
  let* blockCosts := calculateBlocks config clock blocks in
  let* cashflows := generateCashflow config clock blocks schedule in
  let summary := generateSummary config cashflows in
  Returns {| blockCosts := blockCosts; cashflows := cashflows; summary := summary |}.

(** [{ ...item, baseCost: item.baseCost * multiplier }] *)
Definition scale_baseCost (multiplier : num) (item : EquipmentItem num)
    : EquipmentItem num :=
  {| itemCode := itemCode item; name := name item; category := category item;
     baseCost := baseCost item * multiplier;
     currency := currency item; costUnit := costUnit item; specs := specs item;
     usefulLife_years := usefulLife_years item; salvageValue := salvageValue item;
     vendor := vendor item; leadTimeWeeks := leadTimeWeeks item;
     warrantyMonths := warrantyMonths item |}.

(** [{ ...role, annualRate: role.annualRate * multiplier }] *)
Definition scale_annualRate (multiplier : num) (role : LaborRole num)
    : LaborRole num :=
  {| roleCode := roleCode role; title := title role;
     role_category := role_category role;
     annualRate := annualRate role * multiplier;
     role_currency := role_currency role; rateType := rateType role;
     utilizationFactor := utilizationFactor role; burdenRate := burdenRate role;
     certifications := certifications role;
     minimumExperience_years := minimumExperience_years role |}.

(** [{ ...config, aggregatorSettings: a, equipmentCatalog: e, laborCatalog: l }] *)
Definition with_parts (config : CostModelConfig num)
    (a : AggregatorSettings num) (e : EquipmentCatalog num) (l : LaborCatalog num)
    : CostModelConfig num :=
  {| version := version config; modelName := modelName config;
     lastModified := lastModified config; modifiedBy := modifiedBy config;
     fxRates := fxRates config; projectParameters := projectParameters config;
     equipmentCatalog := e; laborCatalog := l;
     equipmentRates := equipmentRates config;
     consumableRates := consumableRates config;
     laborRates := laborRates config; fuelRates := fuelRates config;
     marginRules := marginRules config; riskPremiums := riskPremiums config;
     volumeDiscounts := volumeDiscounts config;
     allocationRules := allocationRules config;
     calculatorSettings := calculatorSettings config;
     aggregatorSettings := a |}.

Definition applyVariation (config : CostModelConfig num) (variable : string)
    (variation : num) : CostModelConfig num :=
  let multiplier := ofZ 1 + variation / ofZ 100 in
  if (variable =? "discount_rate")%string then
    with_parts config
      {| fiscalYearStartMonth := fiscalYearStartMonth (aggregatorSettings config);
         discountRate := discountRate (aggregatorSettings config) * multiplier;
         taxRate := taxRate (aggregatorSettings config) |}
      (equipmentCatalog config) (laborCatalog config)
  else if (variable =? "equipment_cost")%string then
    with_parts config (aggregatorSettings config)
      {| items := map (scale_baseCost multiplier) (items (equipmentCatalog config));
         lastUpdated := lastUpdated (equipmentCatalog config);
         approvedBy := approvedBy (equipmentCatalog config) |}
      (laborCatalog config)
  else if (variable =? "labor_cost")%string then
    with_parts config (aggregatorSettings config) (equipmentCatalog config)
      {| roles := map (scale_annualRate multiplier) (roles (laborCatalog config));
         jurisdiction := jurisdiction (laborCatalog config);
         collectiveAgreement := collectiveAgreement (laborCatalog config);
         labor_lastUpdated := labor_lastUpdated (laborCatalog config) |}
  else config.

Definition runSensitivity (config : CostModelConfig num) (clock : Clock)
    (blocks : list (BlockCharacteristics num)) (schedule : list BlockSchedule)
    (variable : string) (variations : list num)
    : result (list (SensitivityResult num)) :=
  mapM (fun variation =>
    (* Create modified config *)
    let modifiedConfig := applyVariation config variable variation in
    let* projection := runFullProjection modifiedConfig clock blocks schedule in
    Returns {| variation := variation;
               sens_npv := npv (summary projection);
               sens_irr := irr (summary projection) |})
    variations.
End CostModelEngine.

(** *** recalculateRates *)

Section RecalculateRates.
Context {num : Type} `{JsNumber num}.

(** [{ ...config, equipmentRates, laborRates, fuelRates }] *)
Definition recalculateRates (config : CostModelConfig num) : CostModelConfig num :=
  {| version := version config; modelName := modelName config;
     lastModified := lastModified config; modifiedBy := modifiedBy config;
     fxRates := fxRates config; projectParameters := projectParameters config;
     equipmentCatalog := equipmentCatalog config; laborCatalog := laborCatalog config;
     equipmentRates := Some (calculateEquipmentRates config);
     consumableRates := consumableRates config;
     laborRates := Some (calculateLaborRates config);
     fuelRates := Some calculateFuelRates;
     marginRules := marginRules config; riskPremiums := riskPremiums config;
     volumeDiscounts := volumeDiscounts config;
     allocationRules := allocationRules config;
     calculatorSettings := calculatorSettings config;
     aggregatorSettings := aggregatorSettings config |}.
End RecalculateRates.

(* ================================================================== *)
(** ** CostModelConfigurator: validate (the configurator component) *)
(* ================================================================== *)

Record ValidationError : Type := {
  field : string;
  message : string;
  severity : string
}.

Section Validate.
Context {num : Type} `{JsNumber num}.
Local Open Scope string_scope.
Local Open Scope js_scope.

(** [if (cond) errors.push(e)] *)
Definition push_if (cond : bool) (e : ValidationError) (errors : list ValidationError)
    : list ValidationError :=
  if cond then (errors ++ [e])%list else errors.

(** The body of [items.forEach((item, idx) => ...)]. *)
Definition validate_item (errors : list ValidationError) (entry : nat * EquipmentItem num)
    : list ValidationError :=
  let '(idx, item) := entry in
  push_if (baseCost item <? ofZ 0)
    {| field := "equipmentCatalog.items[" ++ string_of_Z (Z.of_nat idx) ++ "].baseCost";
       message := name item ++ ": Cost cannot be negative";
       severity := "error" |}
    errors.

Definition validate (config : CostModelConfig num) : list ValidationError :=
  let errors : list ValidationError := [] in
  (* FX validation *)
  let errors :=
    push_if (CAD (rates (fxRates config)) <=? ofZ 0)
      {| field := "fxRates.rates.CAD"; message := "CAD rate must be positive";
         severity := "error" |} errors in
  (* Project parameters validation *)
  let errors :=
    push_if ((specificGravity (projectParameters config) <? ofZ 1)
             || (specificGravity (projectParameters config) >? ofZ 10))
      {| field := "projectParameters.specificGravity";
         message := "Specific gravity typically between 1-10";
         severity := "warning" |} errors in
  let errors :=
    push_if (planned (availability (projectParameters config)) >? ofZ 1)
      {| field := "projectParameters.availability.planned";
         message := "Availability cannot exceed 100%";
         severity := "error" |} errors in
  (* Equipment catalog validation *)
  let errors :=
    fold_left validate_item (indexed (items (equipmentCatalog config))) errors in
  (* Calculator settings validation *)
  let errors :=
    push_if ((contingencyPercent (calculatorSettings config) <? ofZ 0)
             || (contingencyPercent (calculatorSettings config) >? ofZ 50))
      {| field := "calculatorSettings.contingencyPercent";
         message := "Contingency typically 0-50%";
         severity := "warning" |} errors in
  errors.

(** The condition that disables the save button:
    [validationErrors.some((e) => e.severity === 'error')]. *)
Definition has_error (errors : list ValidationError) : bool :=
  existsb (fun e => (severity e =? "error")%string) errors.
End Validate.


(* ================================================================== *)
(** ** createDefaultConfig (cost-model-config.ts) *)
(* ================================================================== *)

(** [iso.split('T')[0]] *)
Fixpoint before_T (iso : string) : string :=
  match iso with
  | EmptyString => EmptyString
  | String c rest =>
      if Nat.eqb (nat_of_ascii c) 84 then EmptyString else String c (before_T rest)
  end.

Section DefaultConfig.
Context {num : Type} `{JsNumber num}.
Local Open Scope string_scope.

(** [fullYear] is [new Date().getFullYear()]. *)
Definition createDefaultConfig (clock : Clock) (fullYear : Z) : CostModelConfig num :=
  {| version := "3.0.0";
     modelName := "Robotics Surgical Mining Cost Model";
     lastModified := nowISO clock;
     modifiedBy := "system";
     fxRates :=
       {| effectiveDate := before_T (nowISO clock);
          baseCurrency := "USD";
          rates := {| CAD := lit 136 100; EUR := lit 92 100;
                      AUD := lit 153 100; GBP := lit 79 100 |};
          source := "manual";
          lockedUntil := None |};
     projectParameters :=
       {| projectCode := "RSM-001";
          siteName := "New Site";
          specificGravity := lit 27 10;
          lifeOfMine_years := 15;
          lifeOfMine_startYear := fullYear;
          penetrationRate :=
            [ {| metersPerHour := lit 25 10; pr_rockType := "soft" |};
              {| metersPerHour := lit 15 10; pr_rockType := "medium" |};
              {| metersPerHour := lit 8 10; pr_rockType := "hard" |} ];
          availability :=
            {| planned := lit 92 100; mechanical := lit 95 100;
               operational := lit 97 100 |};
          precisionTolerance_mm := ofZ 5;
          roboticCycleTime_seconds := ofZ 45;
          autonomyLevel := "semi-autonomous" |};
     equipmentCatalog :=
       {| items := []; lastUpdated := nowISO clock; approvedBy := "" |};
     laborCatalog :=
       {| roles := []; jurisdiction := "Canada - Ontario";
          collectiveAgreement := None; labor_lastUpdated := nowISO clock |};
     equipmentRates := None;
     consumableRates := None;
     laborRates := None;
     fuelRates := None;
     marginRules := [];
     riskPremiums := [];
     volumeDiscounts := [];
     allocationRules := [];
     calculatorSettings :=
       {| contingencyPercent := ofZ 10; roundingPrecision := ofZ 2;
          projectCurrency := "USD" |};
     aggregatorSettings :=
       {| fiscalYearStartMonth := ofZ 1; discountRate := lit 8 100;
          taxRate := lit 25 100 |} |}.
End DefaultConfig.

(* ================================================================== *)
(** ** A reference runtime *)
(* ================================================================== *)

(** The built-ins on the texts the examples use: plain decimal literals
    (no exponent part) and date-only ISO forms [YYYY-MM-DD] of valid
    calendar days, read as UTC midnight. *)

Definition digit_of (c : ascii) : option Z :=
  let n := nat_of_ascii c in
  if (Nat.leb 48 n && Nat.leb n 57)%bool then Some (Z.of_nat (n - 48)) else None.

(** The leading digits of [s]: their value after [acc], how many there
    are, and the rest of [s]. *)
Fixpoint read_digits (s : string) (acc : Z) (count : nat) : Z * nat * string :=
  match s with
  | String c rest =>
      match digit_of c with
      | Some d => read_digits rest (10 * acc + d)%Z (S count)
      | None => (acc, count, s)
      end
  | EmptyString => (acc, count, s)
  end.

(** A decimal literal at the head of [s]: [sign * mantissa / 10^scale] and
    the rest of [s]. *)
Definition read_decimal (s : string) : option (Z * nat * string) :=
  let '(sign, s1) :=
    match s with
    | String "-" rest => ((-1)%Z, rest)
    | String "+" rest => (1%Z, rest)
    | _ => (1%Z, s)
    end in
  let '(int_part, int_count, s2) := read_digits s1 0%Z 0%nat in
  let '(mantissa, frac_count, s3) :=
    match s2 with
    | String "." rest => read_digits rest int_part 0%nat
    | _ => (int_part, 0%nat, s2)
    end in
  if Nat.eqb (int_count + frac_count) 0 then None
  else Some ((sign * mantissa)%Z, frac_count, s3).

Section ReferenceRuntime.
Context {num : Type} `{JsNumber num}.
Local Open Scope js_scope.

Definition decimal_value (mantissa : Z) (scale : nat) : num :=
  match scale with
  | O => ofZ mantissa
  | _ => ofZ mantissa / ofZ (10 ^ Z.of_nat scale)
  end.

Definition decimal_parseFloat (s : string) : option num :=
  match read_decimal (trimStart s) with
  | Some (m, k, _) => Some (decimal_value m k)
  | None => None
  end.

Definition decimal_ToNumber (s : string) : option num :=
  match trim s with
  | EmptyString => Some (ofZ 0)
  | t =>
      match read_decimal t with
      | Some (m, k, EmptyString) => Some (decimal_value m k)
      | _ => None
      end
  end.
End ReferenceRuntime.

Definition days_from_civil (y m d : Z) : Z :=
  let y' := if (m <=? 2)%Z then (y - 1)%Z else y in
  let era := (y' / 400)%Z in
  let yoe := (y' - era * 400)%Z in
  let doy := ((153 * (if (m <=? 2)%Z then m + 9 else m - 3) + 2) / 5 + d - 1)%Z in
  let doe := (yoe * 365 + yoe / 4 - yoe / 100 + doy)%Z in
  (era * 146097 + doe - 719468)%Z.

Definition days_in_month (y m : Z) : Z :=
  if (m =? 2)%Z then
    if ((y mod 4 =? 0) && (negb (y mod 100 =? 0) || (y mod 400 =? 0)))%Z%bool
    then 29%Z else 28%Z
  else if ((m =? 4) || (m =? 6) || (m =? 9) || (m =? 11))%Z%bool then 30%Z
  else 31%Z.

Definition iso_Date_parse (s : string) : Date :=
  match read_digits s 0%Z 0%nat with
  | (y, 4%nat, String "-" s1) =>
      match read_digits s1 0%Z 0%nat with
      | (m, 2%nat, String "-" s2) =>
          match read_digits s2 0%Z 0%nat with
          | (d, 2%nat, EmptyString) =>
              if ((1 <=? m) && (m <=? 12) && (1 <=? d) && (d <=? days_in_month y m))%Z%bool
              then Some (days_from_civil y m d * 86400000)%Z
              else None
          | _ => None
          end
      | _ => None
      end
  | _ => None
  end.

#[export] Instance reference_runtime {num : Type} `{JsNumber num} : JsRuntime num := {|
  Date_parse := iso_Date_parse;
  parseFloat := decimal_parseFloat;
  ToNumber := decimal_ToNumber
|}.

Example iso_Date_parse_2099 : iso_Date_parse "2099-12-31" = Some 4102358400000%Z.
Proof. vm_compute. reflexivity. Qed.

Example match_condition_gt : match_condition "> 500" = Some (">", "500")%string.
Proof. reflexivity. Qed.

Example match_condition_backtracks :
  match_condition "value >=" = Some (">", "=")%string /\
  match_condition "value >= " = Some (">=", " ")%string /\
  match_condition ">  " = Some (">", " ")%string /\
  match_condition "hard" = None.
Proof. repeat split; reflexivity. Qed.

(* ================================================================== *)
(** * Properties *)
(* ================================================================== *)

(** ** Real arithmetic behind the interface *)

Ltac js_R :=
  cbn [ofZ add sub mul div neg Math_abs ltb leb eqb isNaN isFinite R_JsNumber
       Math_pow R_JsMath] in *.

Lemma Rltb_true (x y : R) : (x < y)%R -> Rltb x y = true.
Proof. intros Hxy. unfold Rltb. destruct (Rlt_dec x y); [reflexivity | contradiction]. Qed.

Lemma Rltb_false (x y : R) : (y <= x)%R -> Rltb x y = false.
Proof. intros Hxy. unfold Rltb. destruct (Rlt_dec x y); [lra | reflexivity]. Qed.

(** On reals [x || d] is [x] unless [x] is zero. *)
Lemma num_or_R (x d : R) : num_or x d = if Req_dec_T x 0 then d else x.
Proof.
  unfold num_or, truthy. js_R. unfold Reqb.
  destruct (Req_dec_T x 0); reflexivity.
Qed.

Lemma num_or_zero_R (x : R) : num_or x 0%R = x.
Proof. rewrite num_or_R. destruct (Req_dec_T x 0); congruence. Qed.

Lemma num_or_nonzero_R (x d : R) : d <> 0%R -> num_or x d <> 0%R.
Proof. intros Hd. rewrite num_or_R. destruct (Req_dec_T x 0); assumption. Qed.

Lemma opt_or_nonzero_R (x : option R) (d : R) : d <> 0%R -> opt_or x d <> 0%R.
Proof. intros Hd. destruct x; simpl; [apply num_or_nonzero_R|]; assumption. Qed.

(** ** FX resolver *)

Section FXProperties.
Local Open Scope R_scope.
Variable config : CostModelConfig R.

Let rate_of (k : string) : R := opt_or (rates_get (rates (fxRates config)) k) 1.

Lemma rate_of_nonzero (k : string) : rate_of k <> 0.
Proof. apply opt_or_nonzero_R. lra. Qed.

Lemma getFXRate_same (A : string) : getFXRate config A A = 1.
Proof. unfold getFXRate. rewrite String.eqb_refl. reflexivity. Qed.

Lemma getFXRate_unfold (A B : string) :
  getFXRate config A B =
    if (A =? B)%string then 1
    else if (A =? "USD")%string then rate_of B
    else if (B =? "USD")%string then 1 / rate_of A
    else 1 / rate_of A * rate_of B.
Proof. reflexivity. Qed.

(** C8.  For all currency codes A and B (configured or not, an
    unconfigured one counting as rate 1): the product of the rate from A
    to B and the rate from B to A is 1; the rate from A to A is 1; and
    when neither is USD the rate from A to B is the rate from A to USD
    times the rate from USD to B. *)
Theorem getFXRate_inverse_and_cross (A B : string) :
  getFXRate config A B * getFXRate config B A = 1 /\
  getFXRate config A A = 1 /\
  (A <> "USD"%string -> B <> "USD"%string ->
   getFXRate config A B = getFXRate config A "USD" * getFXRate config "USD" B).
Proof.
  pose proof (rate_of_nonzero A) as HA.
  pose proof (rate_of_nonzero B) as HB.
  split; [| split].
  - rewrite !getFXRate_unfold.
    rewrite (String.eqb_sym B A).
    destruct (String.eqb_spec A B) as [->|Hne]; [lra|].
    destruct (String.eqb_spec A "USD") as [->|HA'];
      destruct (String.eqb_spec B "USD") as [->|HB'];
      try congruence; field; auto.
  - apply getFXRate_same.
  - intros HA' HB'. rewrite !getFXRate_unfold.
    apply String.eqb_neq in HA', HB'.
    rewrite (String.eqb_sym "USD" B), String.eqb_refl, HA', HB'.
    destruct (String.eqb_spec A B) as [->|Hne]; [| reflexivity].
    field; auto.
Qed.
End FXProperties.

(** ** Margin lookup *)

Section MarginProperties.
Local Open Scope R_scope.
Context {runtime : JsRuntime R}.

(** The end of a rule's validity window: its [validTo], or 2099-12-31
    when that is absent or empty. *)
Definition window_end (r : MarginRule R) : Date :=
  match validTo r with
  | Some s => if (s =? "")%string then Date_parse "2099-12-31" else Date_parse s
  | None => Date_parse "2099-12-31"
  end.

(** The closed window: [validFrom <= date <= validTo], all three valid
    dates. *)
Definition window_contains (r : MarginRule R) (date : Date) : Prop :=
  exists t from to : Z,
    date = Some t /\ Date_parse (validFrom r) = Some from /\ window_end r = Some to /\
    (from <= t <= to)%Z.

(** The half-open window, which excludes [validTo] itself. *)
Definition window_contains_half_open (r : MarginRule R) (date : Date) : Prop :=
  exists t from to : Z,
    date = Some t /\ Date_parse (validFrom r) = Some from /\ window_end r = Some to /\
    (from <= t < to)%Z.

Definition rule_applies (category' : string) (date : Date) (r : MarginRule R) : Prop :=
  costCategory r = category' /\ window_contains r date.

Definition rule_appliesb (category' : string) (date : Date) (r : MarginRule R) : bool :=
  (costCategory r =? category')%string
    && date_geb date (Date_parse (validFrom r)) && date_leb date (window_end r).

Lemma rule_appliesb_spec (category' : string) (date : Date) (r : MarginRule R) :
  rule_appliesb category' date r = true <-> rule_applies category' date r.
Proof.
  unfold rule_appliesb, rule_applies, window_contains, date_geb, date_leb.
  rewrite !andb_true_iff, String.eqb_eq. split.
  - intros [[Hc Hfrom] Hto]. split; [assumption|].
    destruct date as [t|]; [| discriminate].
    destruct (Date_parse (validFrom r)) as [from|]; [| discriminate].
    destruct (window_end r) as [to|]; [| discriminate].
    exists t, from, to. apply Z.leb_le in Hfrom, Hto. auto.
  - intros [Hc (t & from & to & -> & -> & -> & Hfrom & Hto)].
    repeat split; [assumption | |]; apply Z.leb_le; assumption.
Qed.

Lemma getMargin_find (config : CostModelConfig R) (category' : string) (date : Date) :
  getMargin config category' date =
    match find (rule_appliesb category' date) (marginRules config) with
    | Some r => marginPercent r
    | None => 0
    end.
Proof.
  unfold getMargin.
  replace (find _ (marginRules config))
    with (find (rule_appliesb category' date) (marginRules config)).
  - destruct (find _ _); [apply num_or_zero_R | reflexivity].
  - apply f_equal2; [| reflexivity].
    unfold rule_appliesb, window_end. reflexivity.
Qed.

Lemma find_first {A : Type} (p : A -> bool) (pre post : list A) (x : A) :
  (forall y, In y pre -> p y = false) -> p x = true ->
  find p (pre ++ x :: post) = Some x.
Proof.
  intros Hpre Hx. induction pre as [| y pre IH]; simpl.
  - rewrite Hx. reflexivity.
  - rewrite (Hpre y (or_introl eq_refl)). apply IH.
    intros z Hz. apply Hpre. right. assumption.
Qed.

Lemma find_none_intro {A : Type} (p : A -> bool) (xs : list A) :
  (forall y, In y xs -> p y = false) -> find p xs = None.
Proof.
  induction xs as [| y xs IH]; simpl; intros Hall; [reflexivity|].
  rewrite (Hall y (or_introl eq_refl)). apply IH. intros z Hz. apply Hall. right. assumption.
Qed.

(** C4, as the code has it.  [getMargin] returns the [marginPercent] of
    the first rule whose [costCategory] equals the requested category and
    whose closed window [validFrom <= date <= validTo] contains the
    date, and 0 when no rule does; a date equal to [validTo] is inside
    the window. *)
Theorem getMargin_first_match_closed_window
    (config : CostModelConfig R) (category' : string) (date : Date) :
  (forall pre r post,
      marginRules config = (pre ++ r :: post)%list ->
      (forall r', In r' pre -> ~ rule_applies category' date r') ->
      rule_applies category' date r ->
      getMargin config category' date = marginPercent r) /\
  ((forall r, In r (marginRules config) -> ~ rule_applies category' date r) ->
   getMargin config category' date = 0) /\
  (forall r from,
      costCategory r = category' ->
      Date_parse (validFrom r) = Some from ->
      window_end r = date ->
      (exists to, date = Some to /\ (from <= to)%Z) ->
      rule_applies category' date r).
Proof.
  split; [| split].
  - intros pre r post Hrules Hpre Hr.
    rewrite getMargin_find, Hrules, (find_first _ pre post r); [reflexivity | |].
    + intros y Hy. specialize (Hpre y Hy).
      destruct (rule_appliesb category' date y) eqn:E; [| reflexivity].
      apply rule_appliesb_spec in E. contradiction.
    + apply rule_appliesb_spec. assumption.
  - intros Hnone. rewrite getMargin_find, find_none_intro; [reflexivity|].
    intros y Hy. specialize (Hnone y Hy).
    destruct (rule_appliesb category' date y) eqn:E; [| reflexivity].
    apply rule_appliesb_spec in E. contradiction.
  - intros r from Hc Hfrom Hend (to & Hdate & Hle).
    split; [assumption|]. exists to, from, to. subst date. repeat split; auto; lia.
Qed.
End MarginProperties.

(** ** Risk premiums *)

(** The arithmetic sum of a list of reals. *)
Definition Rsum (xs : list R) : R := fold_right Rplus 0%R xs.

Lemma Rsum_app (xs ys : list R) : Rsum (xs ++ ys) = (Rsum xs + Rsum ys)%R.
Proof. induction xs as [| x xs IH]; simpl; [lra | rewrite IH; lra]. Qed.

Section RiskPremiumProperties.
Local Open Scope R_scope.
Context {runtime : JsRuntime R}.
Variable config : CostModelConfig R.
Variable block : BlockCharacteristics R.

(** Whether a premium rule's condition holds of the block. *)
Definition premium_applies (p : RiskPremium R) : bool :=
  evaluateCondition (attribute p) (condition p) block.

Definition applied_of (p : RiskPremium R) : Applied R :=
  {| applied_key := attribute p; amount := premiumPercent p |}.

Lemma calculateRiskPremium_loop (ps : list (RiskPremium R)) (total : R)
    (applied : list (Applied R)) :
  fold_left (fun '(totalPremium, appliedPremiums) premium =>
      if evaluateCondition (attribute premium) (condition premium) block then
        (add totalPremium (premiumPercent premium),
         (appliedPremiums ++ [ {| applied_key := attribute premium;
                                  amount := premiumPercent premium |} ])%list)
      else (totalPremium, appliedPremiums)) ps (total, applied)
  = (total + Rsum (map (@premiumPercent R) (filter premium_applies ps)),
     (applied ++ map applied_of (filter premium_applies ps))%list).
Proof.
  revert total applied. induction ps as [| p ps IH]; intros total applied; simpl.
  - rewrite app_nil_r. f_equal. lra.
  - change (evaluateCondition (attribute p) (condition p) block)
      with (premium_applies p).
    destruct (premium_applies p); rewrite IH; simpl.
    + rewrite <- app_assoc. simpl. f_equal. js_R. lra.
    + reflexivity.
Qed.

Lemma calculateRiskPremium_sum :
  calculateRiskPremium config block =
    (Rsum (map (@premiumPercent R) (filter premium_applies (riskPremiums config))),
     map applied_of (filter premium_applies (riskPremiums config))).
Proof.
  unfold calculateRiskPremium. js_R. rewrite calculateRiskPremium_loop.
  simpl. f_equal. lra.
Qed.

(** C6.  The premium is the arithmetic sum of the [premiumPercent] of
    exactly the rules whose condition holds of the block, and the applied
    list names those rules in order; in particular two matching rules of
    5% and 3% give 8%. *)
Theorem calculateRiskPremium_additive :
  fst (calculateRiskPremium config block) =
    Rsum (map (@premiumPercent R) (filter premium_applies (riskPremiums config))) /\
  snd (calculateRiskPremium config block) =
    map applied_of (filter premium_applies (riskPremiums config)) /\
  (forall p1 p2,
      riskPremiums config = [p1; p2] ->
      premium_applies p1 = true -> premium_applies p2 = true ->
      premiumPercent p1 = 5 -> premiumPercent p2 = 3 ->
      fst (calculateRiskPremium config block) = 8).
Proof.
  rewrite calculateRiskPremium_sum. simpl. repeat split.
  intros p1 p2 -> H1 H2 E1 E2. simpl. rewrite H1, H2. simpl. rewrite E1, E2. lra.
Qed.
End RiskPremiumProperties.

(** ** Cash-flow series *)

Section CashflowProperties.
Local Open Scope R_scope.
Context {runtime : JsRuntime R}.

Lemma accumulate_head (c : R) (cfs : list (ProjectCashflow R)) (cf : ProjectCashflow R) :
  nth_error (accumulate c cfs) 0 = Some cf ->
  exists cf0, nth_error cfs 0 = Some cf0 /\
              netCashflow cf = netCashflow cf0 /\
              cumulativeCashflow cf = c + netCashflow cf0.
Proof.
  destruct cfs as [| cf0 rest]; simpl; [discriminate|].
  intros [= <-]. exists cf0. repeat split.
Qed.

Lemma accumulate_step (c : R) (cfs : list (ProjectCashflow R)) (i : nat)
    (prev cf : ProjectCashflow R) :
  nth_error (accumulate c cfs) i = Some prev ->
  nth_error (accumulate c cfs) (S i) = Some cf ->
  cumulativeCashflow cf = cumulativeCashflow prev + netCashflow cf.
Proof.
  revert c i. induction cfs as [| cf0 rest IH]; intros c i; [destruct i; discriminate|].
  destruct i as [| i]; cbn [accumulate nth_error].
  - intros [= <-] Hcf. apply accumulate_head in Hcf as (cf1 & _ & Hnet & Hcum).
    rewrite Hcum, Hnet. reflexivity.
  - apply IH.
Qed.

Lemma accumulate_netCashflow (c : R) (cfs : list (ProjectCashflow R)) :
  map (@netCashflow R) (accumulate c cfs) = map (@netCashflow R) cfs.
Proof. revert c. induction cfs as [| cf rest IH]; intros c; simpl; [| rewrite IH]; reflexivity. Qed.

(** C7.  In every series [generateCashflow] returns, the cumulative cash
    flow of the first period is its net cash flow, and that of every
    later period is the previous cumulative plus its own net. *)
Theorem generateCashflow_cumulative
    (config : CostModelConfig R) (clock : Clock)
    (blocks : list (BlockCharacteristics R)) (schedule : list BlockSchedule)
    (cfs : list (ProjectCashflow R)) :
  generateCashflow config clock blocks schedule = Returns cfs ->
  (forall cf, nth_error cfs 0 = Some cf -> cumulativeCashflow cf = netCashflow cf) /\
  (forall i prev cf,
      nth_error cfs i = Some prev -> nth_error cfs (S i) = Some cf ->
      cumulativeCashflow cf = cumulativeCashflow prev + netCashflow cf).
Proof.
  unfold generateCashflow.
  destruct (calculateBlockCosts config clock blocks []) as [costs | e]; [| discriminate].
  cbn [bind]. intros [= <-]. split.
  - intros cf Hcf. apply accumulate_head in Hcf as (cf0 & _ & Hnet & Hcum).
    rewrite Hcum, Hnet. js_R. lra.
  - intros i prev cf. apply accumulate_step.
Qed.
End CashflowProperties.

(** ** Block costing: when it returns *)

Section BlockCostTotality.
Context {num : Type} `{JsNumber num} `{JsRuntime num}.
Local Open Scope js_scope.

Variable config : CostModelConfig num.
Variable clock : Clock.
Variable block : BlockCharacteristics num.





Lemma calculateBlockCost_resolved (r : PenetrationRate num) :
  findPenRate config block = Some r ->
  exists result, calculateBlockCost config clock block = Returns result.
Proof.
  intros Hr.
  unfold calculateBlockCost, calculateOverhead, calculateMaintenanceCost,
    calculateEnergyCost, calculateEquipmentCost, estimateMiningHours,
    calculateLaborCost.
  rewrite Hr. cbn [read_metersPerHour bind].
  destruct (calculateRiskPremium config block) as [riskPremium appliedPremiums].
  eexists. reflexivity.
Qed.

Lemma calculateBlockCost_unresolved :
  findPenRate config block = None ->
  calculateBlockCost config clock block =
    Throws (TypeError "Cannot read properties of undefined (reading 'metersPerHour')") /\
  calculateLaborCost config block =
    Throws (TypeError "Cannot read properties of undefined (reading 'metersPerHour')") /\
  estimateMiningHours config block =
    Throws (TypeError "Cannot read properties of undefined (reading 'metersPerHour')").
Proof.
  intros Hr.
  unfold calculateBlockCost, estimateMiningHours, calculateLaborCost.
  rewrite Hr. cbn [read_metersPerHour bind]. repeat split.
Qed.

End BlockCostTotality.

(** ** Block costing: the assembly of the total *)

Section BlockCostAssembly.
Local Open Scope R_scope.
Context {runtime : JsRuntime R}.

Variable config : CostModelConfig R.
Variable clock : Clock.
Variable block : BlockCharacteristics R.

Definition amounts (xs : list (Applied R)) : R := Rsum (map (@amount R) xs).

Lemma truthy_R (x : R) : truthy x = if Req_dec_T x 0 then false else true.
Proof. unfold truthy. js_R. unfold Reqb. destruct (Req_dec_T x 0); reflexivity. Qed.

Lemma amounts_push_margin (rule : string) (m : R) (xs : list (Applied R)) :
  amounts (push_margin rule m xs) = amounts xs + m.
Proof.
  unfold push_margin, amounts. rewrite truthy_R.
  destruct (Req_dec_T m 0) as [-> | Hm]; [lra|].
  rewrite map_app, Rsum_app. simpl. lra.
Qed.

Lemma marginAdjustment_of_sum (sub : R) (xs : list (Applied R)) :
  marginAdjustment_of sub xs = sub * (amounts xs / 100).
Proof.
  unfold marginAdjustment_of, amounts. js_R.
  assert (Hgen : forall a,
    fold_left (fun sum m => sum + amount m / 100 * sub) xs a
    = a + sub * (Rsum (map (@amount R) xs) / 100)).
  { induction xs as [| x rest IH]; intros a; simpl; [lra|]. rewrite IH. lra. }
  rewrite Hgen. lra.
Qed.

Lemma discountAdjustment_of_sum (sub : R) (xs : list (Applied R)) :
  discountAdjustment_of sub xs = - (sub * (amounts xs / 100)).
Proof.
  unfold discountAdjustment_of, amounts. js_R.
  assert (Hgen : forall a,
    fold_left (fun sum d => sum - amount d / 100 * sub) xs a
    = a - sub * (Rsum (map (@amount R) xs) / 100)).
  { induction xs as [| x rest IH]; intros a; simpl; [lra|]. rewrite IH. lra. }
  rewrite Hgen. lra.
Qed.

Lemma amounts_applied_of (ps : list (RiskPremium R)) :
  amounts (map applied_of ps) = Rsum (map (@premiumPercent R) ps).
Proof. unfold amounts. rewrite map_map. reflexivity. Qed.

(** C5.  In every result of [calculateBlockCost]: the OPEX total is the
    sum of its five components and the subtotal is the OPEX total plus
    the CAPEX total; the risk, margin and discount adjustments and the
    contingency are each a percentage of that one subtotal (the summed
    matching premiums, the labor and equipment margins, the applied
    discounts, of which there are none, and the contingency percent);
    the grand total is the subtotal plus the four; cost per tonne is the
    grand total over the tonnage, and cost per meter the grand total
    over the strike length, or over 1 when the strike length is zero. *)
Theorem calculateBlockCost_assembly (r : BlockCostResult R) :
  calculateBlockCost config clock block = Returns r ->
  let riskAdjustment := subtotal r * (amounts (appliedPremiums r) / 100) in
  let marginAdjustment := subtotal r * (amounts (appliedMargins r) / 100) in
  let discountAdjustment := - (subtotal r * (amounts (appliedDiscounts r) / 100)) in
  opex_total (opexComponent r) =
    labor (opexComponent r) + consumables (opexComponent r) + energy (opexComponent r)
    + maintenance (opexComponent r) + overhead (opexComponent r) /\
  capex_total (capexComponent r) =
    equipmentDepreciation (capexComponent r) + infrastructureAllocation (capexComponent r) /\
  subtotal r = opex_total (opexComponent r) + capex_total (capexComponent r) /\
  amounts (appliedPremiums r) = fst (calculateRiskPremium config block) /\
  amounts (appliedMargins r) =
    getMargin config "labor" (now clock) + getMargin config "equipment" (now clock) /\
  appliedDiscounts r = [] /\
  contingency r = subtotal r * (contingencyPercent (calculatorSettings config) / 100) /\
  grandTotal r =
    subtotal r + riskAdjustment + marginAdjustment + discountAdjustment + contingency r /\
  costPerTonne r = grandTotal r / tonnage block /\
  (strikeLength block = 0 -> costPerMeter r = grandTotal r / 1) /\
  (strikeLength block <> 0 -> costPerMeter r = grandTotal r / strikeLength block).
Proof.
  unfold calculateBlockCost, calculateOverhead, calculateMaintenanceCost,
    calculateEnergyCost, calculateEquipmentCost, estimateMiningHours,
    calculateLaborCost.
  destruct (findPenRate config block) as [pr|]; [| discriminate].
  cbn [read_metersPerHour bind].
  rewrite calculateRiskPremium_sum.
  intros [= <-]. cbn zeta.
  cbn [opex_total opexComponent capex_total capexComponent labor consumables energy
       maintenance overhead subtotal contingency grandTotal costPerTonne costPerMeter
       appliedPremiums appliedMargins appliedDiscounts equipmentDepreciation
       infrastructureAllocation calculateCAPEXAllocation fst].
  rewrite marginAdjustment_of_sum, discountAdjustment_of_sum.
  unfold riskAdjustment_of. rewrite amounts_applied_of, !amounts_push_margin.
  js_R. unfold amounts at 1 2 3. simpl map. simpl Rsum.
  repeat split; try lra.
  - intros ->. rewrite num_or_R. destruct (Req_dec_T 0 0); [reflexivity | contradiction].
  - intros Hs. rewrite num_or_R. destruct (Req_dec_T (strikeLength block) 0);
      [contradiction | reflexivity].
Qed.
End BlockCostAssembly.

(** ** Block costing: no precondition is checked *)

Section BlockCostUnchecked.
Context {num : Type} `{JsNumber num} `{JsRuntime num}.
Local Open Scope js_scope.

(** C1, as the code has it.  [calculateBlockCost] checks neither the
    tonnage nor the geometry: for every block whose penetration rate
    resolves it returns a cost result, whose cost per tonne is the
    unguarded quotient of the grand total by the tonnage and whose cost
    per meter divides by the strike length, or by 1 when that is zero. *)
Theorem calculateBlockCost_unchecked
    (config : CostModelConfig num) (clock : Clock) (block : BlockCharacteristics num)
    (penRate : PenetrationRate num) :
  findPenRate config block = Some penRate ->
  exists r,
    calculateBlockCost config clock block = Returns r /\
    costPerTonne r = grandTotal r / tonnage block /\
    costPerMeter r = grandTotal r / num_or (strikeLength block) (ofZ 1).
Proof.
  intros Hr.
  unfold calculateBlockCost, calculateOverhead, calculateMaintenanceCost,
    calculateEnergyCost, calculateEquipmentCost, estimateMiningHours,
    calculateLaborCost.
  rewrite Hr. cbn [read_metersPerHour bind].
  destruct (calculateRiskPremium config block) as [riskPremium appliedPremiums].
  eexists. split; [reflexivity|]. split; reflexivity.
Qed.
End BlockCostUnchecked.

(** ** Project summary: an unavailable IRR *)

Section SummaryIRR.
Context {num : Type} `{JsNumber num} `{JsRuntime num} `{JsMath num}.
Local Open Scope js_scope.

(** C2, as the code has it.  When [calculateIRR] returns [null] on the
    net cash flows of a series, whether for want of convergence within
    100 iterations or for a derivative below 1e-4, [generateSummary]
    reports the IRR as the number 0; when it returns a rate, the summary
    reports that rate (or 0 if the rate is falsy). *)
Theorem generateSummary_irr_null_is_zero
    (config : CostModelConfig num) (cfs : list (ProjectCashflow num)) :
  (calculateIRR (map (@netCashflow num) cfs) (lit 1 10) = None ->
   irr (generateSummary config cfs) = ofZ 0) /\
  (forall rate,
     calculateIRR (map (@netCashflow num) cfs) (lit 1 10) = Some rate ->
     irr (generateSummary config cfs) = num_or rate (ofZ 0)).
Proof.
  unfold generateSummary. cbn [irr]. split.
  - intros ->. reflexivity.
  - intros rate ->. reflexivity.
Qed.
End SummaryIRR.

(** ** Cash-flow generation: when it returns *)

Section CashflowTotality.
Context {num : Type} `{JsNumber num} `{JsRuntime num} `{JsMath num}.

Variable config : CostModelConfig num.
Variable clock : Clock.

(** Every block's penetration rate resolves. *)
Definition all_resolved (blocks : list (BlockCharacteristics num)) : Prop :=
  forall b, In b blocks -> exists r, findPenRate config b = Some r.

Lemma calculateBlockCosts_returns (blocks : list (BlockCharacteristics num))
    (acc : list (string * BlockCostResult num)) :
  all_resolved blocks ->
  exists costs, calculateBlockCosts config clock blocks acc = Returns costs.
Proof.
  revert acc. induction blocks as [| b rest IH]; intros acc Hall; simpl.
  - eexists. reflexivity.
  - destruct (Hall b (or_introl eq_refl)) as [r Hr].
    destruct (calculateBlockCost_resolved config clock b Hr) as [cost Hcost].
    rewrite Hcost. cbn [bind]. apply IH.
    intros b' Hb'. apply Hall. right. assumption.
Qed.

Lemma calculateBlocks_returns (blocks : list (BlockCharacteristics num)) :
  all_resolved blocks ->
  exists costs, calculateBlocks config clock blocks = Returns costs.
Proof.
  unfold calculateBlocks.
  induction blocks as [| b rest IH]; intros Hall; simpl.
  - eexists. reflexivity.
  - destruct (Hall b (or_introl eq_refl)) as [r Hr].
    destruct (calculateBlockCost_resolved config clock b Hr) as [cost Hcost].
    rewrite Hcost. cbn [bind].
    destruct IH as [costs Hcosts].
    { intros b' Hb'. apply Hall. right. assumption. }
    rewrite Hcosts. cbn [bind]. eexists. reflexivity.
Qed.

Lemma generateCashflow_returns (blocks : list (BlockCharacteristics num))
    (schedule : list BlockSchedule) :
  all_resolved blocks ->
  exists cfs, generateCashflow config clock blocks schedule = Returns cfs.
Proof.
  intros Hall. unfold generateCashflow.
  destruct (calculateBlockCosts_returns [] Hall) as [costs Hcosts].
  rewrite Hcosts. cbn [bind]. eexists. reflexivity.
Qed.
End CashflowTotality.

(** ** Newton-Raphson: one round *)

Lemma newton_S {num : Type} `{JsNumber num} `{JsMath num}
    (n : nat) (cashflows : list num) (rate : num) :
  newton (S n) cashflows rate =
    let '(npv, derivNPV) := npv_and_derivative cashflows rate in
    if ltb (Math_abs derivNPV) (lit 1 10000) then None
    else if ltb (Math_abs (sub (sub rate (div npv derivNPV)) rate)) (lit 1 10000)
         then Some (sub rate (div npv derivNPV))
         else newton n cashflows (sub rate (div npv derivNPV)).
Proof. reflexivity. Qed.

(** ** Sensitivity to equipment cost *)

Section EquipmentSensitivity.
Local Open Scope R_scope.
Context {runtime : JsRuntime R}.
Variable config : CostModelConfig R.
Variable clock : Clock.




Lemma fold_left_plain {A : Type} (f : A -> R) (xs : list A) (a : R) :
  fold_left (fun t x => t + f x) xs a = a + Rsum (map f xs).
Proof.
  revert a. induction xs as [| x xs IH]; intros a; simpl; [lra|].
  rewrite IH. lra.
Qed.




Definition equipment_capital (cfg : CostModelConfig R) : R :=
  Rsum (map (@baseCost R) (items (equipmentCatalog cfg))).

Definition rate_of_item (cfg : CostModelConfig R) (item : EquipmentItem R) : EquipmentRates R :=
  let targetCurrency := projectCurrency (calculatorSettings cfg) in
      let fxRate := getFXRate cfg (currency item) targetCurrency in
      let costInProjectCurrency := baseCost item * fxRate in
      let depreciableValue :=
        costInProjectCurrency * (1 - salvageValue item / 100) in
      let annualDepreciation := depreciableValue / usefulLife_years item in
      let annualMaintenance := costInProjectCurrency * lit 5 100 in
      let annualInsurance := costInProjectCurrency * lit 2 100 in
      let totalAnnualCost := annualDepreciation + annualMaintenance + annualInsurance in
      {| er_itemCode := itemCode item;
         costPerYear := totalAnnualCost;
         costPerMonth := totalAnnualCost / 12;
         costPerDay := totalAnnualCost / 300;
         costPerHour := totalAnnualCost / (300 * 20);
         depreciationPerHour := annualDepreciation / (300 * 20);
         maintenancePerHour := annualMaintenance / (300 * 20);
         hoursPerDay := 20;
         daysPerMonth := 25;
         utilizationAssumption := planned (availability (projectParameters cfg)) |}.

Lemma calculateEquipmentRates_map (cfg : CostModelConfig R) :
  calculateEquipmentRates cfg = map (rate_of_item cfg) (items (equipmentCatalog cfg)).
Proof. reflexivity. Qed.




(** The mining hours of a block at a resolved penetration rate. *)
Definition hours_at (cfg : CostModelConfig R) (b : BlockCharacteristics R)
    (pr : PenetrationRate R) : R :=
  strikeLength b * width b / metersPerHour pr
  / (planned (availability (projectParameters cfg))
     * mechanical (availability (projectParameters cfg))
     * operational (availability (projectParameters cfg))).






(** *** Well-formed inputs *)














(** *** The two cost maps *)







(** *** One period *)

(** The capital and operating cost summed for one period. *)
Definition period_cost (blocks : list (BlockCharacteristics R))
    (schedule : list BlockSchedule) (mp : list (string * BlockCostResult R))
    (year month : Z) : R :=
  - netCashflow (period_cashflow blocks schedule mp year month).

Definition period_step (blocks : list (BlockCharacteristics R))
    (mp : list (string * BlockCostResult R)) : R * R * R -> BlockSchedule -> R * R * R :=
  fun '(periodCapex, periodOpex, periodTonnage) scheduled =>
    match Map_get (sched_blockId scheduled) mp,
          find (fun b => (blockId b =? sched_blockId scheduled)%string) blocks with
    | Some cost, Some block =>
        (periodCapex + capex_total (capexComponent cost),
         periodOpex + opex_total (opexComponent cost),
         periodTonnage + tonnage block)
    | _, _ => (periodCapex, periodOpex, periodTonnage)
    end.

Lemma period_cost_fold (blocks : list (BlockCharacteristics R))
    (schedule : list BlockSchedule) (mp : list (string * BlockCostResult R))
    (year month : Z) :
  period_cost blocks schedule mp year month =
    let t := fold_left (period_step blocks mp)
               (filter (fun s => (sched_period s =? period_of year month)%string) schedule)
               (0, 0, 0) in
    fst (fst t) + snd (fst t).
Proof.
  unfold period_cost, period_cashflow. js_R.
  change (fold_left _ ?l (0, 0, 0)) with (fold_left (period_step blocks mp) l (0, 0, 0)).
  destruct (fold_left (period_step blocks mp) _ (0, 0, 0)) as [[c o] t].
  cbn [netCashflow fst snd]. lra.
Qed.




(** *** The series and its present value *)

(** The periods of the horizon, in order. *)
Definition periods_of (cfg : CostModelConfig R) : list (Z * Z) :=
  flat_map (fun year => map (pair year) months)
    (years_of (lifeOfMine_startYear (projectParameters cfg))
              (lifeOfMine_startYear (projectParameters cfg)
               + lifeOfMine_years (projectParameters cfg))).

Lemma flat_map_map_pair {A B C : Type} (f : A -> B -> C) (xs : list A) (ys : list B) :
  flat_map (fun x => map (f x) ys) xs
  = map (fun p => f (fst p) (snd p)) (flat_map (fun x => map (pair x) ys) xs).
Proof.
  induction xs as [| x xs IH]; simpl; [reflexivity|].
  rewrite map_app, map_map, IH. reflexivity.
Qed.

Lemma generateCashflow_series (cfg : CostModelConfig R)
    (blocks : list (BlockCharacteristics R)) (schedule : list BlockSchedule)
    (mp : list (string * BlockCostResult R)) :
  calculateBlockCosts cfg clock blocks [] = Returns mp ->
  exists cfs,
    generateCashflow cfg clock blocks schedule = Returns cfs /\
    map (@netCashflow R) cfs
    = map (fun p => - period_cost blocks schedule mp (fst p) (snd p)) (periods_of cfg).
Proof.
  intros Hmp. unfold generateCashflow. rewrite Hmp. cbn [bind].
  eexists. split; [reflexivity|].
  rewrite accumulate_netCashflow, flat_map_map_pair, map_map.
  unfold periods_of. apply map_ext. intros [y mth]. unfold period_cost. cbn [fst snd]. lra.
Qed.

(** The NPV loop of [generateSummary] over the net cash flows, from index
    [start] and accumulator [acc]. *)
Definition npv_sum (d : R) (start : nat) (nets : list R) (acc : R) : R :=
  fold_left (fun npv '(i, c) => npv + c / Rpower (1 + d) (IZR (Z.of_nat i) / 12))
    (combine (seq start (List.length nets)) nets) acc.

Lemma npv_fold_nets (d : R) (cfs : list (ProjectCashflow R)) (start : nat) (acc : R) :
  fold_left (fun npv '(i, cf) =>
      npv + netCashflow cf / Rpower (1 + d) (IZR (Z.of_nat i) / 12))
    (combine (seq start (List.length cfs)) cfs) acc
  = npv_sum d start (map (@netCashflow R) cfs) acc.
Proof.
  unfold npv_sum. revert start acc.
  induction cfs as [| cf rest IH]; intros start acc; simpl; [reflexivity|].
  apply IH.
Qed.

Lemma generateSummary_npv (cfg : CostModelConfig R) (cfs : list (ProjectCashflow R)) :
  npv (generateSummary cfg cfs)
  = npv_sum (discountRate (aggregatorSettings cfg)) 0 (map (@netCashflow R) cfs) 0.
Proof.
  unfold generateSummary, indexed. cbn [npv]. js_R. apply npv_fold_nets.
Qed.





(** *** What the variation changes *)







End EquipmentSensitivity.

(** ** The IRR of a two-period series *)

Section TwoPeriodIRR.
Local Open Scope R_scope.

(** The series of the example: 1000 out, 1100 back one period later. *)
Definition two_period : list R := [-1000; 1100].

(** The rate at which the NPV of the series vanishes when the periods are
    months: 10% a month compounded over twelve months. *)
Definition monthly_root : R := (11 / 10) ^ 12 - 1.

Definition twelfth_root (u : R) : R := Rpower u (1 / 12).

Lemma twelfth_root_pos (u : R) : 0 < twelfth_root u.
Proof. unfold twelfth_root, Rpower. apply exp_pos. Qed.

Lemma twelfth_root_pow (u : R) : 0 < u -> twelfth_root u ^ 12 = u.
Proof.
  intros Hu. unfold twelfth_root.
  rewrite <- (Rpower_pow 12 (Rpower u (1 / 12))) by (unfold Rpower; apply exp_pos).
  rewrite Rpower_mult.
  replace (1 / 12 * INR 12) with 1 by (simpl; field).
  apply Rpower_1. assumption.
Qed.

(** The rate after one Newton-Raphson round from [rate]. *)
Definition next_rate (rate : R) : R :=
  rate + 12 * (1 + rate) * (1 - 10 / 11 * twelfth_root (1 + rate)).

Lemma npv_and_derivative_two_period (rate : R) :
  0 < 1 + rate ->
  npv_and_derivative two_period rate
  = (-1000 + 1100 / twelfth_root (1 + rate),
     - (1100 / 12 / (twelfth_root (1 + rate) * (1 + rate)))).
Proof.
  intros Hu. pose proof (twelfth_root_pos (1 + rate)) as Hy.
  unfold npv_and_derivative, two_period, indexed.
  cbn [List.length seq combine fold_left]. js_R.
  change (Z.of_nat 0) with 0%Z. change (Z.of_nat 1) with 1%Z.
  replace (0 / 12) with 0 by lra.
  rewrite (Rpower_O (1 + rate) Hu).
  fold (twelfth_root (1 + rate)).
  f_equal; field; lra.
Qed.

(** *** Two polynomial inequalities *)

Ltac nonneg_poly :=
  repeat match goal with
         | |- 0 <= _ + _ => apply Rplus_le_le_0_compat
         | |- 0 <= _ * _ ^ _ => apply Rmult_le_pos; [lra | apply pow_le; assumption]
         | |- 0 <= _ ^ _ => apply pow_le; assumption
         | |- 0 <= _ => lra
         end.

Lemma bernoulli_twelve (s : R) : 0 <= s -> 12 * s - 11 <= s ^ 12.
Proof.
  intros Hs.
  assert (Hfactor : s ^ 12 - 12 * s + 11
                    = (s - 1) ^ 2 * (s ^ 10 + 2 * s ^ 9 + 3 * s ^ 8 + 4 * s ^ 7 + 5 * s ^ 6
                                     + 6 * s ^ 5 + 7 * s ^ 4 + 8 * s ^ 3 + 9 * s ^ 2
                                     + 10 * s + 11)) by ring.
  assert (0 <= s ^ 12 - 12 * s + 11); [| lra].
  rewrite Hfactor. apply Rmult_le_pos; [apply pow2_ge_0 | nonneg_poly].
Qed.

Lemma tangent_thirteen (s : R) : 0 <= s -> s ^ 12 * (13 - 12 * s) <= 1.
Proof.
  intros Hs.
  assert (Hfactor : 1 - s ^ 12 * (13 - 12 * s)
                    = (s - 1) ^ 2 * (12 * s ^ 11 + 11 * s ^ 10 + 10 * s ^ 9 + 9 * s ^ 8
                                     + 8 * s ^ 7 + 7 * s ^ 6 + 6 * s ^ 5 + 5 * s ^ 4
                                     + 4 * s ^ 3 + 3 * s ^ 2 + 2 * s + 1)) by ring.
  assert (0 <= 1 - s ^ 12 * (13 - 12 * s)); [| lra].
  rewrite Hfactor. apply Rmult_le_pos; [apply pow2_ge_0 | nonneg_poly].
Qed.

(** *** One round on the interval between the guess and the root *)

Definition U : R := 3138428376721 / 1000000000000.

Lemma U_pow : (11 / 10) ^ 12 = U.
Proof. unfold U. simpl. lra. Qed.

Lemma monthly_root_U : monthly_root = U - 1.
Proof. unfold monthly_root. rewrite U_pow. reflexivity. Qed.

(** The gap to the root, as a fraction of [1 + root]. *)
Definition gap (rate : R) : R := 1 - (1 + rate) / U.

Definition in_range (rate : R) : Prop := 11 / 10 <= 1 + rate <= U.

Definition scaled_root (rate : R) : R := 10 / 11 * twelfth_root (1 + rate).

Lemma scaled_root_facts (rate : R) :
  in_range rate ->
  0 < scaled_root rate <= 1 /\ scaled_root rate ^ 12 * U = 1 + rate.
Proof.
  intros [Hlo Hhi]. unfold scaled_root.
  pose proof (twelfth_root_pos (1 + rate)) as Hy.
  assert (Hpow : (10 / 11 * twelfth_root (1 + rate)) ^ 12 * U = 1 + rate).
  { rewrite Rpow_mult_distr, twelfth_root_pow by lra. unfold U. simpl. lra. }
  split; [| exact Hpow]. split; [lra|].
  destruct (Rle_lt_dec (10 / 11 * twelfth_root (1 + rate)) 1) as [Hle | Hgt]; [assumption|].
  exfalso. apply (Rlt_pow_R1 _ 12) in Hgt; [| lia].
  assert (0 < U) by (unfold U; lra). nra.
Qed.

Lemma next_rate_facts (rate : R) :
  in_range rate ->
  in_range (next_rate rate) /\
  rate <= next_rate rate /\
  gap (next_rate rate) <= gap rate ^ 2 /\
  next_rate rate - rate <= U * gap rate /\
  U * gap rate <= U / (11 / 10) * (next_rate rate - rate).
Proof.
  intros Hrange. destruct (scaled_root_facts Hrange) as [[Hs0 Hs1] Hpow].
  destruct Hrange as [Hlo Hhi].
  set (s := scaled_root rate) in *.
  assert (HU : 0 < U) by (unfold U; lra).
  assert (Hnext : 1 + next_rate rate = (1 + rate) * (13 - 12 * s)).
  { unfold next_rate. fold (scaled_root rate). fold s. ring. }
  pose proof (bernoulli_twelve (Rlt_le _ _ Hs0)) as Hb.
  pose proof (tangent_thirteen (Rlt_le _ _ Hs0)) as Ht.
  assert (Hs12 : 0 < s ^ 12) by (apply pow_lt; assumption).
  assert (Hgap : gap rate = 1 - s ^ 12).
  { unfold gap. rewrite <- Hpow. field. lra. }
  assert (Hgap' : gap (next_rate rate) = 1 - s ^ 12 * (13 - 12 * s)).
  { unfold gap. rewrite Hnext, <- Hpow. field. lra. }
  assert (Hdelta : next_rate rate - rate = 12 * (1 + rate) * (1 - s)).
  { unfold next_rate. fold (scaled_root rate). fold s. ring. }
  repeat split.
  - rewrite Hnext. nra.
  - rewrite Hnext, <- Hpow.
    replace (s ^ 12 * U * (13 - 12 * s)) with (U * (s ^ 12 * (13 - 12 * s))) by ring.
    nra.
  - assert (0 <= next_rate rate - rate); [| lra].
    rewrite Hdelta. apply Rmult_le_pos; [| lra]. lra.
  - rewrite Hgap, Hgap'.
    assert (0 <= s ^ 12 * (s ^ 12 - (12 * s - 11))) by (apply Rmult_le_pos; lra).
    nra.
  - rewrite Hdelta, Hgap.
    assert (U * (1 - s ^ 12) = U - (1 + rate)) by (rewrite <- Hpow; ring).
    assert (12 * (1 + rate) * (1 - s) = (1 + rate) * (13 - 12 * s) - (1 + rate)) by ring.
    assert ((1 + rate) * (13 - 12 * s) <= U).
    { rewrite <- Hpow.
      replace (s ^ 12 * U * (13 - 12 * s)) with (U * (s ^ 12 * (13 - 12 * s))) by ring.
      nra. }
    lra.
  - rewrite Hdelta, Hgap.
    assert (H1 : 1 - s ^ 12 <= 12 * (1 - s)) by lra.
    assert (H2 : U * (1 - s ^ 12) <= U * (12 * (1 - s))) by (apply Rmult_le_compat_l; lra).
    assert (H3 : U / (11 / 10) * (12 * (1 + rate) * (1 - s))
                 = U * (12 * (1 - s)) * ((1 + rate) / (11 / 10))) by (field; lra).
    rewrite H3.
    assert (H4 : 1 <= (1 + rate) / (11 / 10)).
    { apply (Rmult_le_reg_r (11 / 10)); [lra|]. field_simplify; lra. }
    assert (0 <= U * (12 * (1 - s))) by (apply Rmult_le_pos; lra).
    nra.
Qed.

(** *** The loop *)

Lemma newton_two_period_round (n : nat) (rate : R) :
  in_range rate ->
  newton (S n) two_period rate =
    if Rltb (next_rate rate - rate) (1 / 10000) then Some (next_rate rate)
    else newton n two_period (next_rate rate).
Proof.
  intros Hrange.
  destruct (scaled_root_facts Hrange) as [[Hs0 Hs1] Hpow].
  destruct (next_rate_facts Hrange) as (_ & Hmono & _).
  destruct Hrange as [Hlo Hhi].
  assert (HU : U <= 4) by (unfold U; lra).
  pose proof (twelfth_root_pos (1 + rate)) as Hy.
  assert (Hy1 : twelfth_root (1 + rate) <= 11 / 10).
  { unfold scaled_root in Hs1. lra. }
  rewrite newton_S, npv_and_derivative_two_period by lra.
  cbv beta iota. unfold lit. js_R.
  set (y := twelfth_root (1 + rate)) in *.
  assert (Hyu : 0 < y * (1 + rate)) by (apply Rmult_lt_0_compat; lra).
  assert (Hyu4 : y * (1 + rate) <= 11 / 10 * 4) by nra.
  assert (Hderiv : 1 / 10000 <= 1100 / 12 / (y * (1 + rate))).
  { apply (Rmult_le_reg_r (y * (1 + rate))); [assumption|].
    replace (1100 / 12 / (y * (1 + rate)) * (y * (1 + rate))) with (1100 / 12)
      by (field; lra).
    lra. }
  rewrite Rabs_Ropp, (Rabs_pos_eq (1100 / 12 / (y * (1 + rate)))) by lra.
  rewrite (Rltb_false Hderiv).
  replace (rate - (-1000 + 1100 / y) / - (1100 / 12 / (y * (1 + rate))))
    with (next_rate rate).
  2:{ unfold next_rate. fold y. field. lra. }
  rewrite Rabs_pos_eq by lra. reflexivity.
Qed.

(** The gap after [k] rounds is at most [gap_bound k]. *)
Definition gap_bound (k : nat) : R :=
  match k with
  | 0%nat => 65 / 100
  | 1%nat => 43 / 100
  | 2%nat => 19 / 100
  | 3%nat => 4 / 100
  | 4%nat => 2 / 1000
  | _ => 4 / 1000000
  end.

Lemma gap_bound_square (k : nat) : (k < 5)%nat -> gap_bound k ^ 2 <= gap_bound (S k).
Proof.
  intros Hk. do 5 (destruct k as [| k]; [simpl; lra|]). lia.
Qed.

Lemma gap_nonneg (rate : R) : in_range rate -> 0 <= gap rate.
Proof.
  intros [Hlo Hhi]. unfold gap.
  assert (HU : 0 < U) by (unfold U; lra).
  assert ((1 + rate) / U <= 1); [| lra].
  apply (Rmult_le_reg_r U); [assumption|]. field_simplify; lra.
Qed.

Lemma newton_two_period_converges (m : nat) :
  forall k n rate,
    (k + m = 5)%nat -> (m < n)%nat ->
    in_range rate -> gap rate <= gap_bound k ->
    exists v,
      newton n two_period rate = Some v /\
      monthly_root - 3 / 10000 < v <= monthly_root.
Proof.
  assert (HU : 3 < U < 4) by (unfold U; lra).
  induction m as [| m IH]; intros k n rate Hk Hn Hrange Hgap.
  - (* the gap is small enough for the round to stop *)
    replace k with 5%nat in Hgap by lia. cbn [gap_bound] in Hgap.
    destruct n as [| n]; [lia|].
    destruct (next_rate_facts Hrange) as ([Hlo' Hhi'] & Hmono & _ & Hstep & Hacc).
    rewrite (newton_two_period_round n Hrange).
    assert (Hsmall : next_rate rate - rate < 1 / 10000) by nra.
    rewrite (Rltb_true Hsmall).
    exists (next_rate rate). split; [reflexivity|].
    rewrite monthly_root_U. destruct Hrange as [Hlo Hhi].
    pose proof (gap_nonneg (conj Hlo Hhi)). unfold gap in *.
    assert (U * (1 - (1 + rate) / U) = U - (1 + rate)) by (field; lra).
    nra.
  - destruct n as [| n]; [lia|].
    destruct (next_rate_facts Hrange) as (Hrange' & Hmono & Hsquare & Hstep & Hacc).
    rewrite (newton_two_period_round n Hrange).
    destruct (Rlt_dec (next_rate rate - rate) (1 / 10000)) as [Hsmall | Hlarge].
    + rewrite (Rltb_true Hsmall).
      exists (next_rate rate). split; [reflexivity|].
      rewrite monthly_root_U. destruct Hrange' as [Hlo' Hhi'].
      destruct Hrange as [Hlo Hhi].
      assert (HUgap : U * gap rate = U - (1 + rate)) by (unfold gap; field; lra).
      assert (U / (11 / 10) * (next_rate rate - rate) < 3 / 10000).
      { assert (U / (11 / 10) < 29 / 10) by (unfold U; lra).
        assert (0 <= next_rate rate - rate) by lra. nra. }
      lra.
    + rewrite Rltb_false by lra.
      apply (IH (S k)); [lia | lia | assumption |].
      apply Rle_trans with (gap rate ^ 2); [assumption|].
      apply Rle_trans with (gap_bound k ^ 2); [| apply gap_bound_square; lia].
      pose proof (gap_nonneg Hrange). apply pow_incr. lra.
Qed.

Lemma calculateIRR_two_period_value :
  exists v,
    calculateIRR two_period (lit 1 10) = Some v /\
    monthly_root - 3 / 10000 < v <= monthly_root.
Proof.
  unfold calculateIRR.
  apply (@newton_two_period_converges 5 0 100); [lia | lia | |].
  - unfold in_range, lit, U. js_R. lra.
  - unfold gap, gap_bound, lit, U. js_R. lra.
Qed.

(** C3, as the code has it.  On the two-period series [-1000, 1100] the
    periods are months (the exponent is [t / 12]), and [calculateIRR]
    returns a rate within 0.0003 below [1.1^12 - 1], about 213.8% a year:
    the annual rate whose monthly equivalent is 10%. *)
Theorem calculateIRR_two_period_monthly :
  exists v,
    calculateIRR two_period (lit 1 10) = Some v /\
    Rabs (v - ((11 / 10) ^ 12 - 1)) < 3 / 10000 /\
    2138 / 1000 < v < 2139 / 1000.
Proof.
  destruct calculateIRR_two_period_value as (v & Hv & Hlo & Hhi).
  exists v. split; [exact Hv|].
  fold monthly_root. rewrite monthly_root_U in *. unfold U in *.
  split; [| lra].
  apply Rabs_def1; lra.
Qed.

(** The returned rate is nowhere near 10%. *)
Lemma calculateIRR_two_period_not_ten_percent :
  ~ exists v,
      calculateIRR two_period (lit 1 10) = Some v /\ Rabs (v - 10 / 100) <= 1 / 1000.
Proof.
  intros (v & Hv & Hclose).
  destruct calculateIRR_two_period_value as (v' & Hv' & Hlo & Hhi).
  rewrite Hv in Hv'. injection Hv' as <-.
  rewrite monthly_root_U in *. unfold U in *.
  assert (v - 10 / 100 <= 1 / 1000); [| lra].
  apply Rle_trans with (Rabs (v - 10 / 100)); [apply Rle_abs | assumption].
Qed.
End TwoPeriodIRR.

(* ================================================================== *)
(** * Further properties of the engine *)
(* ================================================================== *)

(** ** Rates *)

Section RatesProperties.
Local Open Scope R_scope.
Variable config : CostModelConfig R.







(** X3.  The rate of a catalog item of non-zero useful life stands at the
    item's position and carries its code.  It is consistent across its time
    units: the yearly cost is 12 monthly costs, the monthly cost is
    [daysPerMonth] (25) daily costs, and the daily cost is [hoursPerDay]
    (20) hourly costs.  The hourly cost is the hourly depreciation plus the
    hourly maintenance plus an insurance share of 2% of the converted base
    cost over 6000 hours; the hourly maintenance is 5% of the converted
    base cost over 6000 hours, and the hourly depreciation is the
    converted cost less salvage, over the useful life and 6000 hours. *)
Theorem calculateEquipmentRates_item (n : nat) (item : EquipmentItem R) :
  nth_error (items (equipmentCatalog config)) n = Some item ->
  usefulLife_years item <> 0 ->
  exists rate,
    nth_error (calculateEquipmentRates config) n = Some rate /\
    er_itemCode rate = itemCode item /\
    costPerYear rate = 12 * costPerMonth rate /\
    costPerMonth rate = daysPerMonth rate * costPerDay rate /\
    costPerDay rate = hoursPerDay rate * costPerHour rate /\
    let converted :=
      baseCost item
      * getFXRate config (currency item) (projectCurrency (calculatorSettings config)) in
    maintenancePerHour rate = converted * 5 / 100 / 6000 /\
    depreciationPerHour rate * (usefulLife_years item * 6000)
      = converted * (1 - salvageValue item / 100) /\
    costPerHour rate
      = depreciationPerHour rate + maintenancePerHour rate + converted * 2 / 100 / 6000.
Proof.
  intros Hitem Hlife. rewrite calculateEquipmentRates_map.
  exists (rate_of_item config item). split.
  - rewrite nth_error_map, Hitem. reflexivity.
  - cbn [rate_of_item er_itemCode costPerYear costPerMonth costPerDay costPerHour
         daysPerMonth hoursPerDay depreciationPerHour maintenancePerHour].
    unfold lit. js_R. repeat split; field; assumption.
Qed.

(** X4.  The rate of a role stands at the role's position.  Its base rate
    plus its benefits is the loaded hourly rate; the daily rate is 8 hourly
    rates; 12 monthly rates are 2080 hourly rates; the overhead is 0; the
    loaded hourly rate is the converted annual rate times the burden rate
    over 2080 hours; and for a non-zero utilization factor the effective
    hourly rate times that factor is the loaded hourly rate. *)
Theorem calculateLaborRates_role (n : nat) (role : LaborRole R) :
  nth_error (roles (laborCatalog config)) n = Some role ->
  exists rate,
    nth_error (calculateLaborRates config) n = Some rate /\
    lr_roleCode rate = roleCode role /\
    baseRate rate + benefits rate = loadedHourlyRate rate /\
    loadedDailyRate rate = 8 * loadedHourlyRate rate /\
    12 * loadedMonthlyRate rate = 2080 * loadedHourlyRate rate /\
    lr_overhead rate = 0 /\
    loadedHourlyRate rate * 2080
      = annualRate role
        * getFXRate config (role_currency role) (projectCurrency (calculatorSettings config))
        * burdenRate role /\
    (utilizationFactor role <> 0 ->
     effectiveHourlyRate rate * utilizationFactor role = loadedHourlyRate rate).
Proof.
  intros Hrole. unfold calculateLaborRates.
  eexists. split.
  - rewrite nth_error_map, Hrole. reflexivity.
  - cbn [lr_roleCode baseRate benefits loadedHourlyRate loadedDailyRate
         loadedMonthlyRate lr_overhead effectiveHourlyRate]. js_R.
    repeat split; try field. intros Hu. field. assumption.
Qed.
End RatesProperties.

Section ConsumableRateProperties.
Local Open Scope R_scope.

(** X5.  A consumable rate multiplied back by the units it was divided by
    gives the unit cost, for an item whose three unit yields are non-zero;
    a configured wear curve is kept even when it is empty, and only an
    absent one is replaced by the four-point default curve. *)
Theorem calculateConsumableRates_round_trip (cs : list (ConsumableConfig R))
    (n : nat) (item : ConsumableConfig R) :
  nth_error cs n = Some item ->
  metersPerUnit item <> 0 -> tonnesPerUnit item <> 0 -> cyclesPerUnit item <> 0 ->
  exists rate,
    nth_error (calculateConsumableRates cs) n = Some rate /\
    cr_costPerMeter rate * metersPerUnit item = costPerUnit item /\
    cr_costPerTonne rate * tonnesPerUnit item = costPerUnit item /\
    cr_costPerCycle rate * cyclesPerUnit item = costPerUnit item /\
    (forall curve, cc_wearCurve item = Some curve -> wearCurve rate = curve) /\
    (cc_wearCurve item = None -> List.length (wearCurve rate) = 4%nat).
Proof.
  intros Hitem Hm Ht Hc. unfold calculateConsumableRates.
  eexists. split.
  - rewrite nth_error_map, Hitem. reflexivity.
  - cbn [cr_costPerMeter cr_costPerTonne cr_costPerCycle wearCurve]. js_R.
    repeat split; try (field; assumption).
    + intros curve ->. reflexivity.
    + intros ->. reflexivity.
Qed.
End ConsumableRateProperties.
(** ** Risk conditions *)

(** [p] holds of every character of [s]. *)
Fixpoint all_chars (p : ascii -> bool) (s : string) : bool :=
  match s with
  | EmptyString => true
  | String c s' => p c && all_chars p s'
  end.

Lemma all_chars_app (p : ascii -> bool) (s t : string) :
  all_chars p (s ++ t) = all_chars p s && all_chars p t.
Proof.
  induction s as [| c s IH]; simpl; [reflexivity|].
  rewrite IH, andb_assoc. reflexivity.
Qed.

Lemma length_append (s t : string) :
  String.length (s ++ t) = (String.length s + String.length t)%nat.
Proof. induction s as [| c s IH]; simpl; [reflexivity | rewrite IH; reflexivity]. Qed.

Definition not_line_terminator (c : ascii) : bool := negb (is_line_terminator c).
Definition not_operator_char (c : ascii) : bool := negb (is_operator_char c).

(** A captured value: non-empty and within one line. *)
Definition is_value (v : string) : Prop :=
  v <> EmptyString /\ all_chars not_line_terminator v = true.

Lemma take_line_within (s : string) : all_chars not_line_terminator (take_line s) = true.
Proof.
  induction s as [| c s IH]; simpl; [reflexivity|].
  destruct (is_line_terminator c) eqn:Hc; simpl; [reflexivity|].
  unfold not_line_terminator at 1. rewrite Hc, IH. reflexivity.
Qed.

Lemma dot_plus_value (s v : string) : dot_plus s = Some v -> is_value v.
Proof.
  unfold dot_plus. pose proof (take_line_within s) as Hline.
  destruct (take_line s) as [| c t]; [discriminate|].
  intros [= <-]. split; [discriminate | assumption].
Qed.

Lemma spaces_then_value_value (s v : string) : spaces_then_value s = Some v -> is_value v.
Proof.
  revert v. induction s as [| c s IH]; simpl; intros v; [discriminate|].
  destruct (is_space c).
  - destruct (spaces_then_value s) as [w|].
    + intros [= <-]. apply IH. reflexivity.
    + apply dot_plus_value.
  - apply dot_plus_value.
Qed.

Lemma operators_then_value_groups (s op op' v : string) :
  all_chars is_operator_char op = true ->
  operators_then_value op s = Some (op', v) ->
  all_chars is_operator_char op' = true /\
  String.length op <= String.length op' /\ is_value v.
Proof.
  revert op. induction s as [| c s IH]; simpl; intros op Hop; [discriminate|].
  assert (Hstop : option_map (pair op) (spaces_then_value (String c s)) = Some (op', v) ->
                  all_chars is_operator_char op' = true /\
                  String.length op <= String.length op' /\ is_value v).
  { destruct (spaces_then_value (String c s)) as [w|] eqn:Hw; [| discriminate].
    intros [= <- <-]. split; [assumption|]. split; [lia|].
    apply (spaces_then_value_value _ Hw). }
  destruct (is_operator_char c) eqn:Hc; [| exact Hstop].
  destruct (operators_then_value (op ++ String c EmptyString) s) as [[op1 v1]|] eqn:Hrec;
    [| exact Hstop].
  intros [= <- <-].
  destruct (IH (op ++ String c EmptyString)%string) as (Hops & Hlen & Hv).
  - rewrite all_chars_app, Hop. simpl. rewrite Hc. reflexivity.
  - assumption.
  - split; [assumption|]. split; [| assumption].
    rewrite length_append in Hlen. simpl in Hlen. lia.
Qed.

Lemma match_at_groups (s op v : string) :
  match_at s = Some (op, v) ->
  all_chars is_operator_char op = true /\ 1 <= String.length op /\ is_value v.
Proof.
  destruct s as [| c s]; simpl; [discriminate|].
  destruct (is_operator_char c) eqn:Hc; [| discriminate].
  intros Hm. apply operators_then_value_groups in Hm.
  - exact Hm.
  - simpl. rewrite Hc. reflexivity.
Qed.

Lemma match_at_no_operator (s : string) :
  all_chars not_operator_char s = true -> match_at s = None.
Proof.
  destruct s as [| c s]; simpl; [reflexivity|].
  unfold not_operator_char at 1. destruct (is_operator_char c); [discriminate | reflexivity].
Qed.

Lemma match_condition_no_operator (s : string) :
  all_chars not_operator_char s = true -> match_condition s = None.
Proof.
  induction s as [| c s IH]; intros Hs.
  - reflexivity.
  - cbn [match_condition]. rewrite (match_at_no_operator _ Hs).
    apply IH. simpl in Hs. apply andb_true_iff in Hs. apply Hs.
Qed.

(** X6.  What the condition pattern captures: the operator group is a
    non-empty run of the characters [>], [<], [=] and [!], and the value
    group is non-empty and holds no line terminator. *)
Theorem match_condition_groups (s op v : string) :
  match_condition s = Some (op, v) ->
  all_chars is_operator_char op = true /\ 1 <= String.length op /\ is_value v.
Proof.
  induction s as [| c s IH].
  - simpl. discriminate.
  - cbn [match_condition].
    destruct (match_at (String c s)) as [[op1 v1]|] eqn:Hat.
    + intros [= <- <-]. apply (match_at_groups _ Hat).
    + apply IH.
Qed.

Section ConditionProperties.
Context {num : Type} `{JsNumber num} {runtime : JsRuntime num}.
Local Open Scope string_scope.

Variable block : BlockCharacteristics num.

(** The attributes [evaluateCondition] can read. *)
Definition known_attribute (a : string) : Prop :=
  a = "depth" \/ a = "rock_hardness" \/ a = "grade" \/ a = "abrasivity".

(** X7.  A condition on an attribute other than depth, rock_hardness,
    grade and abrasivity never holds, and neither does a condition whose
    text has none of the characters [>], [<], [=] and [!]. *)
Theorem evaluateCondition_never_holds (attribute' condition' : string) :
  ~ known_attribute attribute' \/ all_chars not_operator_char condition' = true ->
  evaluateCondition attribute' condition' block = false.
Proof.
  unfold evaluateCondition, known_attribute. intros [Hattr | Hcond].
  - destruct (match_condition condition') as [[op v]|]; [| reflexivity].
    destruct (String.eqb_spec attribute' "depth") as [-> | _]; [tauto|].
    destruct (String.eqb_spec attribute' "rock_hardness") as [-> | _]; [tauto|].
    destruct (String.eqb_spec attribute' "grade") as [-> | _]; [tauto|].
    destruct (String.eqb_spec attribute' "abrasivity") as [-> | _]; [tauto|].
    reflexivity.
  - rewrite (match_condition_no_operator _ Hcond). reflexivity.
Qed.

(** X8.  A threshold that parses to zero or to [NaN] is compared as text:
    with the operator [=] or [==] the condition of a known attribute never
    holds, whatever the block's value, and with [!=] it always holds. *)
Theorem evaluateCondition_falsy_threshold (attribute' condition' op v : string) :
  known_attribute attribute' ->
  match_condition condition' = Some (op, v) ->
  parseFloat v = None \/ (exists x, parseFloat v = Some x /\ truthy x = false) ->
  (op = "=" \/ op = "==" -> evaluateCondition attribute' condition' block = false) /\
  (op = "!=" -> evaluateCondition attribute' condition' block = true).
Proof.
  intros Hattr Hmatch Hparse. unfold evaluateCondition. rewrite Hmatch.
  assert (Hthreshold :
            match parseFloat v with
            | Some x => if truthy x then VNum x else VStr (trim v)
            | None => VStr (trim v)
            end = VStr (num:=num) (trim v)).
  { destruct Hparse as [-> | (x & -> & ->)]; reflexivity. }
  rewrite Hthreshold.
  split.
  - intros [-> | ->];
      destruct Hattr as [-> | [-> | [-> | ->]]]; reflexivity.
  - intros ->.
    destruct Hattr as [-> | [-> | [-> | ->]]]; reflexivity.
Qed.
End ConditionProperties.

Section NumericConditions.
Local Open Scope R_scope.
Context {runtime : JsRuntime R}.
Variable block : BlockCharacteristics R.

(** The block value a known attribute names. *)
Definition block_value (a : string) : R :=
  if (a =? "depth")%string then depth block
  else if (a =? "rock_hardness")%string then hardness block
  else if (a =? "grade")%string then grade block
  else abrasivity block.

Lemma Rltb_iff (x y : R) : Rltb x y = true <-> x < y.
Proof. unfold Rltb. destruct (Rlt_dec x y); split; intros; congruence || assumption. Qed.

Lemma Rleb_iff (x y : R) : Rleb x y = true <-> x <= y.
Proof. unfold Rleb. destruct (Rle_dec x y); split; intros; congruence || assumption. Qed.

Lemma Reqb_iff (x y : R) : Reqb x y = true <-> x = y.
Proof. unfold Reqb. destruct (Req_dec_T x y); split; intros; congruence || assumption. Qed.

(** X9.  With a threshold that parses to a non-zero number, a condition on
    a known attribute holds exactly when the block's value stands in the
    operator's relation to the threshold, for the operators [>], [>=],
    [<], [<=], [=] or [==], and [!=]; with any other operator run it
    does not hold. *)
Theorem evaluateCondition_numeric (attribute' condition' op v : string) (x : R) :
  known_attribute attribute' ->
  match_condition condition' = Some (op, v) ->
  parseFloat v = Some x -> x <> 0 ->
  let holds := evaluateCondition attribute' condition' block = true in
  let value := block_value attribute' in
  (op = ">"%string -> (holds <-> value > x)) /\
  (op = ">="%string -> (holds <-> value >= x)) /\
  (op = "<"%string -> (holds <-> value < x)) /\
  (op = "<="%string -> (holds <-> value <= x)) /\
  (op = "="%string \/ op = "=="%string -> (holds <-> value = x)) /\
  (op = "!="%string -> (holds <-> value <> x)) /\
  (~ In op [">"; ">="; "<"; "<="; "="; "=="; "!="]%string -> ~ holds).
Proof.
  intros Hattr Hmatch Hparse Hx holds value.
  assert (Heval :
    evaluateCondition attribute' condition' block =
      if (op =? ">")%string then Rltb x value
      else if (op =? ">=")%string then Rleb x value
      else if (op =? "<")%string then Rltb value x
      else if (op =? "<=")%string then Rleb value x
      else if ((op =? "=") || (op =? "=="))%string then Reqb value x
      else if (op =? "!=")%string then negb (Reqb value x)
      else false).
  { unfold evaluateCondition. rewrite Hmatch, Hparse, truthy_R.
    destruct (Req_dec_T x 0) as [E | _]; [contradiction|].
    subst value. unfold block_value.
    destruct Hattr as [-> | [-> | [-> | ->]]]; reflexivity. }
  subst holds. rewrite Heval. clear Heval.
  split; [| split; [| split; [| split; [| split; [| split]]]]].
  - intros ->. cbv [String.eqb Ascii.eqb Bool.eqb]. rewrite Rltb_iff. lra.
  - intros ->. cbv [String.eqb Ascii.eqb Bool.eqb]. rewrite Rleb_iff. lra.
  - intros ->. cbv [String.eqb Ascii.eqb Bool.eqb]. rewrite Rltb_iff. lra.
  - intros ->. cbv [String.eqb Ascii.eqb Bool.eqb]. rewrite Rleb_iff. lra.
  - intros [-> | ->]; cbv [String.eqb Ascii.eqb Bool.eqb orb]; apply Reqb_iff.
  - intros ->. cbv [String.eqb Ascii.eqb Bool.eqb orb].
    rewrite negb_true_iff, <- not_true_iff_false, Reqb_iff. tauto.
  - intros Hop.
    repeat match goal with
           | |- context [String.eqb op ?t] =>
               destruct (String.eqb_spec op t) as [-> | _];
               [exfalso; apply Hop; simpl; tauto|]
           end.
    cbn [orb]. discriminate.
Qed.
End NumericConditions.

(** ** Volume discounts and allocation methods *)

Section DiscountProperties.
Local Open Scope R_scope.
Variable config : CostModelConfig R.

(** A tier covers a quantity of a category: the range is closed at both
    ends. *)
Definition tier_covers (category' : string) (quantity : R)
    (t : VolumeDiscountTier R) : Prop :=
  tier_category t = category' /\ minQuantity t <= quantity <= maxQuantity t.

Lemma tier_covers_spec (category' : string) (quantity : R) (t : VolumeDiscountTier R) :
  ((tier_category t =? category')%string
     && leb (minQuantity t) quantity && leb quantity (maxQuantity t)) = true
  <-> tier_covers category' quantity t.
Proof.
  unfold tier_covers. js_R.
  rewrite !andb_true_iff, !Rleb_iff, String.eqb_eq. tauto.
Qed.

(** X10.  [getVolumeDiscount] returns the [discountPercent] of the first
    tier, in table order, whose category is the requested one and whose
    closed range [minQuantity, maxQuantity] holds the quantity, and 0 when
    no tier does; at a quantity that ends one tier and starts the next it
    is the earlier tier that counts. *)
Theorem getVolumeDiscount_first_tier (category' : string) (quantity : R) :
  (forall pre t post,
     volumeDiscounts config = (pre ++ t :: post)%list ->
     (forall u, In u pre -> ~ tier_covers category' quantity u) ->
     tier_covers category' quantity t ->
     getVolumeDiscount config category' quantity = discountPercent t) /\
  ((forall u, In u (volumeDiscounts config) -> ~ tier_covers category' quantity u) ->
   getVolumeDiscount config category' quantity = 0).
Proof.
  unfold getVolumeDiscount. split.
  - intros pre t post -> Hpre Ht.
    rewrite (find_first _ pre post t).
    + apply num_or_zero_R.
    + intros u Hu. apply not_true_iff_false. rewrite tier_covers_spec. apply Hpre, Hu.
    + apply tier_covers_spec, Ht.
  - intros Hnone. rewrite find_none_intro; [reflexivity|].
    intros u Hu. apply not_true_iff_false. rewrite tier_covers_spec. apply Hnone, Hu.
Qed.
End DiscountProperties.

Section AllocationProperties.
Context {num : Type} `{JsNumber num}.
Variable config : CostModelConfig num.

(** X11.  [getAllocationMethod] answers with the method and basis of the
    first rule for the cost type, and with the tonnage method and its
    default basis exactly when the table has no rule for the cost type. *)
Theorem getAllocationMethod_first_rule (costType' : string) :
  (exists pre rule post,
     allocationRules config = (pre ++ rule :: post)%list /\
     (forall a, In a pre -> costType a <> costType') /\
     costType rule = costType' /\
     getAllocationMethod config costType'
       = {| method := allocationMethod rule; basis := allocationBasis rule |}) \/
  ((forall a, In a (allocationRules config) -> costType a <> costType') /\
   getAllocationMethod config costType'
     = {| method := "tonnage"; basis := "Default allocation per tonne" |}).
Proof.
  unfold getAllocationMethod.
  induction (allocationRules config) as [| a rules IH].
  - right. split; [intros a [] | reflexivity].
  - cbn [find]. destruct (String.eqb_spec (costType a) costType') as [Heq | Hne].
    + left. exists [], a, rules. repeat split; [intros b [] | assumption].
    + destruct IH as [(pre & rule & post & -> & Hpre & Hrule & Hres) | (Hnone & Hres)].
      * left. exists (a :: pre), rule, post. repeat split; try assumption.
        intros b [<- | Hb]; [assumption | apply Hpre, Hb].
      * right. split; [| assumption].
        intros b [<- | Hb]; [assumption | apply Hnone, Hb].
Qed.
End AllocationProperties.
(** ** Block costs *)

Section ConsumablesProperties.
Local Open Scope R_scope.

(** The two multipliers of [calculateConsumablesCost]. *)
Definition depth_multiplier (d : R) : R :=
  if Rlt_dec 1000 d then 15 / 10 else if Rlt_dec 500 d then 125 / 100 else 1.

Definition hardness_multiplier (h : R) : R :=
  if Rlt_dec 8 h then 16 / 10 else if Rlt_dec 6 h then 13 / 10 else 1.

Lemma calculateConsumablesCost_bands (b : BlockCharacteristics R) :
  calculateConsumablesCost b
  = 25 / 10 * tonnage b * depth_multiplier (depth b) * hardness_multiplier (hardness b).
Proof.
  unfold calculateConsumablesCost, depth_multiplier, hardness_multiplier, lit. js_R.
  unfold Rltb.
  destruct (Rlt_dec 1000 (depth b)), (Rlt_dec 500 (depth b)),
    (Rlt_dec 8 (hardness b)), (Rlt_dec 6 (hardness b)); try lra.
Qed.

Lemma depth_multiplier_range (d : R) : 1 <= depth_multiplier d <= 15 / 10.
Proof. unfold depth_multiplier. destruct (Rlt_dec 1000 d), (Rlt_dec 500 d); lra. Qed.

Lemma hardness_multiplier_range (h : R) : 1 <= hardness_multiplier h <= 16 / 10.
Proof. unfold hardness_multiplier. destruct (Rlt_dec 8 h), (Rlt_dec 6 h); lra. Qed.

Lemma depth_multiplier_monotone (d d' : R) :
  d <= d' -> depth_multiplier d <= depth_multiplier d'.
Proof.
  intros Hd. unfold depth_multiplier.
  destruct (Rlt_dec 1000 d), (Rlt_dec 500 d), (Rlt_dec 1000 d'), (Rlt_dec 500 d'); lra.
Qed.

Lemma hardness_multiplier_monotone (h h' : R) :
  h <= h' -> hardness_multiplier h <= hardness_multiplier h'.
Proof.
  intros Hh. unfold hardness_multiplier.
  destruct (Rlt_dec 8 h), (Rlt_dec 6 h), (Rlt_dec 8 h'), (Rlt_dec 6 h'); lra.
Qed.

Lemma calculateConsumablesCost_range (b : BlockCharacteristics R) :
  0 <= tonnage b ->
  25 / 10 * tonnage b <= calculateConsumablesCost b <= 6 * tonnage b.
Proof.
  intros Ht. rewrite calculateConsumablesCost_bands.
  pose proof (depth_multiplier_range (depth b)) as [Hd1 Hd2].
  pose proof (hardness_multiplier_range (hardness b)) as [Hh1 Hh2].
  split.
  - assert (1 <= depth_multiplier (depth b) * hardness_multiplier (hardness b)) by nra.
    nra.
  - assert (depth_multiplier (depth b) * hardness_multiplier (hardness b) <= 24 / 10)
      by nra.
    nra.
Qed.

(** X12.  The consumables cost of a block of non-negative tonnage lies
    between 2.5 and 6 per tonne; at a depth of at most 500 and a hardness
    of at most 6 it is exactly 2.5 per tonne, the bounds 500 and 6
    themselves included. *)
Theorem calculateConsumablesCost_bounds (b : BlockCharacteristics R) :
  0 <= tonnage b ->
  25 / 10 * tonnage b <= calculateConsumablesCost b <= 6 * tonnage b /\
  (depth b <= 500 -> hardness b <= 6 ->
   calculateConsumablesCost b = 25 / 10 * tonnage b).
Proof.
  intros Ht. split; [apply calculateConsumablesCost_range; assumption|].
  intros Hd Hh. rewrite calculateConsumablesCost_bands.
  unfold depth_multiplier, hardness_multiplier.
  destruct (Rlt_dec 1000 (depth b)), (Rlt_dec 500 (depth b)),
    (Rlt_dec 8 (hardness b)), (Rlt_dec 6 (hardness b)); lra.
Qed.

(** X13.  Between two blocks of the same non-negative tonnage, the deeper
    and harder one never has the lower consumables cost. *)
Theorem calculateConsumablesCost_monotone (b b' : BlockCharacteristics R) :
  tonnage b = tonnage b' -> 0 <= tonnage b ->
  depth b <= depth b' -> hardness b <= hardness b' ->
  calculateConsumablesCost b <= calculateConsumablesCost b'.
Proof.
  intros Ht Hpos Hd Hh. rewrite !calculateConsumablesCost_bands, <- Ht.
  pose proof (depth_multiplier_range (depth b)) as [Hd1 _].
  pose proof (hardness_multiplier_range (hardness b')) as [Hh1 _].
  pose proof (hardness_multiplier_range (hardness b)) as [Hh2 _].
  pose proof (depth_multiplier_monotone Hd) as Hdm.
  pose proof (hardness_multiplier_monotone Hh) as Hhm.
  assert (depth_multiplier (depth b) * hardness_multiplier (hardness b)
          <= depth_multiplier (depth b') * hardness_multiplier (hardness b')) by nra.
  nra.
Qed.
End ConsumablesProperties.

Section BlockCostProperties.
Local Open Scope R_scope.
Context {runtime : JsRuntime R}.
Variable config : CostModelConfig R.
Variable clock : Clock.

(** X14.  For a block of non-zero tonnage the equipment depreciation
    allocated to it is a thousandth of the catalog's total base cost,
    whatever the tonnage, and the infrastructure allocation is the tonnage
    itself. *)
Theorem calculateCAPEXAllocation_per_block (b : BlockCharacteristics R) :
  tonnage b <> 0 ->
  equipmentDepreciation (calculateCAPEXAllocation config b) = equipment_capital config / 1000 /\
  infrastructureAllocation (calculateCAPEXAllocation config b) = tonnage b /\
  capex_total (calculateCAPEXAllocation config b)
    = equipment_capital config / 1000 + tonnage b.
Proof.
  intros Ht. unfold calculateCAPEXAllocation.
  cbn [equipmentDepreciation infrastructureAllocation capex_total]. js_R.
  rewrite fold_left_plain. fold (equipment_capital config).
  repeat split; field; assumption.
Qed.

(** X15.  In a returned block cost the breakdown has the seven lines
    Labor, Consumables, Energy, Maintenance, Overhead, Equipment CAPEX and
    Infrastructure, in this order; their costs sum to the subtotal, which
    is the OPEX total plus the CAPEX total; and when the grand total is
    not zero their percentages sum to 100 times the subtotal over the
    grand total. *)
Theorem calculateBlockCost_breakdown (b : BlockCharacteristics R) (r : BlockCostResult R) :
  calculateBlockCost config clock b = Returns r ->
  map (@bd_category R) (breakdown r)
    = ["Labor"; "Consumables"; "Energy"; "Maintenance"; "Overhead";
       "Equipment CAPEX"; "Infrastructure"]%string /\
  Rsum (map (@cost R) (breakdown r)) = subtotal r /\
  subtotal r = opex_total (opexComponent r) + capex_total (capexComponent r) /\
  (grandTotal r <> 0 ->
   Rsum (map (@percentOfTotal R) (breakdown r)) = 100 * subtotal r / grandTotal r).
Proof.
  unfold calculateBlockCost.
  destruct (calculateLaborCost config b) as [laborCost|]; [| discriminate].
  destruct (calculateEquipmentCost config b) as [equipmentCost|]; [| discriminate].
  destruct (calculateEnergyCost config b) as [energyCost|]; [| discriminate].
  destruct (calculateMaintenanceCost config b) as [maintenanceCost|]; [| discriminate].
  destruct (calculateOverhead config b) as [overheadCost|]; [| discriminate].
  cbn [bind].
  destruct (calculateRiskPremium config b) as [riskPremium appliedPremiums].
  intros [= <-].
  cbn [breakdown map bd_category cost percentOfTotal subtotal grandTotal
       opexComponent capexComponent opex_total Rsum fold_right].
  js_R.
  split; [reflexivity|]. split; [lra|]. split; [reflexivity|].
  intros _. unfold Rdiv. ring.
Qed.

Lemma Rdiv_mul_cancel (g t : R) : t <> 0 -> g / t * t = g.
Proof. intros Ht. field. assumption. Qed.

(** X16.  The unit costs of a returned block cost multiply back to the
    grand total: the cost per tonne by a non-zero tonnage, the cost per
    meter by a non-zero strike length; with a strike length of zero the
    cost per meter is the grand total itself.  The result carries the
    block's id, the configuration's version and the clock's time stamp,
    and no volume discount is ever applied. *)
Theorem calculateBlockCost_unit_costs (b : BlockCharacteristics R) (r : BlockCostResult R) :
  calculateBlockCost config clock b = Returns r ->
  (tonnage b <> 0 -> costPerTonne r * tonnage b = grandTotal r) /\
  (strikeLength b <> 0 -> costPerMeter r * strikeLength b = grandTotal r) /\
  (strikeLength b = 0 -> costPerMeter r = grandTotal r) /\
  result_blockId r = blockId b /\ configVersion r = version config /\
  calculatedAt r = nowISO clock /\ appliedDiscounts r = [].
Proof.
  unfold calculateBlockCost.
  destruct (calculateLaborCost config b) as [laborCost|]; [| discriminate].
  destruct (calculateEquipmentCost config b) as [equipmentCost|]; [| discriminate].
  destruct (calculateEnergyCost config b) as [energyCost|]; [| discriminate].
  destruct (calculateMaintenanceCost config b) as [maintenanceCost|]; [| discriminate].
  destruct (calculateOverhead config b) as [overheadCost|]; [| discriminate].
  cbn [bind].
  destruct (calculateRiskPremium config b) as [riskPremium appliedPremiums].
  intros [= <-].
  cbn [costPerTonne costPerMeter grandTotal result_blockId configVersion calculatedAt
       appliedDiscounts].
  js_R. rewrite num_or_R.
  split; [| split; [| split]].
  - intros Ht. apply Rdiv_mul_cancel. assumption.
  - intros Hs. destruct (Req_dec_T (strikeLength b) 0); [contradiction|].
    apply Rdiv_mul_cancel. assumption.
  - intros Hs. destruct (Req_dec_T (strikeLength b) 0); [| contradiction].
    apply Rdiv_1_r.
  - repeat split.
Qed.
End BlockCostProperties.
(** ** Labor weights *)

Lemma includes_unfold (t s : string) :
  includes t s =
    if String.prefix t s then true
    else match s with
         | EmptyString => false
         | String _ s' => includes t s'
         end.
Proof. destruct s; reflexivity. Qed.

Lemma prefix_append (t post : string) : String.prefix t (t ++ post) = true.
Proof.
  induction t as [| c t IH]; simpl.
  - destruct post; reflexivity.
  - destruct (Ascii.ascii_dec c c) as [_ | Hne]; [assumption | contradiction].
Qed.

Lemma includes_infix (t pre post : string) : includes t (pre ++ t ++ post) = true.
Proof.
  induction pre as [| c pre IH].
  - cbn [String.append]. rewrite includes_unfold, prefix_append. reflexivity.
  - cbn [String.append]. rewrite includes_unfold.
    destruct (String.prefix t (String c (pre ++ t ++ post))); [reflexivity | assumption].
Qed.

Lemma includes_direct_indirect (pre post : string) :
  includes "direct" (pre ++ "indirect" ++ post) = true.
Proof.
  replace (pre ++ "indirect" ++ post)%string
    with ((pre ++ "in") ++ "direct" ++ post)%string.
  - apply includes_infix.
  - induction pre as [| c pre IH]; [reflexivity|].
    cbn [String.append]. f_equal. exact IH.
Qed.

Section LaborWeightProperties.
Local Open Scope R_scope.
Variable config : CostModelConfig R.

Lemma fold_left_full_weight (h : R) (rates : list (LaborRates R)) (a : R) :
  (forall rate, In rate rates -> includes "direct" (lr_roleCode rate) = true) ->
  fold_left (fun totalLabor rate =>
      totalLabor + effectiveHourlyRate rate * h
                   * (if includes "direct" (lr_roleCode rate) then 1 else lit 3 10))
    rates a
  = a + Rsum (map (@effectiveHourlyRate R) rates) * h.
Proof.
  revert a. induction rates as [| rate rates IH]; intros a Hall; simpl; [lra|].
  rewrite (Hall rate (or_introl eq_refl)), IH.
  - lra.
  - intros r Hr. apply Hall. right. assumption.
Qed.

(** X17.  A role whose code contains [indirect] contains [direct], so it is
    charged at the full weight of a direct role: when every role code of
    the catalog contains [direct] or [indirect], the labor cost of a block
    whose penetration rate resolves is the sum of the effective hourly
    rates times the effective mining hours. *)
Theorem calculateLaborCost_indirect_full_weight
    (b : BlockCharacteristics R) (pr : PenetrationRate R) :
  findPenRate config b = Some pr ->
  (forall role, In role (roles (laborCatalog config)) ->
     exists pre post,
       roleCode role = (pre ++ "direct" ++ post)%string \/
       roleCode role = (pre ++ "indirect" ++ post)%string) ->
  calculateLaborCost config b
  = Returns (Rsum (map (@effectiveHourlyRate R) (calculateLaborRates config))
             * hours_at config b pr).
Proof.
  intros Hpr Hroles. unfold calculateLaborCost. rewrite Hpr.
  cbn [read_metersPerHour bind]. js_R. fold (hours_at config b pr).
  unfold this_laborRates. f_equal.
  rewrite fold_left_full_weight; [lra|].
  intros rate Hrate. unfold calculateLaborRates in Hrate.
  apply in_map_iff in Hrate. destruct Hrate as (role & <- & Hrole).
  cbn [lr_roleCode].
  destruct (Hroles role Hrole) as (pre & post & [-> | ->]).
  - apply includes_infix.
  - apply includes_direct_indirect.
Qed.
End LaborWeightProperties.

(** ** The default configuration *)

Section DefaultConfigProperties.
Local Open Scope R_scope.
Context {runtime : JsRuntime R}.

Lemma createDefaultConfig_resolves (stamp : Clock) (fullYear : Z)
    (b : BlockCharacteristics R) :
  exists pr, findPenRate (createDefaultConfig stamp fullYear) b = Some pr.
Proof.
  unfold findPenRate.
  cbn [createDefaultConfig projectParameters penetrationRate find pr_rockType].
  repeat match goal with
         | |- context [String.eqb ?a ?b] => destruct (String.eqb a b)
         end; eexists; reflexivity.
Qed.

(** X18.  Under the default configuration, whatever the clock and the year,
    the cost of a block of positive tonnage is returned: its OPEX total is
    its consumables cost, its CAPEX total is its tonnage, its grand total
    is 1.1 times the sum of the two, and its cost per tonne lies between
    3.85 and 7.7. *)
Theorem createDefaultConfig_block_cost (stamp clock : Clock) (fullYear : Z)
    (b : BlockCharacteristics R) :
  0 < tonnage b ->
  exists r,
    calculateBlockCost (createDefaultConfig stamp fullYear) clock b = Returns r /\
    opex_total (opexComponent r) = calculateConsumablesCost b /\
    capex_total (capexComponent r) = tonnage b /\
    grandTotal r = 11 / 10 * (calculateConsumablesCost b + tonnage b) /\
    385 / 100 <= costPerTonne r <= 77 / 10.
Proof.
  intros Ht.
  destruct (createDefaultConfig_resolves stamp fullYear b) as [pr Hpr].
  unfold calculateBlockCost, calculateOverhead, calculateMaintenanceCost,
    calculateEnergyCost, calculateEquipmentCost, estimateMiningHours,
    calculateLaborCost.
  rewrite Hpr. cbn [read_metersPerHour bind].
  eexists. split; [reflexivity|].
  cbn [opex_total opexComponent capex_total capexComponent grandTotal costPerTonne
       calculateCAPEXAllocation equipmentDepreciation infrastructureAllocation].
  generalize (@calculateConsumablesCost_range b (Rlt_le _ _ Ht)).
  generalize (calculateConsumablesCost b). intros c [Hlo Hhi].
  cbn [this_laborRates this_equipmentRates calculateLaborRates calculateEquipmentRates
       createDefaultConfig laborCatalog roles equipmentCatalog items map fold_left
       calculateRiskPremium riskPremiums getMargin marginRules find
       push_margin calculatorSettings contingencyPercent
       riskAdjustment_of marginAdjustment_of discountAdjustment_of].
  unfold push_margin. rewrite truthy_R.
  destruct (Req_dec_T (ofZ 0) 0) as [_ | Hne]; [| exfalso; apply Hne; reflexivity].
  cbn [fold_left]. unfold lit. js_R.
  match goal with
  | |- context [strikeLength b * width b / metersPerHour pr / ?d] =>
      generalize (strikeLength b * width b / metersPerHour pr / d)
  end.
  intros h.
  assert (Hne : tonnage b <> 0) by lra.
  assert (Hopex : 0 + c + 0 * h * (12 / 100) + 0 + (0 + 0) * (15 / 100) = c) by lra.
  assert (Hcapex : 0 / (tonnage b * 1000) * tonnage b + tonnage b * 1 = tonnage b)
    by (field; assumption).
  rewrite Hopex, Hcapex.
  unfold riskAdjustment_of, marginAdjustment_of. cbn [fold_left]. js_R.
  assert (Hgrand : c + tonnage b + (c + tonnage b) * (0 / 100) + 0 + 0
                   + (c + tonnage b) * (10 / 100)
                   = 11 / 10 * (c + tonnage b)) by lra.
  rewrite Hgrand.
  split; [reflexivity|]. split; [reflexivity|]. split; [reflexivity|].
  split.
  - apply Rmult_le_reg_r with (tonnage b); [assumption|].
    rewrite Rdiv_mul_cancel by assumption. lra.
  - apply Rmult_le_reg_r with (tonnage b); [assumption|].
    rewrite Rdiv_mul_cancel by assumption. lra.
Qed.
End DefaultConfigProperties.
(** ** What a cash flow depends on *)

Section CostInputs.
Context {num : Type} `{JsNumber num} {runtime : JsRuntime num}.
Variables config config' : CostModelConfig num.
Variables clock clock' : Clock.

(** The two configurations agree on the parts the cost formulas read: FX
    rates, project parameters, both catalogs and the project currency.
    Margin rules, risk premiums, contingency, discount rate, version and
    stored rate tables may differ. *)
Definition same_cost_inputs : Prop :=
  fxRates config = fxRates config' /\
  projectParameters config = projectParameters config' /\
  equipmentCatalog config = equipmentCatalog config' /\
  laborCatalog config = laborCatalog config' /\
  projectCurrency (calculatorSettings config)
    = projectCurrency (calculatorSettings config').

Hypothesis Hsame : same_cost_inputs.

Ltac same_inputs :=
  destruct Hsame as (Hfx & Hpp & Hequipment & Hlabor & Hcurrency);
  rewrite ?Hfx, ?Hpp, ?Hequipment, ?Hlabor, ?Hcurrency; reflexivity.

Lemma calculateLaborCost_same_inputs (b : BlockCharacteristics num) :
  calculateLaborCost config b = calculateLaborCost config' b.
Proof.
  unfold calculateLaborCost, findPenRate, this_laborRates, calculateLaborRates, getFXRate.
  same_inputs.
Qed.

Lemma estimateMiningHours_same_inputs (b : BlockCharacteristics num) :
  estimateMiningHours config b = estimateMiningHours config' b.
Proof. unfold estimateMiningHours, findPenRate. same_inputs. Qed.

Lemma this_equipmentRates_same_inputs :
  this_equipmentRates config = this_equipmentRates config'.
Proof. unfold this_equipmentRates, calculateEquipmentRates, getFXRate. same_inputs. Qed.

Lemma calculateEquipmentCost_same_inputs (b : BlockCharacteristics num) :
  calculateEquipmentCost config b = calculateEquipmentCost config' b.
Proof.
  unfold calculateEquipmentCost.
  rewrite estimateMiningHours_same_inputs, this_equipmentRates_same_inputs. reflexivity.
Qed.

Lemma calculateEnergyCost_same_inputs (b : BlockCharacteristics num) :
  calculateEnergyCost config b = calculateEnergyCost config' b.
Proof.
  unfold calculateEnergyCost. rewrite estimateMiningHours_same_inputs. same_inputs.
Qed.

Lemma calculateMaintenanceCost_same_inputs (b : BlockCharacteristics num) :
  calculateMaintenanceCost config b = calculateMaintenanceCost config' b.
Proof.
  unfold calculateMaintenanceCost.
  rewrite estimateMiningHours_same_inputs, this_equipmentRates_same_inputs. reflexivity.
Qed.

Lemma calculateOverhead_same_inputs (b : BlockCharacteristics num) :
  calculateOverhead config b = calculateOverhead config' b.
Proof.
  unfold calculateOverhead.
  rewrite calculateLaborCost_same_inputs, calculateEquipmentCost_same_inputs. reflexivity.
Qed.

Lemma calculateCAPEXAllocation_same_inputs (b : BlockCharacteristics num) :
  calculateCAPEXAllocation config b = calculateCAPEXAllocation config' b.
Proof. unfold calculateCAPEXAllocation. same_inputs. Qed.

(** Two block costs with the same CAPEX and OPEX components. *)
Definition same_components (r r' : BlockCostResult num) : Prop :=
  capexComponent r = capexComponent r' /\ opexComponent r = opexComponent r'.

(** Two outcomes that throw the same exception or return block costs with
    the same components. *)
Definition same_outcome {A : Type} (rel : A -> A -> Prop) (x x' : result A) : Prop :=
  match x, x' with
  | Returns a, Returns a' => rel a a'
  | Throws e, Throws e' => e = e'
  | _, _ => False
  end.

Lemma calculateBlockCost_same_inputs (b : BlockCharacteristics num) :
  same_outcome same_components
    (calculateBlockCost config clock b) (calculateBlockCost config' clock' b).
Proof.
  unfold calculateBlockCost.
  rewrite calculateLaborCost_same_inputs, calculateEquipmentCost_same_inputs,
    calculateEnergyCost_same_inputs, calculateMaintenanceCost_same_inputs,
    calculateOverhead_same_inputs, calculateCAPEXAllocation_same_inputs.
  destruct (calculateLaborCost config' b) as [laborCost | e]; [| reflexivity].
  destruct (calculateEquipmentCost config' b) as [equipmentCost | e]; [| reflexivity].
  destruct (calculateEnergyCost config' b) as [energyCost | e]; [| reflexivity].
  destruct (calculateMaintenanceCost config' b) as [maintenanceCost | e]; [| reflexivity].
  destruct (calculateOverhead config' b) as [overheadCost | e]; [| reflexivity].
  cbn [bind].
  destruct (calculateRiskPremium config b) as [riskPremium appliedPremiums].
  destruct (calculateRiskPremium config' b) as [riskPremium' appliedPremiums'].
  split; reflexivity.
Qed.

(** Two cost maps with the same keys in the same order and the same
    components at each key. *)
Definition same_cost_maps (mp mp' : list (string * BlockCostResult num)) : Prop :=
  Forall2 (fun p p' => fst p = fst p' /\ same_components (snd p) (snd p')) mp mp'.

Lemma Map_set_same (k : string) (v v' : BlockCostResult num)
    (mp mp' : list (string * BlockCostResult num)) :
  same_components v v' -> same_cost_maps mp mp' ->
  same_cost_maps (Map_set k v mp) (Map_set k v' mp').
Proof.
  intros Hv Hmp. induction Hmp as [| [k1 v1] [k1' v1'] mp mp' [Hk Hc] Hrest IH]; simpl.
  - constructor; [split; [reflexivity | assumption] | constructor].
  - cbn [fst snd] in Hk, Hc. subst k1'.
    destruct (String.eqb k1 k).
    + constructor; [split; [reflexivity | assumption] | assumption].
    + constructor; [split; [reflexivity | assumption] | assumption].
Qed.

Lemma Map_get_same (k : string) (mp mp' : list (string * BlockCostResult num)) :
  same_cost_maps mp mp' ->
  match Map_get k mp, Map_get k mp' with
  | Some v, Some v' => same_components v v'
  | None, None => True
  | _, _ => False
  end.
Proof.
  intros Hmp. induction Hmp as [| [k1 v1] [k1' v1'] mp mp' [Hk Hc] Hrest IH]; simpl.
  - exact I.
  - cbn [fst snd] in Hk, Hc. subst k1'.
    destruct (String.eqb k1 k); assumption.
Qed.

Lemma calculateBlockCosts_same_inputs (blocks : list (BlockCharacteristics num)) :
  forall acc acc',
    same_cost_maps acc acc' ->
    same_outcome same_cost_maps
      (calculateBlockCosts config clock blocks acc)
      (calculateBlockCosts config' clock' blocks acc').
Proof.
  induction blocks as [| b rest IH]; intros acc acc' Hacc; simpl.
  - assumption.
  - pose proof (calculateBlockCost_same_inputs b) as Hb.
    destruct (calculateBlockCost config clock b) as [cost | e],
      (calculateBlockCost config' clock' b) as [cost' | e']; cbn [same_outcome] in Hb;
      try contradiction; cbn [bind].
    + apply IH. apply Map_set_same; assumption.
    + assumption.
Qed.

Lemma period_cashflow_same (blocks : list (BlockCharacteristics num))
    (schedule : list BlockSchedule) (mp mp' : list (string * BlockCostResult num))
    (year' month' : Z) :
  same_cost_maps mp mp' ->
  period_cashflow blocks schedule mp year' month'
  = period_cashflow blocks schedule mp' year' month'.
Proof.
  intros Hmp. unfold period_cashflow.
  match goal with
  | |- context [fold_left ?f ?l ?a] =>
      match goal with
      | |- context [fold_left ?g l a] =>
          lazymatch f with
          | g => fail
          | _ => assert (Hfold : fold_left f l a = fold_left g l a)
          end
      end
  end.
  { generalize (ofZ 0, ofZ 0, ofZ 0).
    induction (filter (fun s => (sched_period s =? period_of year' month')%string) schedule)
      as [| s rest IH]; intros acc; [reflexivity|].
    cbn [fold_left]. rewrite <- IH. f_equal.
    destruct acc as [[periodCapex periodOpex] periodTonnage].
    pose proof (Map_get_same (sched_blockId s) Hmp) as Hget.
    destruct (Map_get (sched_blockId s) mp) as [cost|],
      (Map_get (sched_blockId s) mp') as [cost'|]; try contradiction; [| reflexivity].
    destruct Hget as [-> ->]. reflexivity. }
  rewrite Hfold. reflexivity.
Qed.

(** X19.  The cash-flow series is a function of the FX rates, the project
    parameters, the two catalogs and the project currency alone: margin
    rules, risk premiums, contingency, discount rate and the clock leave
    every period unchanged, and a projection that throws under one
    configuration throws the same exception under the other. *)
Theorem generateCashflow_same_inputs
    (blocks : list (BlockCharacteristics num)) (schedule : list BlockSchedule) :
  generateCashflow config clock blocks schedule
  = generateCashflow config' clock' blocks schedule.
Proof.
  unfold generateCashflow.
  pose proof (calculateBlockCosts_same_inputs blocks (Forall2_nil _)) as Hcosts.
  destruct (calculateBlockCosts config clock blocks []) as [mp | e],
    (calculateBlockCosts config' clock' blocks []) as [mp' | e'];
    cbn [same_outcome] in Hcosts; try contradiction; cbn [bind].
  - destruct Hsame as (_ & <- & _). do 2 f_equal.
    apply flat_map_ext. intros y. apply map_ext. intros mth.
    apply period_cashflow_same. assumption.
  - rewrite Hcosts. reflexivity.
Qed.
End CostInputs.
(** ** The series and its summary *)

Section SeriesShape.
Context {num : Type} `{JsNumber num} {runtime : JsRuntime num}.
Variable config : CostModelConfig num.
Variable clock : Clock.

(** The periods of the project, in order: the twelve months of each year
    from the start year to the start year plus the life of mine. *)
Definition project_periods : list (Z * Z) :=
  flat_map (fun year' => map (pair year') months)
    (years_of (lifeOfMine_startYear (projectParameters config))
              (lifeOfMine_startYear (projectParameters config)
               + lifeOfMine_years (projectParameters config))).

Lemma accumulate_labels (c : num) (cfs : list (ProjectCashflow num)) :
  map (fun cf => (year cf, month cf, period cf)) (accumulate c cfs)
  = map (fun cf => (year cf, month cf, period cf)) cfs.
Proof.
  revert c. induction cfs as [| cf rest IH]; intros c; simpl; [| rewrite IH]; reflexivity.
Qed.

Lemma length_flat_map_months {A : Type} (f : Z -> Z -> A) (ys : list Z) :
  List.length (flat_map (fun y => map (f y) months) ys) = (12 * List.length ys)%nat.
Proof.
  induction ys as [| y ys IH]; [reflexivity|].
  cbn [flat_map]. rewrite length_app, IH, length_map.
  change (List.length months) with 12%nat. cbn [List.length]. lia.
Qed.

Lemma Returns_inj {A : Type} (x y : A) : Returns x = Returns y -> x = y.
Proof. intros [= ->]. reflexivity. Qed.

Lemma generateCashflow_returned (blocks : list (BlockCharacteristics num))
    (schedule : list BlockSchedule) (cfs : list (ProjectCashflow num)) :
  generateCashflow config clock blocks schedule = Returns cfs ->
  exists mp,
    calculateBlockCosts config clock blocks [] = Returns mp /\
    cfs = accumulate (ofZ 0)
            (map (fun p => period_cashflow blocks schedule mp (fst p) (snd p))
               project_periods).
Proof.
  unfold generateCashflow.
  destruct (calculateBlockCosts config clock blocks []) as [mp | e]; [| discriminate].
  cbn [bind]. intros Hret. apply Returns_inj in Hret. subst cfs.
  exists mp. split; [reflexivity|].
  rewrite flat_map_map_pair. reflexivity.
Qed.

(** X20.  A returned series has one entry per month of every year from the
    start year to the start year plus the life of mine, both included, in
    calendar order, each labelled with its year, its month and the period
    text of the two; so it has [12 * (years + 1)] entries, and none when
    the life of mine is negative. *)
Theorem generateCashflow_periods (blocks : list (BlockCharacteristics num))
    (schedule : list BlockSchedule) (cfs : list (ProjectCashflow num)) :
  generateCashflow config clock blocks schedule = Returns cfs ->
  map (fun cf => (year cf, month cf, period cf)) cfs
    = map (fun p => (fst p, snd p, period_of (fst p) (snd p))) project_periods /\
  List.length cfs
    = (12 * Z.to_nat (lifeOfMine_years (projectParameters config) + 1))%nat.
Proof.
  intros Hret. destruct (generateCashflow_returned _ _ Hret) as (mp & _ & ->).
  assert (Hlabels :
    map (fun cf => (year cf, month cf, period cf))
      (accumulate (ofZ 0)
         (map (fun p => period_cashflow blocks schedule mp (fst p) (snd p))
            project_periods))
    = map (fun p => (fst p, snd p, period_of (fst p) (snd p))) project_periods).
  { rewrite accumulate_labels, map_map. apply map_ext. intros [y mth].
    unfold period_cashflow.
    match goal with
    | |- context [fold_left ?f ?l ?a] => destruct (fold_left f l a) as [[c o] t]
    end.
    reflexivity. }
  split; [exact Hlabels|].
  rewrite <- (length_map (fun cf => (year cf, month cf, period cf))), Hlabels, length_map.
  unfold project_periods. rewrite length_flat_map_months.
  unfold years_of. rewrite length_map, length_seq. f_equal. f_equal. lia.
Qed.
End SeriesShape.

Section SummaryProperties.
Local Open Scope R_scope.
Context {runtime : JsRuntime R}.
Variable config : CostModelConfig R.
Variable clock : Clock.

(** A period's record is balanced: the CAPEX and OPEX parts sum to their
    totals and the net cash flow is the negated sum of the two totals. *)
Definition balanced (cf : ProjectCashflow R) : Prop :=
  cf_equipment (capex cf) + cf_infrastructure (capex cf) + cf_development (capex cf)
    + cf_workingCapital (capex cf) = cf_capex_total (capex cf) /\
  cf_mining (opex cf) + cf_processing (opex cf) + cf_maintenance (opex cf)
    + cf_labor (opex cf) + cf_energy (opex cf) + cf_gAndA (opex cf) + cf_other (opex cf)
    = cf_opex_total (opex cf) /\
  netCashflow cf = - (cf_capex_total (capex cf) + cf_opex_total (opex cf)).

Lemma period_cashflow_balanced (blocks : list (BlockCharacteristics R))
    (schedule : list BlockSchedule) (mp : list (string * BlockCostResult R))
    (y mth : Z) :
  balanced (period_cashflow blocks schedule mp y mth).
Proof.
  unfold period_cashflow, balanced.
  match goal with
  | |- context [fold_left ?f ?l ?a] => destruct (fold_left f l a) as [[c o] t]
  end.
  cbn [capex opex netCashflow cf_equipment cf_infrastructure cf_development
       cf_workingCapital cf_capex_total cf_mining cf_processing cf_maintenance
       cf_labor cf_energy cf_gAndA cf_other cf_opex_total].
  unfold lit. js_R. repeat split; lra.
Qed.

Lemma accumulate_balanced (c : R) (raw : list (ProjectCashflow R)) :
  Forall balanced raw -> Forall balanced (accumulate c raw).
Proof.
  intros Hraw. revert c. induction Hraw as [| cf rest Hcf Hrest IH]; intros c; simpl.
  - constructor.
  - constructor; [exact Hcf | apply IH].
Qed.

Lemma generateCashflow_balanced (blocks : list (BlockCharacteristics R))
    (schedule : list BlockSchedule) (cfs : list (ProjectCashflow R)) :
  generateCashflow config clock blocks schedule = Returns cfs ->
  exists raw, cfs = accumulate 0 raw /\ Forall balanced raw.
Proof.
  intros Hret.
  destruct (@generateCashflow_returned _ _ _ config clock blocks schedule cfs Hret)
    as (mp & _ & ->).
  eexists. split; [reflexivity|].
  apply Forall_forall. intros cf Hcf. apply in_map_iff in Hcf as (p & <- & _).
  apply period_cashflow_balanced.
Qed.

(** The cumulative cash flow of the last entry of a running sum. *)
Lemma accumulate_last (c : R) (raw : list (ProjectCashflow R)) :
  raw <> [] ->
  exists lastcf,
    nth_error (accumulate c raw) (List.length (accumulate c raw) - 1) = Some lastcf /\
    cumulativeCashflow lastcf = c + Rsum (map (@netCashflow R) raw).
Proof.
  revert c. induction raw as [| cf rest IH]; intros c Hne; [contradiction|].
  destruct rest as [| cf' rest'].
  - eexists. split; [reflexivity|]. simpl. js_R. lra.
  - destruct (IH (c + netCashflow cf)) as (lastcf & Hlast & Hcum); [discriminate|].
    exists lastcf. split.
    + change (accumulate c (cf :: cf' :: rest'))
        with (set_cumulativeCashflow cf (c + netCashflow cf)
              :: accumulate (c + netCashflow cf) (cf' :: rest')).
      set (tail := accumulate (c + netCashflow cf) (cf' :: rest')) in *.
      assert (Hlen : exists n, List.length tail = S n).
      { subst tail. cbn [accumulate List.length]. eexists. reflexivity. }
      destruct Hlen as [n Hn].
      cbn [List.length]. rewrite Hn in *.
      replace (S (S n) - 1)%nat with (S n) by lia.
      replace (S n - 1)%nat with n in Hlast by lia.
      exact Hlast.
    + rewrite Hcum. cbn [map Rsum fold_right]. lra.
Qed.

Lemma accumulate_totals (c : R) (raw : list (ProjectCashflow R)) :
  Forall balanced raw ->
  Rsum (map (@netCashflow R) raw)
  = - (Rsum (map (fun cf => cf_capex_total (capex cf)) (accumulate c raw))
       + Rsum (map (fun cf => cf_opex_total (opex cf)) (accumulate c raw))).
Proof.
  intros Hraw. revert c.
  induction Hraw as [| cf rest (_ & _ & Hnet) Hrest IH]; intros c.
  - simpl. lra.
  - cbn [accumulate map Rsum fold_right set_cumulativeCashflow capex opex].
    specialize (IH (add c (netCashflow cf))). unfold Rsum in IH.
    rewrite Hnet in *. lra.
Qed.

(** X21.  In the summary of a returned series the total cash flow is the
    negated sum of total CAPEX and total OPEX, which are also the fixed
    and the variable costs; the cost per tonne is that sum over the fixed
    1,000,000 tonnes and the cost per meter that sum over the fixed 5,000
    meters; and every period's record is balanced. *)
Theorem generateSummary_totals `{JsMath R} (blocks : list (BlockCharacteristics R))
    (schedule : list BlockSchedule) (cfs : list (ProjectCashflow R)) :
  generateCashflow config clock blocks schedule = Returns cfs ->
  let s := generateSummary config cfs in
  totalCashflow s = - (totalCAPEX s + totalOPEX s) /\
  fixedCosts s = totalCAPEX s /\ variableCosts s = totalOPEX s /\
  summary_costPerTonne s * 1000000 = totalCAPEX s + totalOPEX s /\
  summary_costPerMeter s * 5000 = totalCAPEX s + totalOPEX s /\
  totalMonths s = List.length cfs /\
  Forall balanced cfs.
Proof.
  intros Hcfs. destruct (generateCashflow_balanced blocks schedule Hcfs) as (raw & -> & Hraw).
  cbn zeta. unfold generateSummary.
  cbn [totalCashflow totalCAPEX totalOPEX fixedCosts variableCosts summary_costPerTonne
       summary_costPerMeter totalMonths].
  js_R. rewrite !fold_left_plain.
  pose proof (accumulate_totals 0 Hraw) as Hsum.
  split; [| split; [reflexivity | split; [reflexivity | split; [| split; [| split]]]]].
  - destruct raw as [| cf rest].
    + simpl. lra.
    + destruct (@accumulate_last 0 (cf :: rest)) as (lastcf & -> & Hcum); [discriminate|].
      cbn [option_map opt_or]. rewrite num_or_zero_R, Hcum. lra.
  - field.
  - field.
  - reflexivity.
  - apply accumulate_balanced. assumption.
Qed.
End SummaryProperties.
Section PaybackProperties.
Local Open Scope R_scope.
Context {runtime : JsRuntime R}.
Variable config : CostModelConfig R.

Lemma findIndex_none {A : Type} (p : A -> bool) (xs : list A) :
  (forall x, In x xs -> p x = false) -> findIndex p xs = None.
Proof.
  induction xs as [| x xs IH]; intros Hall; simpl; [reflexivity|].
  rewrite (Hall x (or_introl eq_refl)), IH; [reflexivity|].
  intros y Hy. apply Hall. right. assumption.
Qed.

Lemma accumulate_negative (c : R) (raw : list (ProjectCashflow R)) :
  c < 0 -> Forall (fun cf => netCashflow cf <= 0) raw ->
  forall cf, In cf (accumulate c raw) -> cumulativeCashflow cf < 0.
Proof.
  intros Hc Hraw. revert c Hc.
  induction Hraw as [| cf0 rest Hcf0 Hrest IH]; intros c Hc cf; simpl; [contradiction|].
  intros [<- | Hin].
  - cbn [cumulativeCashflow set_cumulativeCashflow]. js_R. lra.
  - apply (IH (c + netCashflow cf0)); [lra | assumption].
Qed.

(** X22.  A series holds costs only, so the payback search has two
    outcomes: when no period has a positive net cash flow, the payback is
    0 months if the first period costs nothing and the full length of the
    series if the first period has a cost; the empty series has payback 0. *)
Theorem generateSummary_payback `{JsMath R} (raw : list (ProjectCashflow R)) :
  Forall (fun cf => netCashflow cf <= 0) raw ->
  let s := generateSummary config (accumulate 0 raw) in
  (forall cf rest, raw = cf :: rest -> netCashflow cf = 0 -> paybackMonths s = 0%nat) /\
  (forall cf rest, raw = cf :: rest -> netCashflow cf < 0 ->
     paybackMonths s = List.length raw) /\
  (raw = [] -> paybackMonths s = 0%nat).
Proof.
  intros Hraw. cbn zeta. unfold generateSummary. cbn [paybackMonths]. js_R.
  split; [| split].
  - intros cf rest -> Hzero. cbn [accumulate findIndex cumulativeCashflow
                                  set_cumulativeCashflow].
    js_R. unfold Rleb. destruct (Rle_dec 0 (0 + netCashflow cf)); [reflexivity | lra].
  - intros cf rest -> Hneg. rewrite findIndex_none.
    + rewrite <- (length_map (@netCashflow R)), accumulate_netCashflow, length_map.
      reflexivity.
    + intros x Hx. cbn [accumulate] in Hx. destruct Hx as [<- | Hx].
      * cbn [cumulativeCashflow set_cumulativeCashflow]. js_R.
        unfold Rleb. destruct (Rle_dec 0 (0 + netCashflow cf)); [lra | reflexivity].
      * inversion Hraw as [| ? ? _ Hrest]; subst.
        assert (Hc : add 0 (netCashflow cf) < 0) by (js_R; lra).
        pose proof (accumulate_negative Hc Hrest x Hx) as Hneg'.
        unfold Rleb. destruct (Rle_dec 0 (cumulativeCashflow x)); [lra | reflexivity].
  - intros ->. reflexivity.
Qed.
End PaybackProperties.

Section DiscountingProperties.
Local Open Scope R_scope.
Variable config : CostModelConfig R.

Lemma npv_sum_zero_rate (nets : list R) (start : nat) (acc : R) :
  npv_sum 0 start nets acc = acc + Rsum nets.
Proof.
  unfold npv_sum. revert start acc.
  induction nets as [| c rest IH]; intros start acc; simpl; [lra|].
  rewrite IH. unfold Rpower. rewrite Rplus_0_r, ln_1, Rmult_0_r, exp_0. lra.
Qed.

(** X23.  At a discount rate of zero the NPV of a series is the plain sum
    of its net cash flows. *)
Theorem generateSummary_npv_undiscounted (cfs : list (ProjectCashflow R)) :
  discountRate (aggregatorSettings config) = 0 ->
  npv (generateSummary config cfs) = Rsum (map (@netCashflow R) cfs).
Proof.
  intros Hzero. rewrite generateSummary_npv, Hzero, npv_sum_zero_rate. lra.
Qed.

Lemma npv_and_derivative_tail (rate : R) (rest : list R) (start : nat) (x : R) :
  Forall (fun c => c = 0) rest ->
  fold_left (fun '(npv, derivNPV) '(t, cashflow) =>
      (npv + cashflow / Rpower (1 + rate) (IZR (Z.of_nat t) / 12),
       derivNPV - IZR (Z.of_nat t) / 12 * cashflow
                  / (Rpower (1 + rate) (IZR (Z.of_nat t) / 12) * (1 + rate))))
    (combine (seq start (List.length rest)) rest) (x, 0)
  = (x, 0).
Proof.
  intros Hzero. revert start.
  induction Hzero as [| c rest -> Hrest IH]; intros start; simpl; [reflexivity|].
  match goal with
  | |- fold_left _ _ ?acc = _ => replace acc with (x, 0)
  end.
  - apply IH.
  - f_equal; unfold Rdiv; ring.
Qed.

(** X24.  A series whose cash flows after the first period are all zero,
    a one-period series and the empty series among them, has no internal
    rate of return from any starting guess: the derivative of the NPV is
    zero in the first Newton round. *)
Theorem calculateIRR_single_cash_flow (c guess : R) (rest : list R) :
  Forall (fun x => x = 0) rest ->
  calculateIRR (c :: rest) guess = None /\ calculateIRR [] guess = None.
Proof.
  intros Hzero.
  assert (Hsmall : Rltb (Rabs 0) (lit 1 10000) = true).
  { rewrite Rabs_R0. apply Rltb_true. unfold lit. js_R. lra. }
  split.
  - unfold calculateIRR. rewrite newton_S.
    unfold npv_and_derivative, indexed. cbn [List.length seq combine fold_left]. js_R.
    change (IZR (Z.of_nat 0)) with 0.
    replace (0 - 0 / 12 * c / (Rpower (1 + guess) (0 / 12) * (1 + guess))) with 0
      by (unfold Rdiv; ring).
    rewrite (npv_and_derivative_tail guess 1 _ Hzero).
    cbv beta iota. rewrite Hsmall. reflexivity.
  - unfold calculateIRR. rewrite newton_S.
    unfold npv_and_derivative, indexed. cbn [List.length seq combine fold_left]. js_R.
    cbv beta iota. rewrite Hsmall. reflexivity.
Qed.
End DiscountingProperties.
(** ** The facade *)

Section ProjectionProperties.
Context {num : Type} `{JsNumber num} {runtime : JsRuntime num} `{JsMath num}.
Variable config : CostModelConfig num.
Variable clock : Clock.

Lemma calculateBlocks_returned (blocks : list (BlockCharacteristics num))
    (costs : list (BlockCostResult num)) :
  calculateBlocks config clock blocks = Returns costs ->
  all_resolved config blocks /\
  map (@result_blockId num) costs = map (@blockId num) blocks.
Proof.
  unfold calculateBlocks. revert costs.
  induction blocks as [| b rest IH]; intros costs; cbn [mapM].
  - intros Hret. apply Returns_inj in Hret. subst costs.
    split; [intros b [] | reflexivity].
  - destruct (findPenRate config b) as [pr|] eqn:Hpr.
    + destruct (calculateBlockCost config clock b) as [cost | e] eqn:Hcost;
        [| discriminate].
      cbn [bind].
      destruct (mapM (fun block => calculateBlockCost config clock block) rest)
        as [costs' | e]; [| discriminate].
      cbn [bind]. intros Hret. apply Returns_inj in Hret. subst costs.
      destruct (IH costs' eq_refl) as [Hall Hids]. split.
      * intros b' [<- | Hb']; [exists pr; assumption | apply Hall, Hb'].
      * cbn [map]. f_equal; [| assumption].
        revert Hcost. unfold calculateBlockCost.
        destruct (calculateLaborCost config b); [| discriminate].
        destruct (calculateEquipmentCost config b); [| discriminate].
        destruct (calculateEnergyCost config b); [| discriminate].
        destruct (calculateMaintenanceCost config b); [| discriminate].
        destruct (calculateOverhead config b); [| discriminate].
        cbn [bind]. destruct (calculateRiskPremium config b).
        intros Hret. apply Returns_inj in Hret. subst cost. reflexivity.
    + destruct (calculateBlockCost_unresolved config clock b Hpr) as (-> & _).
      discriminate.
Qed.

(** X25.  [runFullProjection] returns exactly when the penetration rate of
    every block resolves, whatever the schedule; the block costs it
    returns are those of the blocks, one each and in the order given. *)
Theorem runFullProjection_returns (blocks : list (BlockCharacteristics num))
    (schedule : list BlockSchedule) :
  ((exists projection,
      runFullProjection config clock blocks schedule = Returns projection)
   <-> all_resolved config blocks) /\
  (forall projection,
      runFullProjection config clock blocks schedule = Returns projection ->
      map (@result_blockId num) (blockCosts projection) = map (@blockId num) blocks).
Proof.
  unfold runFullProjection. split; [split|].
  - intros [projection Hret].
    destruct (calculateBlocks config clock blocks) as [costs | e] eqn:Hcosts;
      [| discriminate].
    apply (calculateBlocks_returned _ Hcosts).
  - intros Hall.
    destruct (@calculateBlocks_returns _ _ _ config clock blocks Hall) as [costs ->].
    destruct (@generateCashflow_returns _ _ _ config clock blocks schedule Hall)
      as [cfs ->].
    cbn [bind]. eexists. reflexivity.
  - intros projection.
    destruct (calculateBlocks config clock blocks) as [costs | e] eqn:Hcosts;
      [| discriminate].
    destruct (generateCashflow config clock blocks schedule) as [cfs | e];
      [| discriminate].
    cbn [bind]. intros Hret. apply Returns_inj in Hret. subst projection.
    apply (calculateBlocks_returned _ Hcosts).
Qed.

(** The variables [applyVariation] knows. *)
Definition known_variable (variable : string) : Prop :=
  variable = "discount_rate"%string \/ variable = "equipment_cost"%string \/
  variable = "labor_cost"%string.

Lemma applyVariation_unknown (variable : string) (variation' : num) :
  ~ known_variable variable -> applyVariation config variable variation' = config.
Proof.
  unfold known_variable, applyVariation. intros Hunknown.
  destruct (String.eqb_spec variable "discount_rate"); [tauto|].
  destruct (String.eqb_spec variable "equipment_cost"); [tauto|].
  destruct (String.eqb_spec variable "labor_cost"); [tauto|].
  reflexivity.
Qed.

(** X26.  A sensitivity run on a variable other than [discount_rate],
    [equipment_cost] and [labor_cost] changes nothing: every variation
    reports the NPV and the IRR of the base projection. *)
Theorem runSensitivity_unknown_variable (blocks : list (BlockCharacteristics num))
    (schedule : list BlockSchedule) (variable : string) (variations : list num)
    (base : Projection num) :
  ~ known_variable variable ->
  runFullProjection config clock blocks schedule = Returns base ->
  runSensitivity config clock blocks schedule variable variations
  = Returns (map (fun v => {| variation := v;
                              sens_npv := npv (summary base);
                              sens_irr := irr (summary base) |}) variations).
Proof.
  intros Hunknown Hbase. unfold runSensitivity.
  induction variations as [| v rest IH]; cbn [mapM map]; [reflexivity|].
  rewrite (applyVariation_unknown v Hunknown), Hbase. cbn [bind].
  rewrite IH. reflexivity.
Qed.

(** X27.  [recalculateRates] changes the stored rate tables only: applying
    it twice is applying it once, it leaves every input the calculators
    read in place, and the block cost, the series and the projection of
    the recalculated configuration are those of the original one, the
    stored tables never being read back. *)
Theorem recalculateRates_idempotent (blocks : list (BlockCharacteristics num))
    (schedule : list BlockSchedule) (b : BlockCharacteristics num) :
  recalculateRates (recalculateRates config) = recalculateRates config /\
  same_cost_inputs (recalculateRates config) config /\
  consumableRates (recalculateRates config) = consumableRates config /\
  calculateBlockCost (recalculateRates config) clock b = calculateBlockCost config clock b /\
  runFullProjection (recalculateRates config) clock blocks schedule
    = runFullProjection config clock blocks schedule.
Proof.
  split; [reflexivity|]. split; [repeat split|]. split; [reflexivity|].
  split; reflexivity.
Qed.
End ProjectionProperties.

Section VariationProperties.
Local Open Scope R_scope.
Variable config : CostModelConfig R.

Lemma scale_baseCost_one (xs : list (EquipmentItem R)) :
  map (scale_baseCost 1) xs = xs.
Proof.
  induction xs as [| item xs IH]; [reflexivity|].
  cbn [map]. rewrite IH. f_equal.
  destruct item as [code nm cat cost cur unit sp life salvage vend lead warranty].
  unfold scale_baseCost.
  cbn [itemCode name category baseCost currency costUnit specs usefulLife_years
       salvageValue vendor leadTimeWeeks warrantyMonths].
  js_R. rewrite Rmult_1_r. reflexivity.
Qed.

Lemma scale_annualRate_one (xs : list (LaborRole R)) :
  map (scale_annualRate 1) xs = xs.
Proof.
  induction xs as [| role xs IH]; [reflexivity|].
  cbn [map]. rewrite IH. f_equal.
  destruct role as [code ttl cat rate cur kind util burden certs experience].
  unfold scale_annualRate.
  cbn [roleCode title role_category annualRate role_currency rateType utilizationFactor
       burdenRate certifications minimumExperience_years].
  js_R. rewrite Rmult_1_r. reflexivity.
Qed.

(** X28.  A variation of 0% is no variation: for every variable,
    [applyVariation] returns the configuration it was given. *)
Theorem applyVariation_zero (variable : string) :
  applyVariation config variable 0 = config.
Proof.
  unfold applyVariation. js_R.
  replace (1 + 0 / 100) with 1 by lra.
  rewrite scale_baseCost_one, scale_annualRate_one, Rmult_1_r.
  destruct config as [? ? ? ? ? ? [? ? ?] [? ? ? ?] ? ? ? ? ? ? ? ? ? [? ? ?]].
  destruct (variable =? "discount_rate")%string; [reflexivity|].
  destruct (variable =? "equipment_cost")%string; [reflexivity|].
  destruct (variable =? "labor_cost")%string; reflexivity.
Qed.

(** X29.  The variation [labor_cost] multiplies every effective and every
    loaded hourly labor rate by the multiplier [1 + v/100] and leaves the
    equipment rates and the CAPEX allocation as they are. *)
Theorem applyVariation_labor_cost (v : R) :
  let varied := applyVariation config "labor_cost" v in
  let m := 1 + v / 100 in
  map (@effectiveHourlyRate R) (calculateLaborRates varied)
    = map (fun rate => effectiveHourlyRate rate * m) (calculateLaborRates config) /\
  map (@loadedHourlyRate R) (calculateLaborRates varied)
    = map (fun rate => loadedHourlyRate rate * m) (calculateLaborRates config) /\
  calculateEquipmentRates varied = calculateEquipmentRates config /\
  (forall b, calculateCAPEXAllocation varied b = calculateCAPEXAllocation config b).
Proof.
  cbn zeta. unfold applyVariation.
  cbn [String.eqb Ascii.eqb Bool.eqb]. cbv iota.
  split; [| split; [| split]]; try reflexivity.
  - unfold calculateLaborRates.
    cbn [with_parts laborCatalog roles calculatorSettings].
    rewrite !map_map. apply map_ext. intros role.
    cbn [effectiveHourlyRate scale_annualRate annualRate role_currency burdenRate
         utilizationFactor].
    change (getFXRate (with_parts _ _ _ _)) with (getFXRate config).
    js_R. unfold Rdiv. ring.
  - unfold calculateLaborRates.
    cbn [with_parts laborCatalog roles calculatorSettings].
    rewrite !map_map. apply map_ext. intros role.
    cbn [loadedHourlyRate scale_annualRate annualRate role_currency burdenRate
         utilizationFactor].
    change (getFXRate (with_parts _ _ _ _)) with (getFXRate config).
    js_R. unfold Rdiv. ring.
Qed.
End VariationProperties.
(** ** Validation *)

Section ValidateProperties.
Local Open Scope R_scope.

Lemma has_error_app (xs ys : list ValidationError) :
  has_error (xs ++ ys) = has_error xs || has_error ys.
Proof. apply existsb_app. Qed.

Lemma has_error_push_if (cond : bool) (e : ValidationError) (errors : list ValidationError) :
  has_error (push_if cond e errors)
  = has_error errors || (cond && (severity e =? "error")%string).
Proof.
  unfold push_if. destruct cond.
  - rewrite has_error_app. cbn [has_error existsb]. rewrite orb_false_r. reflexivity.
  - rewrite orb_false_r. reflexivity.
Qed.

Lemma has_error_items (entries : list (nat * EquipmentItem R))
    (errors : list ValidationError) :
  has_error (fold_left validate_item entries errors)
  = has_error errors || existsb (fun entry => ltb (baseCost (snd entry)) 0) entries.
Proof.
  revert errors. induction entries as [| [idx item] rest IH]; intros errors.
  - cbn [fold_left existsb]. rewrite orb_false_r. reflexivity.
  - cbn [fold_left existsb snd]. rewrite IH. unfold validate_item.
    rewrite has_error_push_if. cbn [severity]. rewrite andb_true_r, orb_assoc.
    reflexivity.
Qed.

Lemma existsb_indexed {A : Type} (p : A -> bool) (xs : list A) :
  existsb (fun entry => p (snd entry)) (indexed xs) = existsb p xs.
Proof.
  unfold indexed. generalize 0%nat.
  induction xs as [| x xs IH]; intros start; [reflexivity|].
  cbn [List.length seq combine existsb snd]. rewrite IH. reflexivity.
Qed.

(** X30.  The configurator's validation reports no entry of severity
    [error], so that saving stays possible, exactly when the CAD rate is
    positive, the planned availability is at most 1 and no catalog item
    has a negative base cost; the specific gravity, the contingency and
    the other three FX rates have no part in it. *)
Theorem validate_no_error (config : CostModelConfig R) :
  has_error (validate config) = false <->
  0 < CAD (rates (fxRates config)) /\
  planned (availability (projectParameters config)) <= 1 /\
  Forall (fun item => 0 <= baseCost item) (items (equipmentCatalog config)).
Proof.
  unfold validate.
  rewrite has_error_push_if, has_error_items, !has_error_push_if.
  cbn [severity String.eqb Ascii.eqb Bool.eqb has_error existsb].
  rewrite !andb_false_r, !andb_true_r, !orb_false_r, orb_false_l.
  rewrite (existsb_indexed (fun item => ltb (baseCost item) 0)).
  rewrite !orb_false_iff, <- !not_true_iff_false, existsb_exists, Forall_forall.
  js_R. rewrite Rleb_iff, Rltb_iff.
  split.
  - intros [[Hcad Hplanned] Hitems]. repeat split; try lra.
    intros item Hitem. destruct (Rle_dec 0 (baseCost item)) as [Hle | Hlt]; [assumption|].
    exfalso. apply Hitems. exists item. split; [assumption|]. apply Rltb_iff. lra.
  - intros (Hcad & Hplanned & Hitems). repeat split; try lra.
    intros (item & Hitem & Hneg). apply Rltb_iff in Hneg.
    specialize (Hitems item Hitem). lra.
Qed.

Lemma Rleb_false (x y : R) : y < x -> Rleb x y = false.
Proof. intros Hxy. unfold Rleb. destruct (Rle_dec x y); [lra | reflexivity]. Qed.

(** The default configuration passes validation without a single
    entry, error or warning, whatever the clock and the year. *)
Example validate_createDefaultConfig (stamp : Clock) (fullYear : Z) :
  validate (createDefaultConfig (num:=R) stamp fullYear) = [].
Proof.
  unfold validate.
  cbn [createDefaultConfig fxRates rates CAD projectParameters specificGravity
       availability planned equipmentCatalog items calculatorSettings
       contingencyPercent indexed List.length seq combine fold_left].
  unfold lit. js_R.
  rewrite Rleb_false by lra. rewrite !Rltb_false by lra. reflexivity.
Qed.
End ValidateProperties.

(* ================================================================== *)
(** * Concrete runs *)
(* ================================================================== *)

Definition example_clock : Clock :=
  {| now := iso_Date_parse "2024-06-15"; nowISO := "2024-06-15T00:00:00.000Z" |}.

(** [{ ...config, marginRules: { rules: m }, riskPremiums: { premiums: p } }] *)
Definition with_policy_rules {num : Type} (config : CostModelConfig num)
    (m : list (MarginRule num)) (p : list (RiskPremium num)) : CostModelConfig num :=
  {| version := version config; modelName := modelName config;
     lastModified := lastModified config; modifiedBy := modifiedBy config;
     fxRates := fxRates config; projectParameters := projectParameters config;
     equipmentCatalog := equipmentCatalog config; laborCatalog := laborCatalog config;
     equipmentRates := equipmentRates config;
     consumableRates := consumableRates config;
     laborRates := laborRates config; fuelRates := fuelRates config;
     marginRules := m; riskPremiums := p;
     volumeDiscounts := volumeDiscounts config;
     allocationRules := allocationRules config;
     calculatorSettings := calculatorSettings config;
     aggregatorSettings := aggregatorSettings config |}.

Section ExampleInputs.
Context {num : Type} `{JsNumber num}.

Definition default_config : CostModelConfig num := createDefaultConfig example_clock 2024.

Definition example_block (id rock : string) (tonnage' strike width' depth' hardness' : Z)
    : BlockCharacteristics num :=
  {| blockId := id; depth := ofZ depth'; tonnage := ofZ tonnage'; volume := ofZ 400;
     grade := ofZ 2; gradeUnit := "%"; rockType := rock; hardness := ofZ hardness';
     abrasivity := ofZ 3; strikeLength := ofZ strike; width := ofZ width';
     height := ofZ 4 |}.

Definition labor_margin_2024 : MarginRule num :=
  {| costCategory := "labor"; marginPercent := ofZ 15;
     justification := "standard"; mr_approvedBy := "cfo";
     validFrom := "2024-01-01"; validTo := Some "2024-12-31"%string |}.

Definition deep_premium : RiskPremium num :=
  {| attribute := "depth"; condition := "> 500"; premiumPercent := ofZ 5;
     rationale := "deep block" |}.

Definition hard_premium : RiskPremium num :=
  {| attribute := "rock_hardness"; condition := "> 8"; premiumPercent := ofZ 3;
     rationale := "hard rock" |}.

Definition policy_config : CostModelConfig num :=
  with_policy_rules default_config [labor_margin_2024] [deep_premium; hard_premium].
End ExampleInputs.

(** *** binary64 runs of the block calculator *)

(** A block of zero tonnage and zero strike length and width is costed,
    not rejected, and its totals are NaN. *)
Lemma calculateBlockCost_zero_tonnage_returns_NaN :
  match calculateBlockCost (num:=PrimFloat.float) default_config example_clock
          (example_block "B0" "medium" 0 0 0 100 5) with
  | Returns r =>
      isFinite (grandTotal r) = false /\ isFinite (costPerTonne r) = false /\
      isNaN (subtotal r) = true
  | Throws _ => False
  end.
Proof. vm_compute. repeat split. Qed.

(** A block of positive tonnage whose strike length and width are both
    zero is costed as well: 350 before and 385 after contingency. *)
Example calculateBlockCost_zero_geometry_returns :
  match calculateBlockCost (num:=PrimFloat.float) default_config example_clock
          (example_block "B1" "medium" 100 0 0 100 5) with
  | Returns r =>
      subtotal r = ofZ 350 /\ grandTotal r = ofZ 385 /\ costPerMeter r = ofZ 385
  | Throws _ => False
  end.
Proof. vm_compute. repeat split. Qed.

Lemma calculateBlockCost_unchecked_witness :
  exists r,
    calculateBlockCost (num:=PrimFloat.float) default_config example_clock
      (example_block "B0" "medium" 0 0 0 100 5) = Returns r /\
    costPerTonne r = div (grandTotal r) (ofZ 0) /\
    costPerMeter r = div (grandTotal r) (num_or (ofZ 0) (ofZ 1)).
Proof.
  refine (calculateBlockCost_unchecked default_config example_clock
            (example_block "B0" "medium" 0 0 0 100 5)
            (penRate := {| metersPerHour := lit 15 10; pr_rockType := "medium" |}) _).
  reflexivity.
Defined.

(** With a single penetration-rate entry and an unknown rock type the
    call throws. *)
Definition one_rate_config {num : Type} `{JsNumber num} : CostModelConfig num :=
  let c := default_config in
  {| version := version c; modelName := modelName c;
     lastModified := lastModified c; modifiedBy := modifiedBy c;
     fxRates := fxRates c;
     projectParameters :=
       {| projectCode := projectCode (projectParameters c);
          siteName := siteName (projectParameters c);
          specificGravity := specificGravity (projectParameters c);
          lifeOfMine_years := lifeOfMine_years (projectParameters c);
          lifeOfMine_startYear := lifeOfMine_startYear (projectParameters c);
          penetrationRate := [ {| metersPerHour := lit 25 10; pr_rockType := "soft" |} ];
          availability := availability (projectParameters c);
          precisionTolerance_mm := precisionTolerance_mm (projectParameters c);
          roboticCycleTime_seconds := roboticCycleTime_seconds (projectParameters c);
          autonomyLevel := autonomyLevel (projectParameters c) |};
     equipmentCatalog := equipmentCatalog c; laborCatalog := laborCatalog c;
     equipmentRates := equipmentRates c; consumableRates := consumableRates c;
     laborRates := laborRates c; fuelRates := fuelRates c;
     marginRules := marginRules c; riskPremiums := riskPremiums c;
     volumeDiscounts := volumeDiscounts c; allocationRules := allocationRules c;
     calculatorSettings := calculatorSettings c;
     aggregatorSettings := aggregatorSettings c |}.

Example calculateBlockCost_one_rate_throws :
  calculateBlockCost (num:=PrimFloat.float) one_rate_config example_clock
    (example_block "B2" "granite" 100 10 2 100 5)
  = Throws (TypeError "Cannot read properties of undefined (reading 'metersPerHour')").
Proof. reflexivity. Qed.


(** *** FX rates of the default configuration *)

Lemma getFXRate_inverse_and_cross_witness :
  (getFXRate (num:=R) default_config "CAD" "EUR"
   * getFXRate (num:=R) default_config "EUR" "CAD" = 1)%R /\
  getFXRate (num:=R) default_config "CAD" "CAD" = 1%R /\
  getFXRate (num:=R) default_config "CAD" "EUR"
  = (getFXRate (num:=R) default_config "CAD" "USD"
     * getFXRate (num:=R) default_config "USD" "EUR")%R.
Proof.
  destruct (getFXRate_inverse_and_cross default_config "CAD" "EUR") as (Hinv & Hsame & Hcross).
  split; [exact Hinv | split; [exact Hsame | apply Hcross; discriminate]].
Defined.

(** In binary64 the same product is 1 to within one unit in the last
    place. *)
Example getFXRate_float_round_trip :
  let p := mul (getFXRate (num:=PrimFloat.float) default_config "CAD" "EUR")
               (getFXRate (num:=PrimFloat.float) default_config "EUR" "CAD") in
  ltb (Math_abs (sub p (ofZ 1))) (lit 1 1000000000000000) = true.
Proof. vm_compute. reflexivity. Qed.

(** *** Margin lookup on the last day of a rule *)

(** The date equal to the rule's [validTo] lies outside the half-open
    window, yet the lookup returns the rule's margin, not 0. *)
Lemma getMargin_matches_on_validTo :
  ~ window_contains_half_open (labor_margin_2024 (num:=R)) (iso_Date_parse "2024-12-31") /\
  getMargin (num:=R) policy_config "labor" (iso_Date_parse "2024-12-31") = 15%R /\
  15%R <> 0%R.
Proof.
  split; [| split].
  - intros (t & from & to & Ht & Hfrom & Hto & Hle).
    vm_compute in Ht, Hfrom, Hto.
    injection Ht as <-. injection Hto as <-. lia.
  - rewrite getMargin_find. reflexivity.
  - lra.
Qed.

Lemma getMargin_first_match_closed_window_witness :
  getMargin (num:=R) policy_config "labor" (iso_Date_parse "2024-12-31")
  = marginPercent (labor_margin_2024 (num:=R)).
Proof.
  apply (proj1 (getMargin_first_match_closed_window policy_config "labor"
                  (iso_Date_parse "2024-12-31")) [] labor_margin_2024 []).
  - reflexivity.
  - intros r' [].
  - split; [reflexivity|].
    exists 1735603200000%Z, 1704067200000%Z, 1735603200000%Z.
    repeat split; try reflexivity; lia.
Defined.

(** *** Two stacked premiums *)

Definition deep_hard_block {num : Type} `{JsNumber num} : BlockCharacteristics num :=
  example_block "B3" "hard" 100 10 2 600 9.

Lemma deep_premium_applies :
  premium_applies (deep_hard_block (num:=R)) deep_premium = true.
Proof.
  unfold premium_applies, evaluateCondition.
  cbn [attribute condition deep_premium].
  replace (match_condition "> 500") with (Some (">", "500")%string) by reflexivity.
  cbv beta iota. cbn [parseFloat reference_runtime].
  replace (decimal_parseFloat (num:=R) "500") with (Some 500%R) by reflexivity.
  rewrite truthy_R. destruct (Req_dec_T 500 0); [lra|].
  cbn. apply Rltb_true. lra.
Qed.

Lemma hard_premium_applies :
  premium_applies (deep_hard_block (num:=R)) hard_premium = true.
Proof.
  unfold premium_applies, evaluateCondition.
  cbn [attribute condition hard_premium].
  replace (match_condition "> 8") with (Some (">", "8")%string) by reflexivity.
  cbv beta iota. cbn [parseFloat reference_runtime].
  replace (decimal_parseFloat (num:=R) "8") with (Some 8%R) by reflexivity.
  rewrite truthy_R. destruct (Req_dec_T 8 0); [lra|].
  cbn. apply Rltb_true. lra.
Qed.

Lemma calculateRiskPremium_additive_witness :
  fst (calculateRiskPremium (num:=R) policy_config deep_hard_block) = 8%R.
Proof.
  apply (proj2 (proj2 (calculateRiskPremium_additive policy_config deep_hard_block))
           deep_premium hard_premium).
  - reflexivity.
  - exact deep_premium_applies.
  - exact hard_premium_applies.
  - reflexivity.
  - reflexivity.
Defined.

(** The same two rules in binary64. *)
Example calculateRiskPremium_float :
  fst (calculateRiskPremium (num:=PrimFloat.float) policy_config deep_hard_block) = ofZ 8.
Proof. vm_compute. reflexivity. Qed.

(** *** An assembled block cost *)

Lemma calculateBlockCost_assembly_witness :
  exists r,
    calculateBlockCost (num:=R) policy_config example_clock deep_hard_block = Returns r /\
    amounts (appliedPremiums r) = 8%R /\
    amounts (appliedMargins r) = 15%R /\
    grandTotal r =
      (subtotal r + subtotal r * (amounts (appliedPremiums r) / 100)
       + subtotal r * (amounts (appliedMargins r) / 100)
       + - (subtotal r * (amounts (appliedDiscounts r) / 100)) + contingency r)%R /\
    costPerTonne r = (grandTotal r / 100)%R /\
    costPerMeter r = (grandTotal r / 10)%R.
Proof.
  destruct (calculateBlockCost_resolved (num:=R) policy_config example_clock
              deep_hard_block
              (r := {| metersPerHour := lit 8 10; pr_rockType := "hard" |}) eq_refl)
    as [r Hr].
  exists r. split; [exact Hr|].
  destruct (calculateBlockCost_assembly policy_config example_clock deep_hard_block Hr)
    as (_ & _ & _ & Hprem & Hmargin & _ & _ & Htotal & Htonne & _ & Hmeter).
  split; [| split; [| split; [exact Htotal | split; [exact Htonne |]]]].
  - rewrite Hprem, calculateRiskPremium_sum. cbn [fst].
    change (riskPremiums policy_config) with [deep_premium (num:=R); hard_premium].
    cbn [filter]. rewrite deep_premium_applies, hard_premium_applies. simpl. lra.
  - rewrite Hmargin, !getMargin_find.
    replace (find _ _) with (Some (labor_margin_2024 (num:=R))) by reflexivity.
    replace (find _ _) with (@None (MarginRule R)) by reflexivity.
    simpl. lra.
  - apply Hmeter. simpl. lra.
Defined.

(** *** A scheduled block in the cash-flow series *)

Definition march_schedule : list BlockSchedule :=
  [ {| sched_blockId := "B3"; sched_period := "2024-03"; sequence := 1 |} ].

Lemma deep_hard_block_resolved :
  all_resolved (num:=R) default_config [deep_hard_block].
Proof.
  intros b [<- | []]. eexists. reflexivity.
Qed.

Lemma generateCashflow_cumulative_witness :
  exists cfs,
    generateCashflow (num:=R) default_config example_clock [deep_hard_block] march_schedule
      = Returns cfs /\
    (forall cf, nth_error cfs 0 = Some cf -> cumulativeCashflow cf = netCashflow cf) /\
    (forall i prev cf,
        nth_error cfs i = Some prev -> nth_error cfs (S i) = Some cf ->
        cumulativeCashflow cf = (cumulativeCashflow prev + netCashflow cf)%R).
Proof.
  destruct (generateCashflow_returns (num:=R) example_clock march_schedule
              deep_hard_block_resolved) as [cfs Hcfs].
  exists cfs. split; [exact Hcfs|].
  exact (generateCashflow_cumulative default_config example_clock [deep_hard_block]
           march_schedule Hcfs).
Defined.

(** *** A project without a rate of return *)

(** A series whose net cash flows are all zero has a zero NPV derivative at
    every rate, so no rate of return. *)
Lemma npv_and_derivative_zero (nets : list R) (rate : R) :
  Forall (fun c => c = 0%R) nets ->
  npv_and_derivative nets rate = (0%R, 0%R).
Proof.
  intros Hzero. unfold npv_and_derivative, indexed.
  generalize 0%nat. js_R.
  assert (Hgen : forall start acc,
    acc = (0%R, 0%R) ->
    fold_left (fun '(npv, derivNPV) '(t, cashflow) =>
        ((npv + cashflow / Rpower (1 + rate) (IZR (Z.of_nat t) / 12))%R,
         (derivNPV - IZR (Z.of_nat t) / 12 * cashflow
                     / (Rpower (1 + rate) (IZR (Z.of_nat t) / 12) * (1 + rate)))%R))
      (combine (seq start (List.length nets)) nets) acc = (0%R, 0%R)).
  { induction Hzero as [| c rest Hc Hrest IH]; intros start acc ->; simpl; [reflexivity|].
    apply IH. subst c. f_equal; unfold Rdiv; ring. }
  intros start. apply Hgen. reflexivity.
Qed.

Lemma calculateIRR_zero (nets : list R) (guess : R) :
  Forall (fun c => c = 0%R) nets -> calculateIRR nets guess = None.
Proof.
  intros Hzero. unfold calculateIRR. rewrite newton_S, npv_and_derivative_zero by assumption.
  cbv beta iota. js_R. rewrite Rabs_R0, Rltb_true; [reflexivity | unfold lit; js_R; lra].
Qed.

(** The default configuration with no block and no schedule: 192 periods
    of zero cost. *)
Lemma empty_project_series :
  exists cfs,
    generateCashflow (num:=R) default_config example_clock [] [] = Returns cfs /\
    List.length cfs = 192%nat /\
    Forall (fun c => c = 0%R) (map (@netCashflow R) cfs).
Proof.
  destruct (@generateCashflow_series _ example_clock (default_config (num:=R)) [] [] []
              eq_refl) as (cfs & Hcfs & Hnets).
  exists cfs. split; [exact Hcfs|]. split.
  - rewrite <- (length_map (@netCashflow R)), Hnets, length_map. reflexivity.
  - rewrite Hnets. apply Forall_forall. intros c Hc.
    apply in_map_iff in Hc as (p & <- & _).
    rewrite period_cost_fold. simpl. lra.
Qed.

Lemma generateSummary_reports_zero_for_null :
  exists cfs,
    generateCashflow (num:=R) default_config example_clock [] [] = Returns cfs /\
    calculateIRR (num:=R) (map (@netCashflow R) cfs) (lit 1 10) = None /\
    irr (generateSummary (num:=R) default_config cfs) = 0%R.
Proof.
  destruct empty_project_series as (cfs & Hcfs & _ & Hzero).
  exists cfs. split; [exact Hcfs|].
  pose proof (calculateIRR_zero (lit 1 10) Hzero) as Hnull.
  split; [exact Hnull|].
  unfold generateSummary. cbn [irr]. rewrite Hnull. reflexivity.
Qed.

Lemma generateSummary_irr_null_is_zero_witness :
  exists cfs,
    generateCashflow (num:=R) default_config example_clock [] [] = Returns cfs /\
    irr (generateSummary (num:=R) default_config cfs) = 0%R.
Proof.
  destruct empty_project_series as (cfs & Hcfs & _ & Hzero).
  exists cfs. split; [exact Hcfs|].
  exact (proj1 (generateSummary_irr_null_is_zero (num:=R) default_config cfs)
           (calculateIRR_zero (lit 1 10) Hzero)).
Defined.

(** *** Sensitivity of a one-robot project *)

Section EquippedExample.
Context {num : Type} `{JsNumber num}.

Definition surgical_robot : EquipmentItem num :=
  {| itemCode := "ROBOT-01"; name := "Surgical mining robot"; category := "robot";
     baseCost := ofZ 1000000; currency := "USD"; costUnit := "each";
     specs := {| powerKW := Some (ofZ 75); weightKG := None; capacityUnit := None;
                 capacity := None |};
     usefulLife_years := ofZ 10; salvageValue := ofZ 10; vendor := "acme";
     leadTimeWeeks := ofZ 12; warrantyMonths := ofZ 24 |}.

Definition equipped_config : CostModelConfig num :=
  with_parts default_config (aggregatorSettings default_config)
    {| items := [surgical_robot];
       lastUpdated := lastUpdated (equipmentCatalog default_config);
       approvedBy := approvedBy (equipmentCatalog default_config) |}
    (laborCatalog default_config).
End EquippedExample.


(** In binary64 the multiplier [1 + 10 / 100] is the double [1.1]. *)
Example equipment_cost_multiplier_float :
  add (ofZ 1) (div (ofZ 10) (ofZ 100)) = (lit 11 10 : PrimFloat.float).
Proof. vm_compute. reflexivity. Qed.




(** ** Runs of the further properties *)

Section FurtherExampleInputs.
Context {num : Type} `{JsNumber num}.
Local Open Scope string_scope.

Definition robot_operator : LaborRole num :=
  {| roleCode := "direct-operator"; title := "Robot operator";
     role_category := "operations"; annualRate := ofZ 104000; role_currency := "CAD";
     rateType := "salary"; utilizationFactor := lit 8 10; burdenRate := lit 14 10;
     certifications := []; minimumExperience_years := ofZ 2 |}.

Definition shift_supervisor : LaborRole num :=
  {| roleCode := "indirect-supervisor"; title := "Shift supervisor";
     role_category := "supervision"; annualRate := ofZ 124800; role_currency := "USD";
     rateType := "salary"; utilizationFactor := lit 9 10; burdenRate := lit 13 10;
     certifications := []; minimumExperience_years := ofZ 5 |}.

(** The one-robot configuration with two roles. *)
Definition staffed_config : CostModelConfig num :=
  with_parts equipped_config (aggregatorSettings equipped_config)
    (equipmentCatalog equipped_config)
    {| roles := [robot_operator; shift_supervisor];
       jurisdiction := jurisdiction (laborCatalog equipped_config);
       collectiveAgreement := collectiveAgreement (laborCatalog equipped_config);
       labor_lastUpdated := labor_lastUpdated (laborCatalog equipped_config) |}.

Definition drill_bit : ConsumableConfig num :=
  {| cc_code := "BIT-76"; cc_name := "Drill bit 76 mm"; costPerUnit := ofZ 500;
     metersPerUnit := ofZ 100; tonnesPerUnit := ofZ 250; cyclesPerUnit := ofZ 50;
     cc_wearCurve := Some []; cc_rockTypeFactors := None |}.

Definition small_order_tier : VolumeDiscountTier num :=
  {| minQuantity := ofZ 1; maxQuantity := ofZ 10; discountPercent := ofZ 5;
     tier_category := "equipment" |}.

Definition large_order_tier : VolumeDiscountTier num :=
  {| minQuantity := ofZ 10; maxQuantity := ofZ 50; discountPercent := ofZ 8;
     tier_category := "equipment" |}.

(** [{ ...config, volumeDiscounts: { tiers } }] *)
Definition with_discount_tiers (config : CostModelConfig num)
    (tiers : list (VolumeDiscountTier num)) : CostModelConfig num :=
  {| version := version config; modelName := modelName config;
     lastModified := lastModified config; modifiedBy := modifiedBy config;
     fxRates := fxRates config; projectParameters := projectParameters config;
     equipmentCatalog := equipmentCatalog config; laborCatalog := laborCatalog config;
     equipmentRates := equipmentRates config;
     consumableRates := consumableRates config;
     laborRates := laborRates config; fuelRates := fuelRates config;
     marginRules := marginRules config; riskPremiums := riskPremiums config;
     volumeDiscounts := tiers;
     allocationRules := allocationRules config;
     calculatorSettings := calculatorSettings config;
     aggregatorSettings := aggregatorSettings config |}.

Definition tiered_config : CostModelConfig num :=
  with_discount_tiers default_config [small_order_tier; large_order_tier].

Definition surface_block : BlockCharacteristics num :=
  example_block "B0" "soft" 100 10 2 0 5.

(** A period that holds nothing but a net cash flow. *)
Definition bare_period (net : num) : ProjectCashflow num :=
  {| period := "2024-01"; year := 2024; month := 1;
     capex := {| cf_equipment := ofZ 0; cf_infrastructure := ofZ 0;
                 cf_development := ofZ 0; cf_workingCapital := ofZ 0;
                 cf_capex_total := ofZ 0 |};
     opex := {| cf_mining := ofZ 0; cf_processing := ofZ 0; cf_maintenance := ofZ 0;
                cf_labor := ofZ 0; cf_energy := ofZ 0; cf_gAndA := ofZ 0;
                cf_other := ofZ 0; cf_opex_total := ofZ 0 |};
     netCashflow := net; cumulativeCashflow := ofZ 0 |}.
End FurtherExampleInputs.

Definition later_clock : Clock :=
  {| now := iso_Date_parse "2031-01-01"; nowISO := "2031-01-01T00:00:00.000Z" |}.

(** In binary64 the shared boundary of the two tiers also goes to the
    first tier, a quantity above the last tier gets no discount, and an
    allocation without rules is by tonnage. *)
Example getVolumeDiscount_float :
  getVolumeDiscount (num:=PrimFloat.float) tiered_config "equipment" (ofZ 10) = ofZ 5 /\
  getVolumeDiscount (num:=PrimFloat.float) tiered_config "equipment" (ofZ 51) = ofZ 0 /\
  method (getAllocationMethod (num:=PrimFloat.float) tiered_config "insurance")
    = "tonnage"%string.
Proof. vm_compute. repeat split. Qed.

(** In binary64 the default configuration validates cleanly, and a
    negative base cost is reported for the item's index. *)
Example validate_float :
  validate (num:=PrimFloat.float) default_config = [] /\
  map field
    (validate (num:=PrimFloat.float)
       (applyVariation equipped_config "equipment_cost" (ofZ (-200))))
  = ["equipmentCatalog.items[0].baseCost"%string].
Proof. vm_compute. repeat split. Qed.


Lemma surgical_robot_life : usefulLife_years (surgical_robot (num:=R)) <> 0%R.
Proof. change (usefulLife_years (surgical_robot (num:=R))) with 10%R. lra. Qed.

Lemma calculateEquipmentRates_item_witness :
  exists rate,
    nth_error (calculateEquipmentRates (num:=R) equipped_config) 0 = Some rate /\
    costPerYear rate = (12 * costPerMonth rate)%R /\
    costPerDay rate = (hoursPerDay rate * costPerHour rate)%R.
Proof.
  destruct (@calculateEquipmentRates_item equipped_config 0 surgical_robot eq_refl
              surgical_robot_life)
    as (rate & Hrate & _ & Hyear & _ & Hday & _).
  exists rate. split; [exact Hrate|]. split; [exact Hyear | exact Hday].
Defined.

Lemma calculateLaborRates_role_witness :
  exists rate,
    nth_error (calculateLaborRates (num:=R) staffed_config) 0 = Some rate /\
    (baseRate rate + benefits rate)%R = loadedHourlyRate rate.
Proof.
  destruct (@calculateLaborRates_role staffed_config 0 robot_operator eq_refl)
    as (rate & Hrate & _ & Hbase & _).
  exists rate. split; [exact Hrate | exact Hbase].
Defined.

Lemma drill_bit_yields :
  metersPerUnit (drill_bit (num:=R)) <> 0%R /\ tonnesPerUnit (drill_bit (num:=R)) <> 0%R /\
  cyclesPerUnit (drill_bit (num:=R)) <> 0%R.
Proof.
  change (metersPerUnit (drill_bit (num:=R))) with 100%R.
  change (tonnesPerUnit (drill_bit (num:=R))) with 250%R.
  change (cyclesPerUnit (drill_bit (num:=R))) with 50%R.
  repeat split; lra.
Qed.

Lemma calculateConsumableRates_round_trip_witness :
  exists rate,
    nth_error (calculateConsumableRates (num:=R) [drill_bit]) 0 = Some rate /\
    (cr_costPerMeter rate * metersPerUnit (drill_bit (num:=R)))%R
      = costPerUnit (drill_bit (num:=R)) /\
    wearCurve rate = [].
Proof.
  destruct (@calculateConsumableRates_round_trip [drill_bit] 0 drill_bit eq_refl
              (proj1 drill_bit_yields) (proj1 (proj2 drill_bit_yields))
              (proj2 (proj2 drill_bit_yields)))
    as (rate & Hrate & Hmeter & _ & _ & Hcurve & _).
  exists rate. split; [exact Hrate|]. split; [exact Hmeter | exact (Hcurve [] eq_refl)].
Defined.

Lemma match_condition_groups_witness :
  all_chars is_operator_char ">=" = true /\ 1 <= String.length ">=" /\ is_value "6.5".
Proof. exact (@match_condition_groups ">= 6.5" ">=" "6.5" eq_refl). Defined.

Lemma volume_unknown : ~ known_attribute "volume".
Proof. intros [E | [E | [E | E]]]; discriminate. Qed.

Lemma evaluateCondition_never_holds_witness :
  evaluateCondition (num:=R) "volume" "> 10" deep_hard_block = false.
Proof.
  exact (@evaluateCondition_never_holds R _ _ deep_hard_block "volume" "> 10"
           (or_introl volume_unknown)).
Defined.

Lemma zero_is_falsy : truthy 0%R = false.
Proof. rewrite truthy_R. destruct (Req_dec_T 0 0); [reflexivity | lra]. Qed.

Lemma zero_threshold :
  parseFloat (num:=R) "0" = None \/
  exists x : R, parseFloat "0" = Some x /\ truthy x = false.
Proof. right. exists 0%R. split; [reflexivity | exact zero_is_falsy]. Qed.

Lemma evaluateCondition_falsy_threshold_witness :
  evaluateCondition (num:=R) "depth" "== 0" surface_block = false.
Proof.
  apply (proj1 (@evaluateCondition_falsy_threshold R _ _ surface_block "depth" "== 0"
                  "==" "0" (or_introl eq_refl) eq_refl zero_threshold)).
  right. reflexivity.
Defined.

Lemma five_hundred_nonzero : 500%R <> 0%R.
Proof. lra. Qed.

Lemma evaluateCondition_numeric_witness :
  evaluateCondition (num:=R) "depth" "> 500" deep_hard_block = true
  <-> (block_value deep_hard_block "depth" > 500)%R.
Proof.
  exact (proj1 (@evaluateCondition_numeric _ deep_hard_block "depth" "> 500" ">" "500"
                  500%R (or_introl eq_refl) eq_refl eq_refl five_hundred_nonzero)
           eq_refl).
Defined.

Lemma small_order_covers_ten : tier_covers "equipment" 10%R (small_order_tier (num:=R)).
Proof.
  split; [reflexivity|].
  change (minQuantity (small_order_tier (num:=R))) with 1%R.
  change (maxQuantity (small_order_tier (num:=R))) with 10%R. lra.
Qed.

Lemma getVolumeDiscount_first_tier_witness :
  getVolumeDiscount (num:=R) tiered_config "equipment" 10%R = 5%R.
Proof.
  change 5%R with (discountPercent (small_order_tier (num:=R))).
  apply (proj1 (@getVolumeDiscount_first_tier tiered_config "equipment" 10%R)
           [] small_order_tier [large_order_tier] eq_refl).
  - intros u [].
  - exact small_order_covers_ten.
Defined.

Lemma deep_hard_block_tonnage : (0 < tonnage (deep_hard_block (num:=R)))%R.
Proof. change (tonnage (deep_hard_block (num:=R))) with 100%R. lra. Qed.

Lemma calculateConsumablesCost_bounds_witness :
  (25 / 10 * tonnage (deep_hard_block (num:=R))
   <= calculateConsumablesCost (deep_hard_block (num:=R))
   <= 6 * tonnage (deep_hard_block (num:=R)))%R.
Proof.
  exact (proj1 (@calculateConsumablesCost_bounds deep_hard_block
                  (Rlt_le _ _ deep_hard_block_tonnage))).
Defined.

Lemma surface_below_deep :
  (depth (surface_block (num:=R)) <= depth (deep_hard_block (num:=R)))%R /\
  (hardness (surface_block (num:=R)) <= hardness (deep_hard_block (num:=R)))%R /\
  (0 <= tonnage (surface_block (num:=R)))%R.
Proof.
  change (depth (surface_block (num:=R))) with 0%R.
  change (depth (deep_hard_block (num:=R))) with 600%R.
  change (hardness (surface_block (num:=R))) with 5%R.
  change (hardness (deep_hard_block (num:=R))) with 9%R.
  change (tonnage (surface_block (num:=R))) with 100%R.
  repeat split; lra.
Qed.

Lemma calculateConsumablesCost_monotone_witness :
  (calculateConsumablesCost (surface_block (num:=R))
   <= calculateConsumablesCost (deep_hard_block (num:=R)))%R.
Proof.
  exact (@calculateConsumablesCost_monotone surface_block deep_hard_block eq_refl
           (proj2 (proj2 surface_below_deep)) (proj1 surface_below_deep)
           (proj1 (proj2 surface_below_deep))).
Defined.

Lemma calculateCAPEXAllocation_per_block_witness :
  equipmentDepreciation (calculateCAPEXAllocation (num:=R) equipped_config deep_hard_block)
  = (equipment_capital equipped_config / 1000)%R.
Proof.
  exact (proj1 (@calculateCAPEXAllocation_per_block equipped_config deep_hard_block
                  (Rgt_not_eq _ _ deep_hard_block_tonnage))).
Defined.

Lemma deep_hard_block_cost :
  exists r,
    calculateBlockCost (num:=R) staffed_config example_clock deep_hard_block = Returns r.
Proof.
  apply (@calculateBlockCost_resolved R _ _ staffed_config example_clock deep_hard_block
           {| metersPerHour := (8 / 10)%R; pr_rockType := "hard" |}).
  reflexivity.
Qed.

Lemma calculateBlockCost_breakdown_witness :
  exists r,
    calculateBlockCost (num:=R) staffed_config example_clock deep_hard_block = Returns r /\
    Rsum (map (@cost R) (breakdown r)) = subtotal r.
Proof.
  destruct deep_hard_block_cost as [r Hr]. exists r. split; [exact Hr|].
  exact (proj1 (proj2 (@calculateBlockCost_breakdown _ staffed_config example_clock
                         deep_hard_block r Hr))).
Defined.

Lemma calculateBlockCost_unit_costs_witness :
  exists r,
    calculateBlockCost (num:=R) staffed_config example_clock deep_hard_block = Returns r /\
    (costPerTonne r * tonnage (deep_hard_block (num:=R)))%R = grandTotal r.
Proof.
  destruct deep_hard_block_cost as [r Hr]. exists r. split; [exact Hr|].
  exact (proj1 (@calculateBlockCost_unit_costs _ staffed_config example_clock
                  deep_hard_block r Hr)
           (Rgt_not_eq _ _ deep_hard_block_tonnage)).
Defined.

Lemma staffed_role_codes :
  forall role, In role (roles (laborCatalog (staffed_config (num:=R)))) ->
    exists pre post,
      roleCode role = (pre ++ "direct" ++ post)%string \/
      roleCode role = (pre ++ "indirect" ++ post)%string.
Proof.
  intros role [<- | [<- | []]].
  - exists ""%string, "-operator"%string. left. reflexivity.
  - exists ""%string, "-supervisor"%string. right. reflexivity.
Qed.

Lemma calculateLaborCost_indirect_full_weight_witness :
  calculateLaborCost (num:=R) staffed_config deep_hard_block
  = Returns (Rsum (map (@effectiveHourlyRate R) (calculateLaborRates staffed_config))
             * hours_at staffed_config deep_hard_block
                 {| metersPerHour := (8 / 10)%R; pr_rockType := "hard" |})%R.
Proof.
  exact (@calculateLaborCost_indirect_full_weight staffed_config deep_hard_block
           {| metersPerHour := (8 / 10)%R; pr_rockType := "hard" |} eq_refl
           staffed_role_codes).
Defined.

(** A code in capitals is not recognised as direct labor. *)
Example includes_is_case_sensitive :
  includes "direct" "DIRECT-OPERATOR" = false /\
  includes "direct" "indirect-supervisor" = true.
Proof. split; reflexivity. Qed.

Lemma createDefaultConfig_block_cost_witness :
  exists r,
    calculateBlockCost (num:=R) (createDefaultConfig example_clock 2024) later_clock
      deep_hard_block = Returns r /\
    (385 / 100 <= costPerTonne r <= 77 / 10)%R.
Proof.
  destruct (@createDefaultConfig_block_cost _ example_clock later_clock 2024
              deep_hard_block deep_hard_block_tonnage)
    as (r & Hr & _ & _ & _ & Hrange).
  exists r. split; [exact Hr | exact Hrange].
Defined.

Lemma generateCashflow_same_inputs_witness :
  generateCashflow (num:=R) default_config example_clock [deep_hard_block] march_schedule
  = generateCashflow policy_config later_clock [deep_hard_block] march_schedule.
Proof.
  exact (@generateCashflow_same_inputs R _ _ default_config policy_config
           example_clock later_clock
           (conj eq_refl (conj eq_refl (conj eq_refl (conj eq_refl eq_refl))))
           [deep_hard_block] march_schedule).
Defined.

Lemma default_series :
  exists cfs,
    generateCashflow (num:=R) default_config example_clock [deep_hard_block] march_schedule
      = Returns cfs.
Proof.
  exact (generateCashflow_returns (num:=R) example_clock march_schedule
           deep_hard_block_resolved).
Qed.

Lemma generateCashflow_periods_witness :
  exists cfs,
    generateCashflow (num:=R) default_config example_clock [deep_hard_block] march_schedule
      = Returns cfs /\
    List.length cfs = 192%nat.
Proof.
  destruct default_series as [cfs Hcfs]. exists cfs. split; [exact Hcfs|].
  exact (proj2 (@generateCashflow_periods R _ _ default_config example_clock
                  [deep_hard_block] march_schedule cfs Hcfs)).
Defined.

Lemma generateSummary_totals_witness :
  exists cfs,
    generateCashflow (num:=R) default_config example_clock [deep_hard_block] march_schedule
      = Returns cfs /\
    totalCashflow (generateSummary default_config cfs)
    = (- (totalCAPEX (generateSummary default_config cfs)
          + totalOPEX (generateSummary default_config cfs)))%R.
Proof.
  destruct default_series as [cfs Hcfs]. exists cfs. split; [exact Hcfs|].
  exact (proj1 (@generateSummary_totals _ default_config example_clock _
                  [deep_hard_block] march_schedule cfs Hcfs)).
Defined.

Lemma two_costly_periods :
  Forall (fun cf => (netCashflow cf <= 0)%R)
    [bare_period (-100)%R; bare_period (-50)%R].
Proof.
  constructor; [| constructor; [| constructor]].
  - change (netCashflow (bare_period (-100)%R)) with (-100)%R. lra.
  - change (netCashflow (bare_period (-50)%R)) with (-50)%R. lra.
Qed.

Lemma first_period_costs : (netCashflow (bare_period (-100)%R) < 0)%R.
Proof. change (netCashflow (bare_period (-100)%R)) with (-100)%R. lra. Qed.

Lemma generateSummary_payback_witness :
  paybackMonths
    (generateSummary (num:=R) default_config
       (accumulate 0%R [bare_period (-100)%R; bare_period (-50)%R]))
  = 2%nat.
Proof.
  exact (proj1 (proj2 (@generateSummary_payback default_config _
                         [bare_period (-100)%R; bare_period (-50)%R] two_costly_periods))
           (bare_period (-100)%R) [bare_period (-50)%R] eq_refl first_period_costs).
Defined.

Lemma no_discounting :
  discountRate
    (aggregatorSettings (applyVariation (num:=R) default_config "discount_rate" (-100)%R))
  = 0%R.
Proof.
  change (discountRate
            (aggregatorSettings
               (applyVariation (num:=R) default_config "discount_rate" (-100)%R)))
    with (8 / 100 * (1 + -100 / 100))%R.
  lra.
Qed.

Lemma generateSummary_npv_undiscounted_witness :
  npv (generateSummary (applyVariation (num:=R) default_config "discount_rate" (-100)%R)
         (accumulate 0%R [bare_period (-100)%R; bare_period (-50)%R]))
  = Rsum (map (@netCashflow R)
            (accumulate 0%R [bare_period (-100)%R; bare_period (-50)%R])).
Proof.
  exact (@generateSummary_npv_undiscounted
           (applyVariation default_config "discount_rate" (-100)%R)
           (accumulate 0%R [bare_period (-100)%R; bare_period (-50)%R])
           no_discounting).
Defined.

Lemma calculateIRR_single_cash_flow_witness :
  calculateIRR [(-1000)%R; 0%R; 0%R] (1 / 10)%R = None.
Proof.
  exact (proj1 (@calculateIRR_single_cash_flow (-1000)%R (1 / 10)%R [0%R; 0%R]
                  (Forall_cons _ eq_refl (Forall_cons _ eq_refl (Forall_nil _))))).
Defined.

Lemma fuel_price_unknown : ~ known_variable "fuel_price".
Proof. intros [E | [E | E]]; discriminate. Qed.

Lemma default_projection :
  exists base,
    runFullProjection (num:=R) default_config example_clock [deep_hard_block] march_schedule
      = Returns base.
Proof.
  unfold runFullProjection.
  destruct (@calculateBlocks_returns R _ _ default_config example_clock [deep_hard_block]
              deep_hard_block_resolved) as [costs ->].
  destruct default_series as [cfs ->].
  cbn [bind]. eexists. reflexivity.
Qed.

Lemma runSensitivity_unknown_variable_witness :
  exists base,
    runFullProjection (num:=R) default_config example_clock [deep_hard_block] march_schedule
      = Returns base /\
    runSensitivity (num:=R) default_config example_clock [deep_hard_block] march_schedule
      "fuel_price" [(-10)%R; 10%R]
    = Returns [ {| variation := (-10)%R; sens_npv := npv (summary base);
                   sens_irr := irr (summary base) |};
                {| variation := 10%R; sens_npv := npv (summary base);
                   sens_irr := irr (summary base) |} ].
Proof.
  destruct default_projection as [base Hbase]. exists base. split; [exact Hbase|].
  exact (@runSensitivity_unknown_variable R _ _ _ default_config example_clock
           [deep_hard_block] march_schedule "fuel_price" [(-10)%R; 10%R] base
           fuel_price_unknown Hbase).
Defined.
